(** * The round coordinator of the federated-learning server

    A shallow embedding of [server/server.py] (class [Server]) and of the
    two callback routes of [server/__init__.py], followed by the properties
    of the coordinator: registry, round state machine, dispatch responses
    and parameter averaging.

    Python objects are mutable and shared; here the coordinator is a record
    that is threaded through a small monad.  An exception leaves the
    mutations made before it in place, exactly as in Python, so the monad
    returns the state reached together with either a value or the raised
    exception, and the lines written to standard output or sent over HTTP
    so far. *)

From Stdlib Require Import List String Bool Arith Lia QArith Qcanon Permutation.
Import ListNotations.
Local Open Scope string_scope.
Local Open Scope list_scope.
Local Open Scope nat_scope.

Set Implicit Arguments.

(* ------------------------------------------------------------------ *)
(** ** Enumerations and value objects                                   *)
(* ------------------------------------------------------------------ *)

(** Modelled from the spec: [client_training_status.py] is not part of the
    source tree.  The four members are the ones [server.py] names and the
    per-participant states of the spec:
    IDLE, REQUESTED, FINISHED, REQUEST_ERROR. *)
Module ClientTrainingStatus.
Inductive t : Type :=
| IDLE
| TRAINING_REQUESTED
| TRAINING_FINISHED
| TRAINING_REQUEST_ERROR.

Definition eqb (a b : t) : bool :=
  match a, b with
  | IDLE, IDLE
  | TRAINING_REQUESTED, TRAINING_REQUESTED
  | TRAINING_FINISHED, TRAINING_FINISHED
  | TRAINING_REQUEST_ERROR, TRAINING_REQUEST_ERROR => true
  | _, _ => false
  end.
End ClientTrainingStatus.

(** Modelled from the spec: [server_status.py] is not part of the source
    tree.  The three members are the ones [server.py] names and the
    server-level states of the spec. *)
Module ServerStatus.
Inductive t : Type :=
| IDLE
| CLIENTS_TRAINING
| UPDATING_MODEL_PARAMS.

Definition eqb (a b : t) : bool :=
  match a, b with
  | IDLE, IDLE
  | CLIENTS_TRAINING, CLIENTS_TRAINING
  | UPDATING_MODEL_PARAMS, UPDATING_MODEL_PARAMS => true
  | _, _ => false
  end.
End ServerStatus.

(** Modelled from the spec: [training_type.py] is not part of the source
    tree.  A training type arrives as a JSON string and is compared with
    the four members named in [server.py]; each member is taken to be the
    string of its own name. *)
Module TrainingType.
Definition MNIST : string := "MNIST".
Definition DETERMINISTIC_MNIST : string := "DETERMINISTIC_MNIST".
Definition GOSSIP_MNIST : string := "GOSSIP_MNIST".
Definition CHEST_X_RAY_PNEUMONIA : string := "CHEST_X_RAY_PNEUMONIA".
End TrainingType.

(** Numeric containers.  A torch tensor or a numpy array is its shape and
    its entries in row-major order.  The entries are floating-point
    numbers.  Those that were sent by a participant or drawn at
    initialisation are given by their values.  Those that
    [stack(...).mean(0)] computes from several rows are kept as that
    computation, [MeanOf rows], and are not evaluated: the library rounds
    the sums and the quotient, in an order of its own. *)
#[warnings="-register-all"]
Inductive Entries : Type :=
| Floats (values : list Qc)
| MeanOf (rows : list Entries).

Record Tensor : Type := mkTensor
  { shape : list nat;
    entries : Entries }.

(** The one-dimensional tensor of the given values. *)
Definition vec (values : list Qc) : Tensor :=
  mkTensor [List.length values] (Floats values).

(** What a [model_params] attribute can hold: [None], the MNIST pair
    [(weights, bias)], or the chest X-ray weight array. *)
Inductive ModelParams : Type :=
| NoParams
| MnistParams (weights bias : Tensor)
| ChestParams (weights : Tensor).

(** Modelled from the spec: [federated_learning_config.py] is not part of
    the source tree; the value object carries learning rate, epoch count
    and batch size. *)
Module FederatedLearningConfig.
Record t : Type := mk
  { learning_rate : Qc;
    epochs : nat;
    batch_size : nat }.
End FederatedLearningConfig.

(** Modelled from the spec: [training_client.py] is not part of the source
    tree.  [TrainingClient(client_url, client_id)] starts idle with no
    parameters. *)
Module TrainingClient.
Record t : Type := mk
  { client_url : string;
    client_id : nat;
    status : ClientTrainingStatus.t;
    model_params : ModelParams }.

Definition new (url : string) (id : nat) : t :=
  mk url id ClientTrainingStatus.IDLE NoParams.

Definition set_status (st : ClientTrainingStatus.t) (c : t) : t :=
  mk (client_url c) (client_id c) st (model_params c).

Definition set_model_params (p : ModelParams) (c : t) : t :=
  mk (client_url c) (client_id c) (status c) p.
End TrainingClient.

(** The body of the outbound [POST <client_url>/training].
    Modelled from the spec: [utils.model_params_to_request_params] is not
    part of the source tree; the serialised parameters are kept as the
    parameter set they were built from. *)
Module RequestBody.
Record t : Type := mk
  { params : ModelParams;
    learning_rate : Qc;
    epochs : nat;
    batch_size : nat;
    training_type : string;
    round : nat;
    clients : option (list (nat * string));
    round_size : option nat;
    client_id : option nat }.

Definition set_clients (l : list (nat * string)) (b : t) : t :=
  mk (params b) (learning_rate b) (epochs b) (batch_size b)
     (training_type b) (round b) (Some l) (round_size b) (client_id b).

Definition set_round_size (n : nat) (b : t) : t :=
  mk (params b) (learning_rate b) (epochs b) (batch_size b)
     (training_type b) (round b) (clients b) (Some n) (client_id b).

Definition set_client_id (n : nat) (b : t) : t :=
  mk (params b) (learning_rate b) (epochs b) (batch_size b)
     (training_type b) (round b) (clients b) (round_size b) (Some n).
End RequestBody.

(* ------------------------------------------------------------------ *)
(** ** The registry: a Python dict keyed by client url                  *)
(* ------------------------------------------------------------------ *)

(** A dict keeps insertion order, and the loops of [server.py] run over
    [values()] in that order, so the registry is an association list. *)
Definition Registry : Type := list (string * TrainingClient.t).

Definition keys (d : Registry) : list string := map fst d.
Definition values (d : Registry) : list TrainingClient.t := map snd d.

(** [d.get(k)] *)
Fixpoint dict_get (d : Registry) (k : string) : option TrainingClient.t :=
  match d with
  | [] => None
  | (k', c) :: rest => if String.eqb k k' then Some c else dict_get rest k
  end.

(** [d[k] = c] *)
Fixpoint dict_set (d : Registry) (k : string) (c : TrainingClient.t) : Registry :=
  match d with
  | [] => [(k, c)]
  | (k', c') :: rest =>
      if String.eqb k k' then (k', c) :: rest else (k', c') :: dict_set rest k c
  end.

(** [d.pop(k)], the entry removed when present *)
Fixpoint dict_remove (d : Registry) (k : string) : Registry :=
  match d with
  | [] => []
  | (k', c') :: rest =>
      if String.eqb k k' then rest else (k', c') :: dict_remove rest k
  end.

(** Mutation of the client object stored under [k] (no entry: the object
    is not in the registry and the registry is untouched). *)
Fixpoint dict_update (d : Registry) (k : string)
    (f : TrainingClient.t -> TrainingClient.t) : Registry :=
  match d with
  | [] => []
  | (k', c') :: rest =>
      if String.eqb k k' then (k', f c') :: rest
      else (k', c') :: dict_update rest k f
  end.

(* ------------------------------------------------------------------ *)
(** ** Coordinator state, exceptions, effects                           *)
(* ------------------------------------------------------------------ *)

Record Server : Type := mkServer
  { mnist_model_params : ModelParams;
    chest_x_ray_model_params : ModelParams;
    training_clients : Registry;
    status : ServerStatus.t;
    round : nat }.

Definition set_mnist_model_params (p : ModelParams) (s : Server) : Server :=
  mkServer p (chest_x_ray_model_params s) (training_clients s) (status s) (round s).

Definition set_chest_x_ray_model_params (p : ModelParams) (s : Server) : Server :=
  mkServer (mnist_model_params s) p (training_clients s) (status s) (round s).

Definition set_training_clients (d : Registry) (s : Server) : Server :=
  mkServer (mnist_model_params s) (chest_x_ray_model_params s) d (status s) (round s).

Definition set_status (st : ServerStatus.t) (s : Server) : Server :=
  mkServer (mnist_model_params s) (chest_x_ray_model_params s)
           (training_clients s) st (round s).

Definition set_round (n : nat) (s : Server) : Server :=
  mkServer (mnist_model_params s) (chest_x_ray_model_params s)
           (training_clients s) (status s) n.

(** [Server.__init__]: the MNIST pair is drawn at random by [init_params],
    so it is an argument here. *)
Definition init (weights bias : Tensor) : Server :=
  mkServer (MnistParams weights bias) NoParams [] ServerStatus.IDLE 0.

(** The exceptions of Python that the coordinator can end in.
    [Unmodelled] is none of them: it ends a run at a library call whose
    behaviour on the objects at hand is not described here. *)
Inductive Exn : Type :=
| AttributeError
| KeyError
| IndexError
| TypeError
| RuntimeError
| ValueError
| ClientConnectorError
| Unmodelled.

(** What the coordinator writes to standard output, and the requests it
    sends. *)
Inductive Effect : Type :=
| PrintServerNotReady (st : ServerStatus.t)
| PrintClient (c : TrainingClient.t)
| PrintNoClients
| PrintClientsRegistered (n : nat)
| PrintRequestingTraining
| PrintRequestingClient (request_url : string)
| PrintErrorRequesting (url : string)
| PrintClientStarted (url : string)
| PrintNewModelParams (url : string)
| PrintUpdatingGlobal
| PrintModelWeightsUpdated (training_type : string)
| PrintRegistering (url : string)
| PrintAlreadyRegistered (url : string)
| PrintUnregistering (url : string)
| PrintUnregistered (url : string)
| PrintNotRegisteredYet (url : string)
| PrintRouteRequest (route url training_type : string)
| PrintNotRegistered (url : string)
| HttpPost (request_url : string) (body : RequestBody.t).

Inductive Outcome (A : Type) : Type :=
| Returned (a : A)
| Raised (e : Exn).
Arguments Raised {A} e.

Record Out (A : Type) : Type := mkOut
  { server_of : Server;
    effects_of : list Effect;
    outcome_of : Outcome A }.

Definition M (A : Type) : Type := Server -> Out A.

Definition ret {A} (a : A) : M A := fun s => mkOut s [] (Returned a).

Definition raise {A} (e : Exn) : M A := fun s => mkOut s [] (Raised e).

Definition bind {A B} (m : M A) (k : A -> M B) : M B := fun s =>
  match m s with
  | mkOut s1 es1 (Returned a) =>
      match k a s1 with
      | mkOut s2 es2 r => mkOut s2 (es1 ++ es2) r
      end
  | mkOut s1 es1 (Raised e) => mkOut s1 es1 (Raised e)
  end.

Definition get : M Server := fun s => mkOut s [] (Returned s).

Definition modify (f : Server -> Server) : M unit :=
  fun s => mkOut (f s) [] (Returned tt).

Definition emit (e : Effect) : M unit := fun s => mkOut s [e] (Returned tt).

(** [try: m  except exn: h] *)
Definition try_except {A} (m : M A) (exn : Exn -> bool) (h : M A) : M A := fun s =>
  match m s with
  | mkOut s1 es1 (Returned a) => mkOut s1 es1 (Returned a)
  | mkOut s1 es1 (Raised e) =>
      if exn e then
        match h s1 with
        | mkOut s2 es2 r => mkOut s2 (es1 ++ es2) r
        end
      else mkOut s1 es1 (Raised e)
  end.

Declare Scope py_scope.
Delimit Scope py_scope with py.
Notation "x <- m ;; k" := (bind m (fun x => k))
  (at level 61, m at next level, right associativity) : py_scope.
Notation "m ;; k" := (bind m (fun _ => k))
  (at level 61, right associativity) : py_scope.
Local Open Scope py_scope.

(** [for x in xs: body(x)] *)
Fixpoint for_each {A} (xs : list A) (body : A -> M unit) : M unit :=
  match xs with
  | [] => ret tt
  | x :: rest => body x ;; for_each rest body
  end.

(** Mutation of the client object registered under [url]. *)
Definition update_client (url : string)
    (f : TrainingClient.t -> TrainingClient.t) : M unit :=
  modify (fun s => set_training_clients (dict_update (training_clients s) url f) s).

(** Iteration over [training_clients.values()] by a body that reads and
    mutates the client it is handed and grows a local accumulator.  The
    body raising stops the loop; the clients visited before keep the
    mutations already made. *)
Fixpoint for_each_client {A}
    (body : TrainingClient.t -> A -> Outcome (TrainingClient.t * A))
    (d : Registry) (acc : A) : Registry * Outcome A :=
  match d with
  | [] => ([], Returned acc)
  | (k, c) :: rest =>
      match body c acc with
      | Returned (c', acc') =>
          let (rest', r) := for_each_client body rest acc' in
          ((k, c') :: rest', r)
      | Raised e => ((k, c) :: rest, Raised e)
      end
  end.

Definition loop_over_clients {A}
    (body : TrainingClient.t -> A -> Outcome (TrainingClient.t * A))
    (acc : A) : M A := fun s =>
  let (d, r) := for_each_client body (training_clients s) acc in
  mkOut (set_training_clients d s) [] r.

(** [training_clients[url]] *)
Definition lookup_client (url : string) : M TrainingClient.t :=
  s <- get ;;
  match dict_get (training_clients s) url with
  | Some c => ret c
  | None => raise KeyError
  end.

(** [training_clients.pop(url)] *)
Definition pop_client (url : string) : M TrainingClient.t :=
  c <- lookup_client url ;;
  modify (fun s => set_training_clients (dict_remove (training_clients s) url) s) ;;
  ret c.

Definition is_KeyError (e : Exn) : bool :=
  match e with KeyError => true | _ => false end.

(* ------------------------------------------------------------------ *)
(** ** Averaging: [stack(...).mean(0)]                                  *)
(* ------------------------------------------------------------------ *)

Definition Qc_of_nat (n : nat) : Qc := Q2Qc (inject_Z (Z.of_nat n)).

Fixpoint shape_eqb (a b : list nat) : bool :=
  match a, b with
  | [], [] => true
  | x :: a', y :: b' => Nat.eqb x y && shape_eqb a' b'
  | _, _ => false
  end.

Definition same_shape (t : Tensor) (rest : list Tensor) : bool :=
  forallb (fun u => shape_eqb (shape u) (shape t)) rest.

(** [mean(0)] of the stack of [t :: rest], the rows having the shape of
    [t].  The mean of a single row is that row: a sum of one term and a
    quotient by 1 round nothing. *)
Definition mean0 (t : Tensor) (rest : list Tensor) : Tensor :=
  match rest with
  | [] => t
  | _ :: _ => mkTensor (shape t) (MeanOf (map entries (t :: rest)))
  end.

(** [stack] refuses an empty list and rows of different shapes (torch with
    [RuntimeError], numpy with [ValueError]). *)
Definition stack_mean (refusal : Exn) (rows : list Tensor) : Outcome Tensor :=
  match rows with
  | [] => Raised refusal
  | t :: rest =>
      if same_shape t rest then Returned (mean0 t rest) else Raised refusal
  end.

(** What the MNIST loop reads out of [model_params] by subscripting: a
    tensor, or a part of a numpy array, which is not one. *)
Inductive Item : Type :=
| TensorItem (t : Tensor)
| ArrayItem.

(** [model_params[i]]: [None] cannot be subscripted, the pair has two
    members, and an array is subscripted along its first axis. *)
Definition subscript (p : ModelParams) (i : nat) : Outcome Item :=
  match p with
  | NoParams => Raised TypeError
  | MnistParams w b =>
      match i with
      | 0 => Returned (TensorItem w)
      | 1 => Returned (TensorItem b)
      | _ => Raised IndexError
      end
  | ChestParams a =>
      match shape a with
      | [] => Raised IndexError
      | n :: _ => if Nat.ltb i n then Returned ArrayItem else Raised IndexError
      end
  end.

Fixpoint tensors_of (items : list Item) : option (list Tensor) :=
  match items with
  | [] => Some []
  | TensorItem t :: rest =>
      match tensors_of rest with
      | Some ts => Some (t :: ts)
      | None => None
      end
  | ArrayItem :: _ => None
  end.

(** [torch.stack(items).mean(0)]: an item that is not a tensor is refused
    with [TypeError] when the arguments are read, before anything is
    stacked. *)
Definition torch_stack_mean (items : list Item) : Outcome Tensor :=
  match tensors_of items with
  | Some rows => stack_mean RuntimeError rows
  | None => Raised TypeError
  end.

(** The shape of what [np.stack] converts an entry to: a weight array is
    itself, [None] becomes an array of no dimension that holds the
    object. *)
Definition array_shape (p : ModelParams) : list nat :=
  match p with
  | ChestParams a => shape a
  | _ => []
  end.

Fixpoint chest_arrays (l : list ModelParams) : option (list Tensor) :=
  match l with
  | [] => Some []
  | ChestParams w :: rest =>
      match chest_arrays rest with
      | Some ws => Some (w :: ws)
      | None => None
      end
  | _ :: _ => None
  end.

Definition is_pair (p : ModelParams) : bool :=
  match p with MnistParams _ _ => true | _ => false end.

(** [np.stack(received_weights).mean(0)] over what the clients hold in
    [model_params].  The list must not be empty and the converted entries
    must be of one shape ([ValueError]); the mean of an array that holds
    [None] cannot be taken ([TypeError]).  What the conversion makes of a
    pair of torch tensors depends on the tensors and is not described. *)
Definition np_stack_mean (l : list ModelParams) : Outcome Tensor :=
  match l with
  | [] => Raised ValueError
  | p :: rest =>
      if existsb is_pair l then Raised Unmodelled
      else if forallb (fun p' => shape_eqb (array_shape p') (array_shape p)) rest then
        match chest_arrays l with
        | Some ws => stack_mean ValueError ws
        | None => Raised TypeError
        end
      else Raised ValueError
  end.

Definition lift {A} (o : Outcome A) : M A := fun s => mkOut s [] o.

(* ------------------------------------------------------------------ *)
(** ** class Server                                                     *)
(* ------------------------------------------------------------------ *)

Definition is_finished (c : TrainingClient.t) : bool :=
  ClientTrainingStatus.eqb (TrainingClient.status c) ClientTrainingStatus.TRAINING_FINISHED.

(** [can_update_central_model_params]: the quorum predicate. *)
Definition can_update_central_model_params (s : Server) : bool :=
  forallb (fun c =>
    negb (negb (ClientTrainingStatus.eqb (TrainingClient.status c)
                  ClientTrainingStatus.TRAINING_FINISHED)
          && negb (ClientTrainingStatus.eqb (TrainingClient.status c)
                  ClientTrainingStatus.TRAINING_REQUEST_ERROR)))
    (values (training_clients s)).

(** [can_do_training] *)
Definition can_do_training (s : Server) : bool :=
  forallb (fun c =>
    negb (negb (ClientTrainingStatus.eqb (TrainingClient.status c)
                  ClientTrainingStatus.IDLE)
          && negb (ClientTrainingStatus.eqb (TrainingClient.status c)
                  ClientTrainingStatus.TRAINING_REQUEST_ERROR)))
    (values (training_clients s)).

(** Body of the loop of lines 160-164.  The two subscripts of
    [model_params] precede the status reset, so a client whose parameters
    cannot be subscripted raises before it is touched. *)
Definition collect_mnist (c : TrainingClient.t) (acc : list Item * list Item)
  : Outcome (TrainingClient.t * (list Item * list Item)) :=
  if is_finished c then
    match subscript (TrainingClient.model_params c) 0 with
    | Returned w =>
        match subscript (TrainingClient.model_params c) 1 with
        | Returned b =>
            Returned (TrainingClient.set_status ClientTrainingStatus.IDLE c,
                      (fst acc ++ [w], snd acc ++ [b]))
        | Raised e => Raised e
        end
    | Raised e => Raised e
    end
  else Returned (c, acc).

(** Body of the loop of lines 171-174: the status is reset first and
    whatever the client holds is appended. *)
Definition collect_chest (c : TrainingClient.t) (acc : list ModelParams)
  : Outcome (TrainingClient.t * list ModelParams) :=
  if is_finished c then
    Returned (TrainingClient.set_status ClientTrainingStatus.IDLE c,
              acc ++ [TrainingClient.model_params c])
  else Returned (c, acc).

Definition is_mnist (training_type : string) : bool :=
  String.eqb training_type TrainingType.MNIST
  || String.eqb training_type TrainingType.DETERMINISTIC_MNIST.

Definition update_server_model_params (training_type : string) : M unit :=
  s <- get ;;
  if can_update_central_model_params s then
    emit PrintUpdatingGlobal ;;
    modify (set_status ServerStatus.UPDATING_MODEL_PARAMS) ;;
    (if is_mnist training_type then
       received <- loop_over_clients collect_mnist ([], []) ;;
       new_weights <- lift (torch_stack_mean (fst received)) ;;
       new_bias <- lift (torch_stack_mean (snd received)) ;;
       modify (set_mnist_model_params (MnistParams new_weights new_bias)) ;;
       emit (PrintModelWeightsUpdated training_type)
     else if String.eqb training_type TrainingType.CHEST_X_RAY_PNEUMONIA then
       received_weights <- loop_over_clients collect_chest [] ;;
       new_weights <- lift (np_stack_mean received_weights) ;;
       modify (set_chest_x_ray_model_params (ChestParams new_weights)) ;;
       emit (PrintModelWeightsUpdated TrainingType.CHEST_X_RAY_PNEUMONIA)
     else ret tt) ;;
    modify (set_status ServerStatus.IDLE)
  else ret tt.

(** [update_client_model_params]; the client object is named by the key it
    is registered under. *)
Definition update_client_model_params (training_type : string)
    (training_client : string) (client_model_params : ModelParams) : M unit :=
  emit (PrintNewModelParams training_client) ;;
  update_client training_client (TrainingClient.set_model_params client_model_params) ;;
  update_client training_client
    (TrainingClient.set_status ClientTrainingStatus.TRAINING_FINISHED) ;;
  update_server_model_params training_type.

Definition finish_round (training_type : string) (training_client : string) : M unit :=
  update_client training_client
    (TrainingClient.set_status ClientTrainingStatus.TRAINING_FINISHED) ;;
  s <- get ;;
  if can_update_central_model_params s
     && String.eqb training_type TrainingType.GOSSIP_MNIST
  then
    modify (set_status ServerStatus.IDLE) ;;
    loop_over_clients
      (fun c (_ : unit) =>
         Returned (TrainingClient.set_status ClientTrainingStatus.IDLE c, tt)) tt
  else ret tt.

Definition register_client (client_url : string) : M unit :=
  emit (PrintRegistering client_url) ;;
  s <- get ;;
  match dict_get (training_clients s) client_url with
  | None =>
      let next_client_id := List.length (training_clients s) + 1 in
      modify (set_training_clients
                (dict_set (training_clients s) client_url
                          (TrainingClient.new client_url next_client_id)))
  | Some _ =>
      emit (PrintAlreadyRegistered client_url) ;;
      update_client client_url (TrainingClient.set_status ClientTrainingStatus.IDLE)
  end.

Definition unregister_client (client_url : string) : M unit :=
  emit (PrintUnregistering client_url) ;;
  try_except
    (_ <- pop_client client_url ;;
     emit (PrintUnregistered client_url))
    is_KeyError
    (emit (PrintNotRegisteredYet client_url)).

(** What awaiting [session.post(...)] yields: a response with its status
    code, or the exception aiohttp raises when the request cannot be
    carried out. *)
Inductive PostResult : Type :=
| HttpResponse (status_code : nat)
| ConnectionFailed.

(** [do_training_client_request] up to the point where it suspends on
    [session.post] (lines 109-115): the client is marked requested and the
    request leaves with the client's own id in the shared body. *)
Definition do_training_client_request_begin (request_body : RequestBody.t)
    (entry : string * TrainingClient.t) : M unit :=
  let (key, training_client) := entry in
  let request_url := String.append (TrainingClient.client_url training_client) "/training" in
  emit (PrintRequestingClient request_url) ;;
  update_client key
    (TrainingClient.set_status ClientTrainingStatus.TRAINING_REQUESTED) ;;
  emit (HttpPost request_url
          (RequestBody.set_client_id (TrainingClient.client_id training_client)
                                     request_body)).

(** [do_training_client_request] from the point where [session.post]
    resumes (lines 115-121).  Nothing catches the exception of a failed
    connection. *)
Definition do_training_client_request_resume (training_type : string)
    (training_client : string) (response : PostResult) : M unit :=
  match response with
  | ConnectionFailed => raise ClientConnectorError
  | HttpResponse status_code =>
      if negb (Nat.eqb status_code 200) then
        emit (PrintErrorRequesting training_client) ;;
        update_client training_client
          (TrainingClient.set_status ClientTrainingStatus.TRAINING_REQUEST_ERROR) ;;
        update_server_model_params training_type
      else emit (PrintClientStarted training_client)
  end.

(** The fixed table of lines 68-79: the parameters that go into the
    request and the training configuration, [None] outside the table. *)
Definition select_config (training_type : string) (s : Server)
  : ModelParams * option FederatedLearningConfig.t :=
  if String.eqb training_type TrainingType.MNIST
     || String.eqb training_type TrainingType.DETERMINISTIC_MNIST
  then (mnist_model_params s,
        Some (FederatedLearningConfig.mk (Qc_of_nat 1) 20 256))
  else if String.eqb training_type TrainingType.GOSSIP_MNIST
  then (NoParams, Some (FederatedLearningConfig.mk (Qc_of_nat 1) 20 256))
  else if String.eqb training_type TrainingType.CHEST_X_RAY_PNEUMONIA
  then (chest_x_ray_model_params s,
        Some (FederatedLearningConfig.mk (Q2Qc (1 # 10000)) 1 2))
  else (NoParams, None).

(** [start_training] up to the point where every dispatch task is
    suspended on its [session.post], inside the [await] of [asyncio.gather].
    The tasks are created before the status changes and first run inside
    [gather]; each runs without suspending until its request is on its
    way, so all of them have marked their client before any response is
    looked at.  What the call does with the answers is [gather] below, and
    the call as a whole is [start_training_call].
    Reading an attribute of the [None] configuration raises. *)
Definition start_training (training_type : string) : M unit :=
  s <- get ;;
  if negb (ServerStatus.eqb (status s) ServerStatus.IDLE) then
    emit (PrintServerNotReady (status s)) ;;
    for_each (values (training_clients s)) (fun c => emit (PrintClient c))
  else if Nat.eqb (List.length (training_clients s)) 0 then
    emit PrintNoClients
  else
    modify (fun s => set_round (round s + 1) s) ;;
    s <- get ;;
    let (request_params, federated_learning_config) := select_config training_type s in
    config <- match federated_learning_config with
              | Some c => ret c
              | None => raise AttributeError
              end ;;
    let request_body :=
      RequestBody.mk request_params
        (FederatedLearningConfig.learning_rate config)
        (FederatedLearningConfig.epochs config)
        (FederatedLearningConfig.batch_size config)
        training_type (round s) None None None in
    let request_body :=
      if String.eqb training_type TrainingType.GOSSIP_MNIST then
        RequestBody.set_clients
          (map (fun c => (TrainingClient.client_id c, TrainingClient.client_url c))
               (values (training_clients s)))
          request_body
      else request_body in
    emit (PrintClientsRegistered (List.length (training_clients s))) ;;
    let request_body :=
      if String.eqb training_type TrainingType.DETERMINISTIC_MNIST
         || String.eqb training_type TrainingType.GOSSIP_MNIST
      then RequestBody.set_round_size (List.length (values (training_clients s)))
                                      request_body
      else request_body in
    emit PrintRequestingTraining ;;
    modify (set_status ServerStatus.CLIENTS_TRAINING) ;;
    for_each (training_clients s) (do_training_client_request_begin request_body).

(** The [await] of [asyncio.gather] from the point where the tasks are
    suspended: every task resumes when the answer to its request arrives,
    so [answers] lists the clients with what their [session.post] yields,
    in the order of arrival.  An exception raised by a task is raised by
    [gather] at once; it ends [start_training], and [asyncio.run] cancels
    the tasks still suspended, whose answers are never looked at. *)
Definition gather (training_type : string) (answers : list (string * PostResult))
  : M unit :=
  for_each answers
    (fun a => do_training_client_request_resume training_type (fst a) (snd a)).

(** The dispatch to the client was accepted. *)
Definition accepted (a : string * PostResult) : bool :=
  match snd a with
  | HttpResponse status_code => Nat.eqb status_code 200
  | ConnectionFailed => false
  end.

(** The whole call of [start_training], when no other request is handled
    while it awaits: the part above and, in the branch that created the
    tasks, the answers. *)
Definition start_training_call (training_type : string)
    (answers : list (string * PostResult)) : M unit :=
  s <- get ;;
  start_training training_type ;;
  if ServerStatus.eqb (status s) ServerStatus.IDLE
     && negb (Nat.eqb (List.length (training_clients s)) 0)
  then gather training_type answers
  else ret tt.

(* ------------------------------------------------------------------ *)
(** ** The callback routes of [create_app]                              *)
(* ------------------------------------------------------------------ *)

Module Routes.

(** [PUT /model_params].  [parsed] is what
    [request_params_to_model_params(training_type, request.json)] evaluates
    to; it is evaluated after the lookup, inside the [try].  The value
    returned is the status of the response. *)
Definition update_weights (client_url training_type : string)
    (parsed : Outcome ModelParams) : M nat :=
  emit (PrintRouteRequest "PUT /model_params" client_url training_type) ;;
  try_except
    (_ <- lookup_client client_url ;;
     client_model_params <- lift parsed ;;
     update_client_model_params training_type client_url client_model_params ;;
     ret 200)
    is_KeyError
    (emit (PrintNotRegistered client_url) ;;
     ret 401).

(** [POST /finish_round].  The lookup is not guarded. *)
Definition finish_round (client_url training_type : string) : M nat :=
  emit (PrintRouteRequest "POST /finish_round" client_url training_type) ;;
  if String.eqb training_type TrainingType.GOSSIP_MNIST then
    _ <- lookup_client client_url ;;
    finish_round training_type client_url ;;
    ret 200
  else ret 400.

End Routes.

(* ------------------------------------------------------------------ *)
(** ** Runs of the coordinator                                          *)
(* ------------------------------------------------------------------ *)

(** The transitions of a round once it has been dispatched: a participant
    reports its parameters, or the answer to its dispatch arrives. *)
Inductive Transition : Type :=
| ReportResult (client_url training_type : string) (client_model_params : ModelParams)
| DispatchResponse (client_url training_type : string) (response : PostResult).

Definition transition_url (t : Transition) : string :=
  match t with
  | ReportResult u _ _ => u
  | DispatchResponse u _ _ => u
  end.

(** A dispatch failure is an answer whose status is not 200. *)
Definition is_round_transition (t : Transition) : bool :=
  match t with
  | ReportResult _ _ _ => true
  | DispatchResponse _ _ (HttpResponse code) => negb (Nat.eqb code 200)
  | DispatchResponse _ _ ConnectionFailed => false
  end.

Definition step (t : Transition) : M unit :=
  match t with
  | ReportResult u ty p => _ <- Routes.update_weights u ty (Returned p) ;; ret tt
  | DispatchResponse u ty r => do_training_client_request_resume ty u r
  end.

Definition is_dispatch_answer (t : Transition) : bool :=
  match t with
  | DispatchResponse _ _ _ => true
  | ReportResult _ _ _ => false
  end.

Definition has_raised {A} (o : Outcome A) : bool :=
  match o with
  | Raised _ => true
  | Returned _ => false
  end.

(** Transitions are handled one after the other on the state the previous
    one left.  A report is a request of its own: it is handled whatever
    happened before, and an exception in it stops nothing else.  The
    answers to the dispatches are handled by the tasks of the one call of
    [start_training], as in [gather]: [gathering] tells that the call is
    still awaiting them; once the handling of an answer has raised, the
    call is over and the answers that arrive later are handled by
    nobody. *)
Fixpoint run_from (gathering : bool) (ts : list Transition) (s : Server)
  : Server * list Effect :=
  match ts with
  | [] => (s, [])
  | t :: rest =>
      if is_dispatch_answer t && negb gathering then run_from gathering rest s
      else
        let o := step t s in
        let (s', es) :=
          run_from (gathering && negb (is_dispatch_answer t && has_raised (outcome_of o)))
                   rest (server_of o) in
        (s', effects_of o ++ es)
  end.

(** The transitions that follow the dispatch of a round. *)
Definition run (ts : list Transition) (s : Server) : Server * list Effect :=
  run_from true ts s.

(** The answers to the dispatches of a round, as transitions. *)
Definition answers_of (training_type : string) (answers : list (string * PostResult))
  : list Transition :=
  map (fun a => DispatchResponse (fst a) training_type (snd a)) answers.

(** How many times the central parameters were replaced, read off the
    line printed right after the assignment. *)
Fixpoint updates_performed (es : list Effect) : nat :=
  match es with
  | [] => 0
  | PrintModelWeightsUpdated _ :: rest => S (updates_performed rest)
  | _ :: rest => updates_performed rest
  end.

(** How many times [UPDATING_MODEL_PARAMS] was entered. *)
Fixpoint aggregations_entered (es : list Effect) : nat :=
  match es with
  | [] => 0
  | PrintUpdatingGlobal :: rest => S (aggregations_entered rest)
  | _ :: rest => aggregations_entered rest
  end.

(** [prints_no_update m]: running [m] never prints the line that follows
    the replacement of the central parameters. *)
Definition prints_no_update {A} (m : M A) : Prop :=
  forall s, updates_performed (effects_of (m s)) = 0.

Definition is_update_line (e : Effect) : bool :=
  match e with
  | PrintModelWeightsUpdated _ => true
  | _ => false
  end.

(** [keeps proj m]: running [m] does not change the observation [proj]
    of the coordinator. *)
Definition keeps {X A} (proj : Server -> X) (m : M A) : Prop :=
  forall s, proj (server_of (m s)) = proj s.

(* ------------------------------------------------------------------ *)
(** ** Entry points and scenarios                                       *)
(* ------------------------------------------------------------------ *)

(** The registry operations behind [POST /client] and [DELETE /client]. *)
Inductive RegistryOp : Type :=
| Register (client_url : string)
| Unregister (client_url : string).

Definition apply_op (op : RegistryOp) : M unit :=
  match op with
  | Register u => register_client u
  | Unregister u => unregister_client u
  end.

Fixpoint apply_ops (ops : list RegistryOp) (s : Server) : Server :=
  match ops with
  | [] => s
  | op :: rest => apply_ops rest (server_of (apply_op op s))
  end.

Definition is_register (op : RegistryOp) : bool :=
  match op with Register _ => true | Unregister _ => false end.

(** Everything that can act on the coordinator.  A round request acts in
    two steps: the dispatch, [StartTraining], and then the answers to the
    dispatches, which are round transitions like the reports. *)
Inductive Operation : Type :=
| StartTraining (training_type : string)
| RoundTransition (t : Transition)
| FinishRound (client_url training_type : string)
| Registry_ (op : RegistryOp).

(** The requests the coordinator serves, each handled from beginning to
    end: [POST /training] with the answers its dispatches receive, the two
    callbacks, and the two registry requests. *)
Inductive Request : Type :=
| PostTraining (training_type : string) (answers : list (string * PostResult))
| PutModelParams (client_url training_type : string) (parsed : Outcome ModelParams)
| PostFinishRound (client_url training_type : string)
| PostClient (client_url : string)
| DeleteClient (client_url : string).

Definition serve (r : Request) : M unit :=
  match r with
  | PostTraining ty answers => start_training_call ty answers
  | PutModelParams u ty parsed => _ <- Routes.update_weights u ty parsed ;; ret tt
  | PostFinishRound u ty => _ <- Routes.finish_round u ty ;; ret tt
  | PostClient u => register_client u
  | DeleteClient u => unregister_client u
  end.

(** The requests that have nothing to do with parameters. *)
Definition is_finish_or_registry (r : Request) : bool :=
  match r with
  | PostFinishRound _ _ => true
  | PostClient _ => true
  | DeleteClient _ => true
  | _ => false
  end.

Definition perform (op : Operation) : M unit :=
  match op with
  | StartTraining ty => start_training ty
  | RoundTransition t => step t
  | FinishRound u ty => _ <- Routes.finish_round u ty ;; ret tt
  | Registry_ op => apply_op op
  end.

Fixpoint perform_all (ops : list Operation) (s : Server) : Server :=
  match ops with
  | [] => s
  | op :: rest => perform_all rest (server_of (perform op s))
  end.

(** The finish callbacks of a decentralized round, one request after the
    other; the answers are collected. *)
Fixpoint run_finish (urls : list string) (s : Server) : Server * list (Outcome nat) :=
  match urls with
  | [] => (s, [])
  | u :: rest =>
      let o := Routes.finish_round u TrainingType.GOSSIP_MNIST s in
      let (s', rs) := run_finish rest (server_of o) in
      (s', outcome_of o :: rs)
  end.

Definition is_post (e : Effect) : bool :=
  match e with HttpPost _ _ => true | _ => false end.

Definition client_status (s : Server) (url : string) : option ClientTrainingStatus.t :=
  option_map TrainingClient.status (dict_get (training_clients s) url).

Definition statuses (s : Server) : list ClientTrainingStatus.t :=
  map TrainingClient.status (values (training_clients s)).

Definition ids (s : Server) : list nat :=
  map TrainingClient.client_id (values (training_clients s)).

(** The training types of the configuration table. *)
Definition in_table (training_type : string) : bool :=
  String.eqb training_type TrainingType.MNIST
  || String.eqb training_type TrainingType.DETERMINISTIC_MNIST
  || String.eqb training_type TrainingType.GOSSIP_MNIST
  || String.eqb training_type TrainingType.CHEST_X_RAY_PNEUMONIA.

(** The centralized variants: those whose parameters the server averages. *)
Definition is_centralized (training_type : string) : bool :=
  is_mnist training_type
  || String.eqb training_type TrainingType.CHEST_X_RAY_PNEUMONIA.

(** The mean over the first axis of the stack of [rows], as the library
    computes it: [m] has the shape of every row; it is the row itself when
    there is one row, and otherwise its entries are the mean of the
    entries of the rows, taken in the order of [rows]. *)
Definition is_mean_of_rows (rows : list Tensor) (m : Tensor) : Prop :=
  (forall r, In r rows -> shape r = shape m) /\
  match rows with
  | [] => False
  | [t] => m = t
  | _ :: _ :: _ => entries m = MeanOf (map entries rows)
  end.

Definition finished_clients (s : Server) : list TrainingClient.t :=
  filter is_finished (values (training_clients s)).

Definition weights_of (p : ModelParams) : Tensor :=
  match p with
  | NoParams => vec []
  | MnistParams w _ => w
  | ChestParams w => w
  end.

Definition bias_of (p : ModelParams) : Tensor :=
  match p with
  | MnistParams _ b => b
  | _ => vec []
  end.

Definition is_mnist_params (p : ModelParams) : bool :=
  match p with MnistParams _ _ => true | _ => false end.

Definition is_chest_params (p : ModelParams) : bool :=
  match p with ChestParams _ => true | _ => false end.

(** What aggregation does to a client's status: finished clients go back
    to idle, the others are left as they are. *)
Definition reset_if_finished (c : TrainingClient.t) : TrainingClient.t :=
  if is_finished c then TrainingClient.set_status ClientTrainingStatus.IDLE c else c.

(** The same coordinator with other parameters stored in the record of
    [url]. *)
Definition with_stored_params (url : string) (p : ModelParams) (s : Server) : Server :=
  set_training_clients
    (dict_update (training_clients s) url (TrainingClient.set_model_params p)) s.

(** Concrete coordinators for the examples. *)
Definition q (n : nat) : Qc := Qc_of_nat n.

Definition fresh_server : Server := init (vec [q 5]) (vec [q 7]).

Definition after {A} (m : M A) (s : Server) : Server := server_of (m s).

Definition one_client : Server := after (register_client "http://a") fresh_server.

Definition two_clients : Server := after (register_client "http://b") one_client.

Definition three_clients : Server := after (register_client "http://c") two_clients.

Definition reset_all (d : Registry) : Registry :=
  map (fun kc => (fst kc, reset_if_finished (snd kc))) d.

Definition finished_in (d : Registry) : list TrainingClient.t :=
  filter is_finished (values d).

Definition same_shapes (rows : list Tensor) : bool :=
  match rows with
  | [] => true
  | t :: rest => same_shape t rest
  end.

(** The finished clients hold parameter sets of the variant being
    aggregated. *)
Definition contributions_of_variant (training_type : string) (s : Server) : bool :=
  if is_mnist training_type then
    forallb (fun c => is_mnist_params (TrainingClient.model_params c)) (finished_clients s)
  else
    forallb (fun c => is_chest_params (TrainingClient.model_params c)) (finished_clients s).

(** The finished clients hold parameter sets of the variant being
    aggregated, all of one shape. *)
Definition contributions_well_formed (training_type : string) (s : Server) : bool :=
  if is_mnist training_type then
    forallb (fun c => is_mnist_params (TrainingClient.model_params c)) (finished_clients s)
    && same_shapes (map (fun c => weights_of (TrainingClient.model_params c)) (finished_clients s))
    && same_shapes (map (fun c => bias_of (TrainingClient.model_params c)) (finished_clients s))
  else
    forallb (fun c => is_chest_params (TrainingClient.model_params c)) (finished_clients s)
    && same_shapes (map (fun c => weights_of (TrainingClient.model_params c)) (finished_clients s)).

(** A round in which "http://a" has reported and the dispatch to
    "http://b" was refused. *)
Definition one_finished_one_errored : Server :=
  mkServer (MnistParams (vec [q 5]) (vec [q 7])) NoParams
    [("http://a", TrainingClient.mk "http://a" 1
                    ClientTrainingStatus.TRAINING_FINISHED (MnistParams (vec [q 2]) (vec [q 4])));
     ("http://b", TrainingClient.mk "http://b" 2
                    ClientTrainingStatus.TRAINING_REQUEST_ERROR NoParams)]
    ServerStatus.CLIENTS_TRAINING 1.

(** A round in which both participants have reported, the weights of
    "http://a" as a column of two entries and those of "http://b" as a
    row of two. *)
Definition two_finished_mismatched : Server :=
  mkServer (MnistParams (vec [q 5]) (vec [q 7])) NoParams
    [("http://a", TrainingClient.mk "http://a" 1
                    ClientTrainingStatus.TRAINING_FINISHED
                    (MnistParams (mkTensor [2; 1] (Floats [q 1; q 2])) (vec [q 0])));
     ("http://b", TrainingClient.mk "http://b" 2
                    ClientTrainingStatus.TRAINING_FINISHED
                    (MnistParams (mkTensor [1; 2] (Floats [q 3; q 4])) (vec [q 0])))]
    ServerStatus.CLIENTS_TRAINING 1.



(** The urls under which clients are registered. *)
Definition registered (s : Server) : list string := keys (training_clients s).

(** A participant has reached the end of its round. *)
Definition is_terminal (c : TrainingClient.t) : bool :=
  ClientTrainingStatus.eqb (TrainingClient.status c) ClientTrainingStatus.TRAINING_FINISHED
  || ClientTrainingStatus.eqb (TrainingClient.status c)
       ClientTrainingStatus.TRAINING_REQUEST_ERROR.

(** The coordinator once the refusal of the dispatch to [url] has been
    recorded. *)
Definition with_request_error (url : string) (s : Server) : Server :=
  set_training_clients
    (dict_update (training_clients s) url
       (TrainingClient.set_status ClientTrainingStatus.TRAINING_REQUEST_ERROR)) s.

(** An MNIST round dispatched to the single client "http://a". *)
Definition round_of_one : Server := after (start_training TrainingType.MNIST) one_client.

Definition mark_requested (kc : string * TrainingClient.t) : string * TrainingClient.t :=
  (fst kc, TrainingClient.set_status ClientTrainingStatus.TRAINING_REQUESTED (snd kc)).

Definition mark_idle (kc : string * TrainingClient.t) : string * TrainingClient.t :=
  (fst kc, TrainingClient.set_status ClientTrainingStatus.IDLE (snd kc)).

(** The parameter sets stored in the client records, in registry order. *)
Definition stored_params (s : Server) : list ModelParams :=
  map TrainingClient.model_params (values (training_clients s)).

(** In a decentralized round, the participants named in [pending] have
    not called back yet and are TRAINING_REQUESTED, the others have and
    are TRAINING_FINISHED. *)
Definition awaiting (pending : list string) (s : Server) : Prop :=
  forall k c, In (k, c) (training_clients s) ->
    (In k pending ->
     TrainingClient.status c = ClientTrainingStatus.TRAINING_REQUESTED) /\
    (~ In k pending ->
     TrainingClient.status c = ClientTrainingStatus.TRAINING_FINISHED).

(** The coordinator once the finish callback of [url] has been recorded. *)
Definition with_finished (url : string) (s : Server) : Server :=
  set_training_clients
    (dict_update (training_clients s) url
       (TrainingClient.set_status ClientTrainingStatus.TRAINING_FINISHED)) s.

(** The round of the decentralized variant closed: server and clients
    idle. *)
Definition closed_round (s : Server) : Server :=
  set_training_clients (map mark_idle (training_clients s))
    (set_status ServerStatus.IDLE s).

(** What a transition records in the client's record before aggregation
    is attempted, with the training type of the attempt; [None] when the
    transition attempts no aggregation. *)
Definition attempt (t : Transition) (s : Server)
  : option (string * (TrainingClient.t -> TrainingClient.t)) :=
  match t with
  | ReportResult u ty p =>
      match dict_get (training_clients s) u with
      | Some _ =>
          Some (ty, fun c =>
                      TrainingClient.set_status ClientTrainingStatus.TRAINING_FINISHED
                        (TrainingClient.set_model_params p c))
      | None => None
      end
  | DispatchResponse u ty (HttpResponse code) =>
      if negb (Nat.eqb code 200)
      then Some (ty, TrainingClient.set_status ClientTrainingStatus.TRAINING_REQUEST_ERROR)
      else None
  | DispatchResponse _ _ ConnectionFailed => None
  end.

(** The participants named in [urls] have been dispatched to and have
    neither reported nor failed yet. *)
Definition still_requested (urls : list string) (s : Server) : Prop :=
  forall k c, In (k, c) (training_clients s) -> In k urls ->
    TrainingClient.status c = ClientTrainingStatus.TRAINING_REQUESTED.

(** An ordinary round of three participants: every dispatch is accepted,
    then every participant reports; the weight scalars reported are 1, 2
    and 3. *)
Definition ordinary_round : list Transition :=
  [DispatchResponse "http://a" TrainingType.MNIST (HttpResponse 200);
   DispatchResponse "http://b" TrainingType.MNIST (HttpResponse 200);
   DispatchResponse "http://c" TrainingType.MNIST (HttpResponse 200);
   ReportResult "http://b" TrainingType.MNIST (MnistParams (vec [q 2]) (vec [q 0]));
   ReportResult "http://a" TrainingType.MNIST (MnistParams (vec [q 1]) (vec [q 0]));
   ReportResult "http://c" TrainingType.MNIST (MnistParams (vec [q 3]) (vec [q 0]))].

(** The urls of the participants that report or whose dispatch is
    refused, one for each such transition; accepted dispatches and
    requests that could not be carried out record nothing. *)
Definition acting (ts : list Transition) : list string :=
  map transition_url (filter is_round_transition ts).

(** The same report of "http://a", received twice. *)
Definition report_twice : list Transition :=
  [ReportResult "http://a" TrainingType.MNIST (MnistParams (vec [q 1]) (vec [q 0]));
   ReportResult "http://a" TrainingType.MNIST (MnistParams (vec [q 3]) (vec [q 0]))].


(* ------------------------------------------------------------------ *)
(** ** Observations used by the further properties                      *)
(* ------------------------------------------------------------------ *)

(** The requests sent, in the order they were sent. *)
Fixpoint posts (es : list Effect) : list (string * RequestBody.t) :=
  match es with
  | [] => []
  | HttpPost u b :: rest => (u, b) :: posts rest
  | _ :: rest => posts rest
  end.

(** Operations performed one after the other, with everything they print
    or send. *)
Fixpoint perform_trace (ops : list Operation) (s : Server) : Server * list Effect :=
  match ops with
  | [] => (s, [])
  | op :: rest =>
      let o := perform op s in
      let (s', es) := perform_trace rest (server_of o) in
      (s', effects_of o ++ es)
  end.

(** Operations that are not callbacks of participants: round requests and
    registry operations. *)
Definition is_start_or_registry (op : Operation) : bool :=
  match op with
  | StartTraining _ => true
  | Registry_ _ => true
  | _ => false
  end.

Definition is_transition (op : Operation) : bool :=
  match op with
  | RoundTransition _ => true
  | _ => false
  end.

(** What identifies the registered participants: key, url and id of every
    record, in registry order. *)
Definition identities (s : Server) : list (string * (string * nat)) :=
  map (fun kc => (fst kc, (TrainingClient.client_url (snd kc),
                           TrainingClient.client_id (snd kc))))
      (training_clients s).

(** Every record is registered under its own url, and no url twice. *)
Definition registry_well_formed (s : Server) : Prop :=
  NoDup (registered s) /\
  forall k c, In (k, c) (training_clients s) -> TrainingClient.client_url c = k.

(** The record of [url] once its report has been stored. *)
Definition with_report (url : string) (p : ModelParams) (s : Server) : Server :=
  set_training_clients
    (dict_update (training_clients s) url
       (fun c => TrainingClient.set_status ClientTrainingStatus.TRAINING_FINISHED
                   (TrainingClient.set_model_params p c))) s.

(** A round in which each participant reports a [(weights, bias)] pair:
    the reports as transitions, and the pair reported by a participant. *)
Definition reports_of (training_type : string)
    (reports : list (string * (Tensor * Tensor))) : list Transition :=
  map (fun r => ReportResult (fst r) training_type
                  (MnistParams (fst (snd r)) (snd (snd r)))) reports.

Fixpoint reported (reports : list (string * (Tensor * Tensor))) (url : string)
  : option (Tensor * Tensor) :=
  match reports with
  | [] => None
  | (u, wb) :: rest => if String.eqb url u then Some wb else reported rest url
  end.

(** The rows the aggregation averages when everybody has reported: what
    each registered participant reported, in registry order. *)
Definition reported_rows (proj : Tensor * Tensor -> Tensor)
    (reports : list (string * (Tensor * Tensor))) (urls : list string) : list Tensor :=
  flat_map (fun u => match reported reports u with
                     | Some wb => [proj wb]
                     | None => []
                     end) urls.

(** All reported pairs have weights of shape [sw] and a bias of shape
    [sb]. *)
Definition uniform_reports (sw sb : list nat)
    (reports : list (string * (Tensor * Tensor))) : Prop :=
  forall u w b, In (u, (w, b)) reports ->
    shape w = sw /\ shape b = sb.

(** The dispatches to three participants, all accepted. *)
Definition three_accepted : list (string * PostResult) :=
  [("http://a", HttpResponse 200);
   ("http://b", HttpResponse 200);
   ("http://c", HttpResponse 200)].

(** Three MNIST reports of one weight and one bias each. *)
Definition three_reported : list (string * (Tensor * Tensor)) :=
  [("http://b", ((vec [q 2]), (vec [q 0])));
   ("http://a", ((vec [q 1]), (vec [q 3])));
   ("http://c", ((vec [q 3]), (vec [q 3])))].

(** A decentralized round of two participants in which "http://a" has
    finished and the answer to the dispatch to "http://b" is still
    awaited. *)
Definition gossip_one_finished : Server :=
  mkServer (MnistParams (vec [q 5]) (vec [q 7])) NoParams
    [("http://a", TrainingClient.mk "http://a" 1
                    ClientTrainingStatus.TRAINING_FINISHED NoParams);
     ("http://b", TrainingClient.mk "http://b" 2
                    ClientTrainingStatus.TRAINING_REQUESTED NoParams)]
    ServerStatus.CLIENTS_TRAINING 1.

(** A mutation of a client record that leaves its url and id alone. *)
Definition keeps_identity (f : TrainingClient.t -> TrainingClient.t) : Prop :=
  forall c, TrainingClient.client_url (f c) = TrainingClient.client_url c /\
            TrainingClient.client_id (f c) = TrainingClient.client_id c.

Definition is_registry_op (op : Operation) : bool :=
  match op with
  | Registry_ _ => true
  | _ => false
  end.

(** In a round of reports, the participants named in [pending] have not
    reported yet and are TRAINING_REQUESTED; the others are
    TRAINING_FINISHED and hold the pair they reported. *)
Definition reporting (all pending : list (string * (Tensor * Tensor))) (s : Server) : Prop :=
  forall k c, In (k, c) (training_clients s) ->
    (In k (map fst pending) ->
     TrainingClient.status c = ClientTrainingStatus.TRAINING_REQUESTED) /\
    (~ In k (map fst pending) ->
     TrainingClient.status c = ClientTrainingStatus.TRAINING_FINISHED /\
     exists w b, reported all k = Some (w, b) /\
                 TrainingClient.model_params c = MnistParams w b).

Unset Implicit Arguments.

(** Comparisons of training types and urls are reasoned about through
    their specification, never by unfolding them on literals. *)
Local Arguments String.eqb : simpl never.

(* ------------------------------------------------------------------ *)
(** ** Enumerations                                                     *)
(* ------------------------------------------------------------------ *)

Lemma client_status_eqb_spec (a b : ClientTrainingStatus.t) :
  reflect (a = b) (ClientTrainingStatus.eqb a b).
Proof. destruct a, b; constructor; congruence. Qed.

Lemma server_status_eqb_spec (a b : ServerStatus.t) :
  reflect (a = b) (ServerStatus.eqb a b).
Proof. destruct a, b; constructor; congruence. Qed.

(* ------------------------------------------------------------------ *)
(** ** Registry lemmas                                                  *)
(* ------------------------------------------------------------------ *)

Lemma keys_dict_update d k f : keys (dict_update d k f) = keys d.
Proof.
  induction d as [|[k' c'] d IH]; simpl; auto.
  destruct (String.eqb k k'); simpl; congruence.
Qed.

Lemma dict_get_None_not_in d k : dict_get d k = None <-> ~ In k (keys d).
Proof.
  induction d as [|[k' c'] d IH]; simpl.
  - tauto.
  - destruct (String.eqb_spec k k') as [->|Hne]; split.
    + discriminate.
    + intros H; exfalso; apply H; auto.
    + intros H [E|HI]; [congruence | apply IH in H; tauto].
    + intros H; apply IH; tauto.
Qed.

Lemma dict_get_Some_in d k c : dict_get d k = Some c -> In (k, c) d.
Proof.
  induction d as [|[k' c'] d IH]; simpl; [discriminate|].
  destruct (String.eqb_spec k k') as [->|Hne]; intros H.
  - injection H as ->; auto.
  - auto.
Qed.

Lemma in_dict_get d k c : NoDup (keys d) -> In (k, c) d -> dict_get d k = Some c.
Proof.
  induction d as [|[k' c'] d IH]; simpl; [tauto|].
  intros Hnd [E|HI]; inversion Hnd as [|? ? Hk Hd]; subst.
  - injection E as -> ->. now rewrite String.eqb_refl.
  - destruct (String.eqb_spec k k') as [->|Hne]; auto.
    exfalso; apply Hk. change k' with (fst (k', c)). now apply in_map.
Qed.

Lemma dict_get_update_same d k f :
  dict_get (dict_update d k f) k = option_map f (dict_get d k).
Proof.
  induction d as [|[k' c'] d IH]; simpl; auto.
  destruct (String.eqb_spec k k') as [->|Hne]; simpl.
  - now rewrite String.eqb_refl.
  - destruct (String.eqb_spec k k'); congruence.
Qed.

Lemma dict_get_update_other d k k' f :
  k' <> k -> dict_get (dict_update d k f) k' = dict_get d k'.
Proof.
  intros Hne. induction d as [|[k0 c0] d IH]; simpl; auto.
  destruct (String.eqb_spec k k0) as [->|Hne0]; simpl.
  - destruct (String.eqb_spec k' k0); congruence.
  - destruct (String.eqb_spec k' k0); congruence.
Qed.

Lemma dict_update_absent d k f : dict_get d k = None -> dict_update d k f = d.
Proof.
  induction d as [|[k' c'] d IH]; simpl; auto.
  destruct (String.eqb_spec k k'); [discriminate|].
  intros H; now rewrite IH.
Qed.

Lemma in_dict_update_other d k f k' c :
  k' <> k -> (In (k', c) (dict_update d k f) <-> In (k', c) d).
Proof.
  intros Hne. induction d as [|[k0 c0] d IH]; simpl; [tauto|].
  destruct (String.eqb_spec k k0) as [->|Hne0]; simpl.
  - split; intros [E|H]; auto; left; congruence.
  - rewrite IH; tauto.
Qed.

Lemma dict_get_set_same d k c : dict_get (dict_set d k c) k = Some c.
Proof.
  induction d as [|[k' c'] d IH]; simpl.
  - now rewrite String.eqb_refl.
  - destruct (String.eqb_spec k k') as [->|Hne]; simpl.
    + now rewrite String.eqb_refl.
    + destruct (String.eqb_spec k k'); congruence.
Qed.

Lemma dict_get_set_other d k k' c :
  k' <> k -> dict_get (dict_set d k c) k' = dict_get d k'.
Proof.
  intros Hne. induction d as [|[k0 c0] d IH]; simpl.
  - destruct (String.eqb_spec k' k); congruence.
  - destruct (String.eqb_spec k k0) as [->|Hne0]; simpl.
    + destruct (String.eqb_spec k' k0); congruence.
    + destruct (String.eqb_spec k' k0); congruence.
Qed.

Lemma dict_get_remove_other d k k' :
  k' <> k -> dict_get (dict_remove d k) k' = dict_get d k'.
Proof.
  intros Hne. induction d as [|[k0 c0] d IH]; simpl; auto.
  destruct (String.eqb_spec k k0) as [->|Hne0]; simpl.
  - destruct (String.eqb_spec k' k0); congruence.
  - destruct (String.eqb_spec k' k0); congruence.
Qed.

Lemma dict_set_absent d k c : dict_get d k = None -> dict_set d k c = d ++ [(k, c)].
Proof.
  induction d as [|[k' c'] d IH]; simpl; auto.
  destruct (String.eqb_spec k k'); [discriminate|].
  intros H; now rewrite IH.
Qed.

Lemma keys_for_each_client A (body : TrainingClient.t -> A -> Outcome (TrainingClient.t * A)) d acc :
  keys (fst (for_each_client body d acc)) = keys d.
Proof.
  revert acc. induction d as [|[k c] d IH]; intros acc; simpl; auto.
  destruct (body c acc) as [[c' acc']|e]; simpl; auto.
  specialize (IH acc'). destruct (for_each_client body d acc'); simpl in *.
  congruence.
Qed.

(* ------------------------------------------------------------------ *)
(** ** Frame reasoning: what a method leaves alone                      *)
(* ------------------------------------------------------------------ *)

Section Frame.
Variable X : Type.
Variable proj : Server -> X.
Local Abbreviation keeps := (keeps proj).

Lemma keeps_ret A (a : A) : keeps (ret a).
Proof. intros s; reflexivity. Qed.

Lemma keeps_raise A e : keeps (@raise A e).
Proof. intros s; reflexivity. Qed.

Lemma keeps_lift A (o : Outcome A) : keeps (lift o).
Proof. intros s; reflexivity. Qed.

Lemma keeps_get : keeps get.
Proof. intros s; reflexivity. Qed.

Lemma keeps_emit e : keeps (emit e).
Proof. intros s; reflexivity. Qed.

Lemma keeps_modify f : (forall s, proj (f s) = proj s) -> keeps (modify f).
Proof. intros H s; apply H. Qed.

Lemma keeps_bind A B (m : M A) (k : A -> M B) :
  keeps m -> (forall a, keeps (k a)) -> keeps (bind m k).
Proof.
  intros Hm Hk s. unfold bind. specialize (Hm s).
  destruct (m s) as [s1 es1 [a|e]]; cbn [server_of] in *; [|exact Hm].
  specialize (Hk a s1). destruct (k a s1) as [s2 es2 r]; cbn [server_of] in *.
  congruence.
Qed.

Lemma keeps_try_except A (m h : M A) exn :
  keeps m -> keeps h -> keeps (try_except m exn h).
Proof.
  intros Hm Hh s. unfold try_except. specialize (Hm s).
  destruct (m s) as [s1 es1 [a|e]]; cbn [server_of] in *; [exact Hm|].
  destruct (exn e); [|exact Hm].
  specialize (Hh s1). destruct (h s1) as [s2 es2 r]; cbn [server_of] in *.
  congruence.
Qed.

Lemma keeps_for_each A (xs : list A) body :
  (forall x, keeps (body x)) -> keeps (for_each xs body).
Proof.
  intros H. induction xs; simpl.
  - apply keeps_ret.
  - apply keeps_bind; auto.
Qed.

Lemma keeps_if A (b : bool) (m1 m2 : M A) :
  keeps m1 -> keeps m2 -> keeps (if b then m1 else m2).
Proof. destruct b; auto. Qed.

(** Observations that do not look inside the client objects. *)
Hypothesis proj_clients :
  forall s d, keys d = keys (training_clients s) ->
              proj (set_training_clients d s) = proj s.

Lemma keeps_update_client url f : keeps (update_client url f).
Proof. intros s. apply proj_clients, keys_dict_update. Qed.

Lemma keeps_loop_over_clients A
    (body : TrainingClient.t -> A -> Outcome (TrainingClient.t * A)) acc :
  keeps (loop_over_clients body acc).
Proof.
  intros s. unfold loop_over_clients.
  pose proof (keys_for_each_client _ body (training_clients s) acc) as Hk.
  destruct (for_each_client body (training_clients s) acc) as [d r]; simpl in *.
  now apply proj_clients.
Qed.

Lemma keeps_lookup_client url : keeps (lookup_client url).
Proof.
  unfold lookup_client. apply keeps_bind; [apply keeps_get|].
  intros s. destruct (dict_get _ _); [apply keeps_ret | apply keeps_raise].
Qed.

Hypothesis proj_status : forall st s, proj (set_status st s) = proj s.

Lemma keeps_finish_round ty url : keeps (finish_round ty url).
Proof.
  unfold finish_round.
  apply keeps_bind; [apply keeps_update_client|]; intros _.
  apply keeps_bind; [apply keeps_get|]; intros s.
  apply keeps_if; [|apply keeps_ret].
  apply keeps_bind; [apply keeps_modify, proj_status|]; intros _.
  apply keeps_loop_over_clients.
Qed.

Lemma keeps_route_finish_round url ty : keeps (Routes.finish_round url ty).
Proof.
  unfold Routes.finish_round.
  apply keeps_bind; [apply keeps_emit|]; intros _.
  apply keeps_if; [|apply keeps_ret].
  apply keeps_bind; [apply keeps_lookup_client|]; intros _.
  apply keeps_bind; [apply keeps_finish_round|]; intros _.
  apply keeps_ret.
Qed.

Hypothesis proj_mnist : forall p s, proj (set_mnist_model_params p s) = proj s.
Hypothesis proj_chest : forall p s, proj (set_chest_x_ray_model_params p s) = proj s.

Lemma keeps_update_server_model_params ty : keeps (update_server_model_params ty).
Proof.
  unfold update_server_model_params.
  apply keeps_bind; [apply keeps_get|]; intros s.
  apply keeps_if; [|apply keeps_ret].
  apply keeps_bind; [apply keeps_emit|]; intros _.
  apply keeps_bind; [apply keeps_modify, proj_status|]; intros _.
  apply keeps_bind; [|intros _; apply keeps_modify, proj_status].
  repeat apply keeps_if.
  - apply keeps_bind; [apply keeps_loop_over_clients|]; intros r.
    apply keeps_bind; [apply keeps_lift|]; intros w.
    apply keeps_bind; [apply keeps_lift|]; intros b.
    apply keeps_bind; [apply keeps_modify, proj_mnist|]; intros _.
    apply keeps_emit.
  - apply keeps_bind; [apply keeps_loop_over_clients|]; intros r.
    apply keeps_bind; [apply keeps_lift|]; intros w.
    apply keeps_bind; [apply keeps_modify, proj_chest|]; intros _.
    apply keeps_emit.
  - apply keeps_ret.
Qed.

Lemma keeps_update_client_model_params ty url p :
  keeps (update_client_model_params ty url p).
Proof.
  unfold update_client_model_params.
  apply keeps_bind; [apply keeps_emit|]; intros _.
  apply keeps_bind; [apply keeps_update_client|]; intros _.
  apply keeps_bind; [apply keeps_update_client|]; intros _.
  apply keeps_update_server_model_params.
Qed.

Lemma keeps_update_weights url ty parsed : keeps (Routes.update_weights url ty parsed).
Proof.
  unfold Routes.update_weights.
  apply keeps_bind; [apply keeps_emit|]; intros _.
  apply keeps_try_except.
  - apply keeps_bind; [apply keeps_lookup_client|]; intros _.
    apply keeps_bind; [apply keeps_lift|]; intros p.
    apply keeps_bind; [apply keeps_update_client_model_params|]; intros _.
    apply keeps_ret.
  - apply keeps_bind; [apply keeps_emit|]; intros _. apply keeps_ret.
Qed.

Lemma keeps_do_training_client_request_resume ty url r :
  keeps (do_training_client_request_resume ty url r).
Proof.
  unfold do_training_client_request_resume.
  destruct r as [code|]; [|apply keeps_raise].
  apply keeps_if; [|apply keeps_emit].
  apply keeps_bind; [apply keeps_emit|]; intros _.
  apply keeps_bind; [apply keeps_update_client|]; intros _.
  apply keeps_update_server_model_params.
Qed.

Lemma keeps_step t : keeps (step t).
Proof.
  destruct t; simpl.
  - apply keeps_bind; [apply keeps_update_weights|]; intros _. apply keeps_ret.
  - apply keeps_do_training_client_request_resume.
Qed.

Lemma keeps_do_training_client_request_begin body entry :
  keeps (do_training_client_request_begin body entry).
Proof.
  destruct entry as [k c]. unfold do_training_client_request_begin.
  apply keeps_bind; [apply keeps_emit|]; intros _.
  apply keeps_bind; [apply keeps_update_client|]; intros _.
  apply keeps_emit.
Qed.

Hypothesis proj_round : forall n s, proj (set_round n s) = proj s.

Lemma keeps_start_training ty : keeps (start_training ty).
Proof.
  unfold start_training.
  apply keeps_bind; [apply keeps_get|]; intros s.
  apply keeps_if.
  { apply keeps_bind; [apply keeps_emit|]; intros _.
    apply keeps_for_each. intros c. apply keeps_emit. }
  apply keeps_if; [apply keeps_emit|].
  apply keeps_bind; [apply keeps_modify; intros s'; apply proj_round|]; intros _.
  apply keeps_bind; [apply keeps_get|]; intros s1.
  destruct (select_config ty s1) as [p [c|]].
  - apply keeps_bind; [apply keeps_ret|]; intros c'.
    apply keeps_bind; [apply keeps_emit|]; intros _.
    apply keeps_bind; [apply keeps_emit|]; intros _.
    apply keeps_bind; [apply keeps_modify, proj_status|]; intros _.
    apply keeps_for_each. intros x. apply keeps_do_training_client_request_begin.
  - apply keeps_bind; [apply keeps_raise|]; intros c'.
    apply keeps_bind; [apply keeps_emit|]; intros _.
    apply keeps_bind; [apply keeps_emit|]; intros _.
    apply keeps_bind; [apply keeps_modify, proj_status|]; intros _.
    apply keeps_for_each. intros x. apply keeps_do_training_client_request_begin.
Qed.

End Frame.

Lemma keeps_registered_step t : keeps registered (step t).
Proof. apply keeps_step; intros; auto. Qed.

Lemma keeps_registered_update_server_model_params ty :
  keeps registered (update_server_model_params ty).
Proof. apply keeps_update_server_model_params; intros; auto. Qed.

(* ------------------------------------------------------------------ *)
(** ** The aggregation loops                                            *)
(* ------------------------------------------------------------------ *)

Ltac run_m :=
  unfold bind, get, ret, raise, emit, modify, lift, update_client,
         loop_over_clients; simpl.

Lemma collect_mnist_loop d acc :
  forallb (fun c => is_mnist_params (TrainingClient.model_params c)) (finished_in d) = true ->
  for_each_client collect_mnist d acc =
    (reset_all d,
     Returned (fst acc ++ map (fun c => TensorItem (weights_of (TrainingClient.model_params c)))
                              (finished_in d),
               snd acc ++ map (fun c => TensorItem (bias_of (TrainingClient.model_params c)))
                              (finished_in d))).
Proof.
  revert acc. unfold finished_in.
  induction d as [|[k c] d IH]; intros acc H; simpl in *.
  - rewrite !app_nil_r. now destruct acc.
  - unfold collect_mnist, reset_if_finished.
    destruct (is_finished c) eqn:Ef; simpl in *.
    + destruct (TrainingClient.model_params c) as [|w b|w] eqn:Ep; simpl in H; try discriminate.
      cbn [subscript]. rewrite IH by exact H. simpl. now rewrite <- !app_assoc.
    + rewrite IH by exact H. simpl. rewrite ?Ef. reflexivity.
Qed.

Lemma collect_chest_loop d acc :
  for_each_client collect_chest d acc =
    (reset_all d, Returned (acc ++ map TrainingClient.model_params (finished_in d))).
Proof.
  revert acc. unfold finished_in.
  induction d as [|[k c] d IH]; intros acc; simpl.
  - now rewrite app_nil_r.
  - unfold collect_chest, reset_if_finished.
    destruct (is_finished c) eqn:Ef; simpl; rewrite IH; simpl; auto.
    now rewrite <- app_assoc.
Qed.

(** The loop over the clients, when it comes to its end, has reset every
    finished client and collected one item from each. *)
Lemma collect_mnist_returned d : forall acc d' r,
  for_each_client collect_mnist d acc = (d', Returned r) ->
  d' = reset_all d /\
  List.length (fst r) = List.length (fst acc) + List.length (finished_in d).
Proof.
  unfold finished_in.
  induction d as [|[k c] d IH]; intros acc d' r H; simpl in *.
  - injection H as <- <-. auto.
  - unfold collect_mnist in H at 1. unfold reset_if_finished.
    destruct (is_finished c) eqn:Ef; simpl in *.
    + destruct (subscript (TrainingClient.model_params c) 0) as [w|e]; [|discriminate].
      destruct (subscript (TrainingClient.model_params c) 1) as [b|e]; [|discriminate].
      destruct (for_each_client collect_mnist d (fst acc ++ [w], snd acc ++ [b]))
        as [rest o] eqn:El.
      injection H as <- ->.
      destruct (IH _ _ _ El) as [-> Hl]. split; [reflexivity|].
      rewrite Hl. simpl. rewrite length_app. simpl. lia.
    + destruct (for_each_client collect_mnist d acc) as [rest o] eqn:El.
      injection H as <- ->.
      destruct (IH _ _ _ El) as [-> Hl]. split; [reflexivity|]. exact Hl.
Qed.

Lemma keys_reset_all d : keys (reset_all d) = keys d.
Proof. unfold keys, reset_all. rewrite map_map. reflexivity. Qed.

Lemma stack_mean_empty e : stack_mean e [] = Raised e.
Proof. reflexivity. Qed.

Lemma stack_mean_returned e rows m : stack_mean e rows = Returned m -> rows <> [].
Proof. destruct rows; simpl; [discriminate | congruence]. Qed.

Lemma torch_stack_mean_returned items m : torch_stack_mean items = Returned m -> items <> [].
Proof. destruct items; simpl; [discriminate | congruence]. Qed.

Lemma np_stack_mean_returned l m : np_stack_mean l = Returned m -> l <> [].
Proof. destruct l; simpl; [discriminate | congruence]. Qed.

(** Without quorum, [update_server_model_params] does nothing at all. *)
Lemma update_server_model_params_no_quorum ty s :
  can_update_central_model_params s = false ->
  update_server_model_params ty s = mkOut s [] (Returned tt).
Proof.
  intros H. unfold update_server_model_params. run_m. now rewrite H.
Qed.

(** With quorum, a centralized aggregation that returns has reset the
    finished clients, printed one update and is back to idle. *)
Lemma update_server_model_params_returned ty s :
  can_update_central_model_params s = true ->
  is_centralized ty = true ->
  outcome_of (update_server_model_params ty s) = Returned tt ->
  training_clients (server_of (update_server_model_params ty s))
    = reset_all (training_clients s) /\
  status (server_of (update_server_model_params ty s)) = ServerStatus.IDLE /\
  finished_in (training_clients s) <> [].
Proof.
  intros Hq Hc. unfold update_server_model_params, is_centralized in *. run_m.
  rewrite Hq. simpl.
  destruct (is_mnist ty) eqn:Em; simpl in *.
  - destruct (for_each_client collect_mnist (training_clients s) ([], []))
      as [d' [r|e]] eqn:El; simpl; [|discriminate].
    destruct (collect_mnist_returned _ _ _ _ El) as [-> Hr]. simpl in Hr.
    destruct (torch_stack_mean (fst r)) as [w|e] eqn:Ew; simpl; [|discriminate].
    destruct (torch_stack_mean (snd r)) as [b|e] eqn:Eb; simpl; [|discriminate].
    intros _. repeat split.
    apply torch_stack_mean_returned in Ew.
    intros Hn. rewrite Hn in Hr. simpl in Hr.
    apply Ew. now apply length_zero_iff_nil.
  - rewrite Hc. rewrite collect_chest_loop. simpl.
    destruct (np_stack_mean (map TrainingClient.model_params (finished_in (training_clients s))))
      as [w|e] eqn:Ew; simpl; [|discriminate].
    intros _. repeat split.
    apply np_stack_mean_returned in Ew. intros Hn. rewrite Hn in Ew. now apply Ew.
Qed.

(* ------------------------------------------------------------------ *)
(** ** Readiness and quorum predicates                                  *)
(* ------------------------------------------------------------------ *)

Lemma can_do_training_iff s :
  can_do_training s = true <->
  forall c, In c (values (training_clients s)) ->
    TrainingClient.status c = ClientTrainingStatus.IDLE \/
    TrainingClient.status c = ClientTrainingStatus.TRAINING_REQUEST_ERROR.
Proof.
  unfold can_do_training. rewrite forallb_forall.
  split; intros H c Hc; specialize (H c Hc);
    destruct (TrainingClient.status c); simpl in *; auto;
    try discriminate; destruct H; discriminate.
Qed.

Lemma can_update_iff s :
  can_update_central_model_params s = true <->
  forall c, In c (values (training_clients s)) ->
    TrainingClient.status c = ClientTrainingStatus.TRAINING_FINISHED \/
    TrainingClient.status c = ClientTrainingStatus.TRAINING_REQUEST_ERROR.
Proof.
  unfold can_update_central_model_params. rewrite forallb_forall.
  split; intros H c Hc; specialize (H c Hc);
    destruct (TrainingClient.status c); simpl in *; auto;
    try discriminate; destruct H; discriminate.
Qed.

Lemma in_values_reset_all d c :
  In c (values (reset_all d)) ->
  exists c0, In c0 (values d) /\ c = reset_if_finished c0.
Proof.
  unfold values, reset_all. rewrite map_map. simpl.
  rewrite in_map_iff. intros [[k c0] [<- Hin]]. exists c0. split; auto.
  change c0 with (snd (k, c0)). now apply in_map.
Qed.

Lemma values_reset_all d : values (reset_all d) = map reset_if_finished (values d).
Proof. unfold values, reset_all. now rewrite !map_map. Qed.

Lemma status_reset_if_finished c :
  TrainingClient.status (reset_if_finished c) =
    match TrainingClient.status c with
    | ClientTrainingStatus.TRAINING_FINISHED => ClientTrainingStatus.IDLE
    | st => st
    end.
Proof.
  unfold reset_if_finished, is_finished.
  destruct (TrainingClient.status c) eqn:E; simpl; auto.
Qed.

(** C10. [can_do_training] is true exactly when no registered participant
    is TRAINING_REQUESTED or TRAINING_FINISHED, that is when every one is
    IDLE or TRAINING_REQUEST_ERROR; it is true on an empty registry; and
    after a centralized aggregation that completed, a participant that was
    in TRAINING_REQUEST_ERROR still is, and the coordinator reports ready. *)
Theorem C10_can_do_training_readiness :
  (forall s,
     can_do_training s = true <->
     forall c, In c (values (training_clients s)) ->
       TrainingClient.status c <> ClientTrainingStatus.TRAINING_REQUESTED /\
       TrainingClient.status c <> ClientTrainingStatus.TRAINING_FINISHED) /\
  (forall s,
     can_do_training s = true <->
     forall c, In c (values (training_clients s)) ->
       TrainingClient.status c = ClientTrainingStatus.IDLE \/
       TrainingClient.status c = ClientTrainingStatus.TRAINING_REQUEST_ERROR) /\
  (forall s, training_clients s = [] -> can_do_training s = true) /\
  (forall s ty,
     is_centralized ty = true ->
     can_update_central_model_params s = true ->
     outcome_of (update_server_model_params ty s) = Returned tt ->
     (forall url,
        client_status s url = Some ClientTrainingStatus.TRAINING_REQUEST_ERROR ->
        client_status (server_of (update_server_model_params ty s)) url
          = Some ClientTrainingStatus.TRAINING_REQUEST_ERROR) /\
     can_do_training (server_of (update_server_model_params ty s)) = true).
Proof.
  split; [|split; [|split]].
  - intros s. rewrite can_do_training_iff.
    split; intros H c Hc; specialize (H c Hc);
      destruct (TrainingClient.status c); intuition congruence.
  - apply can_do_training_iff.
  - intros s H. unfold can_do_training. now rewrite H.
  - intros s ty Hc Hq Hr.
    destruct (update_server_model_params_returned ty s Hq Hc Hr) as (Hd & _ & _).
    split.
    + intros url. unfold client_status. rewrite Hd.
      generalize (training_clients s) as d.
      induction d as [|[k c] d IH]; simpl; auto.
      destruct (String.eqb url k); simpl; auto.
      rewrite status_reset_if_finished.
      intros H. injection H as ->. reflexivity.
    + apply can_do_training_iff. intros c Hin. rewrite Hd in Hin.
      apply in_values_reset_all in Hin as (c0 & Hin0 & ->).
      rewrite status_reset_if_finished.
      apply can_update_iff with (c := c0) in Hq; auto.
      destruct Hq as [-> | ->]; auto.
Qed.

(* ------------------------------------------------------------------ *)
(** ** Starting a round                                                 *)
(* ------------------------------------------------------------------ *)

Lemma bind_get A (k : Server -> M A) s : bind get k s = k s s.
Proof. unfold bind, get; simpl. now destruct (k s s). Qed.

Lemma server_of_bind_modify A f (k : unit -> M A) s :
  server_of (bind (modify f) k s) = server_of (k tt (f s)).
Proof. unfold bind, modify. now destruct (k tt (f s)). Qed.

Lemma for_each_emit A (f : A -> Effect) xs s :
  for_each xs (fun x => emit (f x)) s = mkOut s (map f xs) (Returned tt).
Proof.
  induction xs as [|x xs IH]; simpl; auto.
  unfold bind; simpl. now rewrite IH.
Qed.

Lemma filter_is_post_prints A (f : A -> Effect) xs :
  (forall x, is_post (f x) = false) -> filter is_post (map f xs) = [].
Proof.
  intros H. induction xs as [|x xs IH]; simpl; auto. now rewrite H.
Qed.

(** A round is not started unless the server is idle and has clients. *)
Lemma start_training_refused ty s :
  status s <> ServerStatus.IDLE \/ training_clients s = [] ->
  server_of (start_training ty s) = s /\
  outcome_of (start_training ty s) = Returned tt /\
  filter is_post (effects_of (start_training ty s)) = [].
Proof.
  intros H. unfold start_training. rewrite bind_get.
  destruct (server_status_eqb_spec (status s) ServerStatus.IDLE) as [E|E]; simpl.
  - destruct H as [H|H]; [contradiction|]. rewrite H. simpl. auto.
  - unfold bind; simpl. rewrite for_each_emit. simpl.
    repeat split. now apply filter_is_post_prints.
Qed.

Lemma keeps_round_begin body entry :
  keeps round (do_training_client_request_begin body entry).
Proof.
  destruct entry as [k c]. unfold do_training_client_request_begin.
  apply keeps_bind; [apply keeps_emit|]; intros _.
  apply keeps_bind; [|intros _; apply keeps_emit].
  intros s. reflexivity.
Qed.

(** [start_training] leaves the round counter alone or advances it by one,
    and it advances it only from an idle server. *)
Lemma start_training_round ty s :
  round (server_of (start_training ty s)) = round s \/
  (status s = ServerStatus.IDLE /\
   round (server_of (start_training ty s)) = round s + 1).
Proof.
  unfold start_training. rewrite bind_get.
  destruct (server_status_eqb_spec (status s) ServerStatus.IDLE) as [E|E]; simpl.
  - destruct (Nat.eqb (List.length (training_clients s)) 0); [now left|].
    right. split; auto. rewrite server_of_bind_modify, bind_get.
    set (s1 := set_round (round s + 1) s).
    change (round s + 1) with (round s1).
    destruct (select_config ty s1) as [p [c|]].
    + apply keeps_bind; [apply keeps_ret|]; intros c'.
      apply keeps_bind; [apply keeps_emit|]; intros _.
      apply keeps_bind; [apply keeps_emit|]; intros _.
      apply keeps_bind; [intros s'; reflexivity|]; intros _.
      apply keeps_for_each. intros x. apply keeps_round_begin.
    + reflexivity.
  - left. unfold bind; simpl. now rewrite for_each_emit.
Qed.

Lemma keeps_round_register url : keeps round (register_client url).
Proof.
  intros s. unfold register_client. run_m.
  destruct (dict_get (training_clients s) url); reflexivity.
Qed.

Lemma keeps_round_unregister url : keeps round (unregister_client url).
Proof.
  intros s. unfold unregister_client, try_except, pop_client, lookup_client. run_m.
  destruct (dict_get (training_clients s) url); reflexivity.
Qed.

Lemma perform_round op s :
  round (server_of (perform op s)) = round s \/
  (status s = ServerStatus.IDLE /\ round (server_of (perform op s)) = round s + 1).
Proof.
  destruct op as [ty|t|u ty|[u|u]]; simpl.
  - apply start_training_round.
  - left. apply (keeps_step _ round); intros; reflexivity.
  - left. apply keeps_bind; [|intros _; apply keeps_ret].
    apply (keeps_route_finish_round _ round); intros; reflexivity.
  - left. apply keeps_round_register.
  - left. apply keeps_round_unregister.
Qed.

(** C7. When [start_training] is called while the server is not IDLE, or
    with an empty registry, it returns normally, sends no request and
    leaves the whole coordinator (status, every client record, central
    parameters, round counter) exactly as it was.  As a consequence the
    round counter never decreases under any operation or sequence of
    operations, and an operation that changes it started from an idle
    server. *)
Theorem C7_start_training_refused_without_change
    (s : Server) (training_type : string)
    (H : status s <> ServerStatus.IDLE \/ training_clients s = []) :
  server_of (start_training training_type s) = s /\
  outcome_of (start_training training_type s) = Returned tt /\
  filter is_post (effects_of (start_training training_type s)) = [] /\
  (forall op s0,
     round s0 <= round (server_of (perform op s0)) /\
     (round (server_of (perform op s0)) <> round s0 ->
      status s0 = ServerStatus.IDLE)) /\
  (forall ops s0, round s0 <= round (perform_all ops s0)).
Proof.
  destruct (start_training_refused training_type s H) as (H1 & H2 & H3).
  repeat split; auto.
  - destruct (perform_round op s0) as [E|[_ E]]; rewrite E; lia.
  - destruct (perform_round op s0) as [E|[Hi E]]; auto. intros Hne. contradiction.
  - intros ops. induction ops as [|op ops IH]; intros s0; simpl; auto.
    specialize (IH (server_of (perform op s0))).
    destruct (perform_round op s0) as [E|[_ E]]; rewrite E in IH; lia.
Qed.

Lemma C7_witness :
  (status (set_status ServerStatus.CLIENTS_TRAINING one_client) <> ServerStatus.IDLE \/
   training_clients (set_status ServerStatus.CLIENTS_TRAINING one_client) = []) /\
  server_of (start_training TrainingType.MNIST
               (set_status ServerStatus.CLIENTS_TRAINING one_client))
    = set_status ServerStatus.CLIENTS_TRAINING one_client.
Proof.
  split.
  - left. simpl. discriminate.
  - apply (C7_start_training_refused_without_change
             (set_status ServerStatus.CLIENTS_TRAINING one_client)
             TrainingType.MNIST).
    left. simpl. discriminate.
Defined.

(** Outside the configuration table the round counter has already been
    advanced when the missing configuration is read. *)
Lemma start_training_outside_table ty s :
  status s = ServerStatus.IDLE ->
  training_clients s <> [] ->
  in_table ty = false ->
  outcome_of (start_training ty s) = Raised AttributeError /\
  server_of (start_training ty s) = set_round (round s + 1) s /\
  filter is_post (effects_of (start_training ty s)) = [].
Proof.
  intros Hs Hc Ht. unfold start_training. rewrite bind_get, Hs. simpl.
  destruct (training_clients s) as [|e d] eqn:Ed; [contradiction|]. simpl.
  unfold in_table in Ht.
  apply orb_false_iff in Ht as [Ht H4]. apply orb_false_iff in Ht as [Ht H3].
  apply orb_false_iff in Ht as [H1 H2].
  unfold bind, modify, get, select_config; simpl.
  rewrite H1, H2, H3, H4. simpl. auto.
Qed.

(** C8. The training type "FOO" is outside the configuration table; on an
    idle server with one registered client [start_training] raises
    [AttributeError] and the round counter has been advanced from 0 to 1.
    The claim asks for no exception and an unchanged round counter. *)
Theorem C8_unknown_training_type_raises :
  in_table "FOO" = false /\
  status one_client = ServerStatus.IDLE /\
  keys (training_clients one_client) = ["http://a"] /\
  outcome_of (start_training "FOO" one_client) = Raised AttributeError /\
  round one_client = 0 /\
  round (server_of (start_training "FOO" one_client)) = 1.
Proof.
  assert (Hi : status one_client = ServerStatus.IDLE) by reflexivity.
  assert (Hc : training_clients one_client <> []) by (simpl; discriminate).
  assert (Ht : in_table "FOO" = false) by reflexivity.
  destruct (start_training_outside_table "FOO" one_client Hi Hc Ht) as (Ho & Hs & _).
  repeat split; auto.
Qed.

(* ------------------------------------------------------------------ *)
(** ** Callbacks naming an unknown client                               *)
(* ------------------------------------------------------------------ *)

(** [PUT /model_params] catches the failed lookup and answers 401. *)
Lemma update_weights_unknown_client url ty parsed s :
  dict_get (training_clients s) url = None ->
  server_of (Routes.update_weights url ty parsed s) = s /\
  outcome_of (Routes.update_weights url ty parsed s) = Returned 401.
Proof.
  intros H. unfold Routes.update_weights, try_except, lookup_client. run_m.
  rewrite H. simpl. auto.
Qed.

(** [POST /finish_round] for the decentralized variant lets the failed
    lookup escape. *)
Lemma finish_round_unknown_client url s :
  dict_get (training_clients s) url = None ->
  server_of (Routes.finish_round url TrainingType.GOSSIP_MNIST s) = s /\
  outcome_of (Routes.finish_round url TrainingType.GOSSIP_MNIST s) = Raised KeyError.
Proof.
  intros H. unfold Routes.finish_round, lookup_client. run_m.
  rewrite H. simpl. auto.
Qed.

(** [POST /finish_round] for any other variant answers 400 without
    looking the client up. *)
Lemma finish_round_other_variant url ty s :
  String.eqb ty TrainingType.GOSSIP_MNIST = false ->
  server_of (Routes.finish_round url ty s) = s /\
  outcome_of (Routes.finish_round url ty s) = Returned 400.
Proof.
  intros H. unfold Routes.finish_round. run_m. rewrite H. simpl. auto.
Qed.

(** C6. With "http://zz" not registered, the parameter report answers 401
    and changes nothing, but the round-finish callback of the
    decentralized variant ends in an uncaught [KeyError] (the coordinator
    state is unchanged there too).  The claim asks for a client error on
    both callbacks. *)
Theorem C6_finish_callback_unknown_client_raises :
  dict_get (training_clients one_client) "http://zz" = None /\
  outcome_of (Routes.update_weights "http://zz" TrainingType.MNIST
                (Returned (MnistParams (vec [q 1]) (vec [q 0]))) one_client) = Returned 401 /\
  server_of (Routes.update_weights "http://zz" TrainingType.MNIST
                (Returned (MnistParams (vec [q 1]) (vec [q 0]))) one_client) = one_client /\
  outcome_of (Routes.finish_round "http://zz" TrainingType.GOSSIP_MNIST one_client)
    = Raised KeyError /\
  server_of (Routes.finish_round "http://zz" TrainingType.GOSSIP_MNIST one_client)
    = one_client.
Proof.
  assert (H : dict_get (training_clients one_client) "http://zz" = None) by reflexivity.
  destruct (update_weights_unknown_client "http://zz" TrainingType.MNIST
              (Returned (MnistParams (vec [q 1]) (vec [q 0]))) one_client H) as [H1 H2].
  destruct (finish_round_unknown_client "http://zz" one_client H) as [H3 H4].
  repeat split; auto.
Qed.

(* ------------------------------------------------------------------ *)
(** ** Aggregation with nothing to average                              *)
(* ------------------------------------------------------------------ *)

Lemma finished_in_none d :
  (forall c, In c (values d) -> is_finished c = false) -> finished_in d = [].
Proof.
  unfold finished_in. induction (values d) as [|c l IH]; simpl; auto.
  intros H. rewrite (H c) by auto. auto.
Qed.

Lemma reset_all_none d :
  (forall c, In c (values d) -> is_finished c = false) -> reset_all d = d.
Proof.
  induction d as [|[k c] d IH]; simpl; auto.
  intros H. unfold reset_if_finished at 1. rewrite (H c) by auto.
  now rewrite IH by auto.
Qed.

(** When the quorum consists of errored participants only, a centralized
    aggregation stops in [stack] with the server left in
    UPDATING_MODEL_PARAMS. *)
Lemma update_server_model_params_all_errored ty s :
  (forall c, In c (values (training_clients s)) ->
     TrainingClient.status c = ClientTrainingStatus.TRAINING_REQUEST_ERROR) ->
  is_centralized ty = true ->
  server_of (update_server_model_params ty s)
    = set_status ServerStatus.UPDATING_MODEL_PARAMS s /\
  outcome_of (update_server_model_params ty s)
    = Raised (if is_mnist ty then RuntimeError else ValueError).
Proof.
  intros Ha Hc.
  assert (Hq : can_update_central_model_params s = true).
  { apply can_update_iff. intros c Hin. right. auto. }
  assert (Hf : forall c, In c (values (training_clients s)) -> is_finished c = false).
  { intros c Hin. unfold is_finished. now rewrite (Ha c Hin). }
  unfold update_server_model_params, is_centralized in *. run_m. rewrite Hq. simpl.
  destruct (is_mnist ty) eqn:Em; simpl in *.
  - rewrite collect_mnist_loop by (now rewrite finished_in_none).
    rewrite finished_in_none, reset_all_none by assumption. simpl.
    destruct s; auto.
  - rewrite Hc, collect_chest_loop.
    rewrite finished_in_none, reset_all_none by assumption. simpl.
    destruct s; auto.
Qed.

(** C1. One registered client, an MNIST round, and the dispatch answered
    with status 500: the client is in TRAINING_REQUEST_ERROR, the quorum
    holds with nobody FINISHED, and the aggregation ends in the
    [RuntimeError] of [torch.stack] on an empty list.  The central
    parameters are unchanged, but the round is not closed: the server is
    left in UPDATING_MODEL_PARAMS.  The claim asks for a round closed
    without any error. *)
Theorem C1_all_errored_round_raises :
  statuses (after (start_training TrainingType.MNIST) one_client)
    = [ClientTrainingStatus.TRAINING_REQUESTED] /\
  outcome_of (do_training_client_request_resume TrainingType.MNIST "http://a"
                (HttpResponse 500)
                (after (start_training TrainingType.MNIST) one_client))
    = Raised RuntimeError /\
  statuses (after (do_training_client_request_resume TrainingType.MNIST "http://a"
                     (HttpResponse 500))
                  (after (start_training TrainingType.MNIST) one_client))
    = [ClientTrainingStatus.TRAINING_REQUEST_ERROR] /\
  status (after (do_training_client_request_resume TrainingType.MNIST "http://a"
                   (HttpResponse 500))
                (after (start_training TrainingType.MNIST) one_client))
    = ServerStatus.UPDATING_MODEL_PARAMS /\
  mnist_model_params
    (after (do_training_client_request_resume TrainingType.MNIST "http://a"
              (HttpResponse 500))
           (after (start_training TrainingType.MNIST) one_client))
    = mnist_model_params one_client.
Proof. repeat split. Qed.

(* ------------------------------------------------------------------ *)
(** ** The registry: identifiers                                        *)
(* ------------------------------------------------------------------ *)

Lemma register_client_unknown url s :
  dict_get (training_clients s) url = None ->
  register_client url s =
    mkOut (set_training_clients
             (training_clients s ++
              [(url, TrainingClient.new url (List.length (training_clients s) + 1))]) s)
          [PrintRegistering url] (Returned tt).
Proof.
  intros H. unfold register_client. run_m. rewrite H. simpl.
  now rewrite dict_set_absent.
Qed.

Lemma register_client_known url s c :
  dict_get (training_clients s) url = Some c ->
  register_client url s =
    mkOut (set_training_clients
             (dict_update (training_clients s) url
                (TrainingClient.set_status ClientTrainingStatus.IDLE)) s)
          [PrintRegistering url; PrintAlreadyRegistered url] (Returned tt).
Proof.
  intros H. unfold register_client. run_m. now rewrite H.
Qed.

Lemma unregister_client_known url s c :
  dict_get (training_clients s) url = Some c ->
  server_of (unregister_client url s)
    = set_training_clients (dict_remove (training_clients s) url) s.
Proof.
  intros H. unfold unregister_client, try_except, pop_client, lookup_client. run_m.
  now rewrite H.
Qed.

Lemma unregister_client_unknown url s :
  dict_get (training_clients s) url = None ->
  server_of (unregister_client url s) = s /\
  outcome_of (unregister_client url s) = Returned tt.
Proof.
  intros H. unfold unregister_client, try_except, pop_client, lookup_client. run_m.
  now rewrite H.
Qed.

Lemma dict_get_app_absent d k k' c' :
  dict_get (d ++ [(k', c')]) k =
    match dict_get d k with
    | Some c => Some c
    | None => if String.eqb k k' then Some c' else None
    end.
Proof.
  induction d as [|[k0 c0] d IH]; simpl; auto.
  destruct (String.eqb k k0); auto.
Qed.

(** An operation other than its own unregistration leaves a registered
    participant registered under the same id. *)
Lemma apply_op_keeps_id op s url c :
  dict_get (training_clients s) url = Some c ->
  op <> Unregister url ->
  exists c', dict_get (training_clients (server_of (apply_op op s))) url = Some c' /\
             TrainingClient.client_id c' = TrainingClient.client_id c.
Proof.
  intros Hg Hop. destruct op as [u|u]; cbn [apply_op].
  - destruct (dict_get (training_clients s) u) as [cu|] eqn:Eu.
    + rewrite (register_client_known u s cu Eu). simpl.
      destruct (String.eqb_spec url u) as [->|Hne].
      * rewrite dict_get_update_same, Hg. simpl. eauto.
      * rewrite dict_get_update_other by auto. eauto.
    + rewrite (register_client_unknown u s Eu). simpl.
      rewrite dict_get_app_absent, Hg. eauto.
  - assert (Hne : url <> u) by congruence.
    destruct (dict_get (training_clients s) u) as [cu|] eqn:Eu.
    + rewrite (unregister_client_known u s cu Eu). simpl.
      rewrite dict_get_remove_other by auto. eauto.
    + destruct (unregister_client_unknown u s Eu) as [-> _]. eauto.
Qed.

Lemma apply_ops_keep_id ops : forall s url c,
  dict_get (training_clients s) url = Some c ->
  ~ In (Unregister url) ops ->
  exists c', dict_get (training_clients (apply_ops ops s)) url = Some c' /\
             TrainingClient.client_id c' = TrainingClient.client_id c.
Proof.
  induction ops as [|op ops IH]; intros s url c Hg Hn; simpl.
  - eauto.
  - destruct (apply_op_keeps_id op s url c Hg) as (c1 & Hg1 & Hid1).
    { intros ->. apply Hn. simpl; auto. }
    destruct (IH _ url c1 Hg1) as (c2 & Hg2 & Hid2).
    { intros H. apply Hn. simpl; auto. }
    exists c2. split; auto. congruence.
Qed.

Lemma ids_dict_update_status d k st :
  map TrainingClient.client_id (values (dict_update d k (TrainingClient.set_status st)))
  = map TrainingClient.client_id (values d).
Proof.
  induction d as [|[k' c'] d IH]; simpl; auto.
  destruct (String.eqb k k'); simpl; congruence.
Qed.

(** While only registrations happen on a registry that started empty, the
    ids are 1, 2, ..., count in order of first registration. *)
Lemma register_only_ids ops : forall s,
  ids s = seq 1 (List.length (training_clients s)) ->
  forallb is_register ops = true ->
  ids (apply_ops ops s)
    = seq 1 (List.length (training_clients (apply_ops ops s))).
Proof.
  induction ops as [|op ops IH]; intros s Hs Hr; cbn [apply_ops forallb] in *; auto.
  apply andb_true_iff in Hr as [Hop Hr].
  destruct op as [u|u]; [|discriminate].
  apply IH; auto. unfold ids in *. cbn [apply_op].
  destruct (dict_get (training_clients s) u) as [cu|] eqn:Eu.
  - rewrite (register_client_known u s cu Eu). simpl.
    rewrite ids_dict_update_status, Hs.
    f_equal. rewrite <- !(length_map fst).
    fold (keys (training_clients s)).
    fold (keys (dict_update (training_clients s) u
                  (TrainingClient.set_status ClientTrainingStatus.IDLE))).
    now rewrite keys_dict_update.
  - rewrite (register_client_unknown u s Eu). simpl.
    unfold values. rewrite map_app, map_app, length_app. simpl.
    fold (values (training_clients s)). rewrite Hs.
    rewrite seq_app. simpl. now rewrite Nat.add_comm.
Qed.

(** C5, as the code has it.  An id is stable for the lifetime of a
    registration: across any sequence of register and unregister
    operations that does not unregister [url], a registered [url] stays
    registered with the id it had.  [register_client] never fails; an
    unknown url is inserted with id = count+1 and status IDLE; a known url
    keeps its record and id, has its status reset to IDLE, and no record
    is added.  Ids are unique as long as only registrations have happened
    since the registry was empty. *)
Theorem C5_ids_stable_and_unique_without_unregistration :
  (forall ops s url c,
     dict_get (training_clients s) url = Some c ->
     ~ In (Unregister url) ops ->
     exists c', dict_get (training_clients (apply_ops ops s)) url = Some c' /\
                TrainingClient.client_id c' = TrainingClient.client_id c) /\
  (forall url s, outcome_of (register_client url s) = Returned tt) /\
  (forall url s,
     dict_get (training_clients s) url = None ->
     training_clients (server_of (register_client url s))
       = training_clients s ++
         [(url, TrainingClient.mk url (List.length (training_clients s) + 1)
                  ClientTrainingStatus.IDLE NoParams)]) /\
  (forall url s c,
     dict_get (training_clients s) url = Some c ->
     dict_get (training_clients (server_of (register_client url s))) url
       = Some (TrainingClient.set_status ClientTrainingStatus.IDLE c) /\
     keys (training_clients (server_of (register_client url s)))
       = keys (training_clients s) /\
     forall url', url' <> url ->
       dict_get (training_clients (server_of (register_client url s))) url'
         = dict_get (training_clients s) url') /\
  (forall ops s,
     training_clients s = [] ->
     forallb is_register ops = true ->
     NoDup (ids (apply_ops ops s))).
Proof.
  split; [|split; [|split; [|split]]].
  - intros ops s url c. apply apply_ops_keep_id.
  - intros url s.
    destruct (dict_get (training_clients s) url) as [c|] eqn:E.
    + now rewrite (register_client_known url s c E).
    + now rewrite (register_client_unknown url s E).
  - intros url s E. now rewrite (register_client_unknown url s E).
  - intros url s c E. rewrite (register_client_known url s c E). simpl.
    repeat split.
    + now rewrite dict_get_update_same, E.
    + apply keys_dict_update.
    + intros url' Hne. now apply dict_get_update_other.
  - intros ops s He Hr.
    rewrite (register_only_ids ops s); auto.
    + apply seq_NoDup.
    + unfold ids. now rewrite He.
Qed.

(** C5, counterexample.  Register a, register b, unregister a, register c:
    b and c are both registered and both carry id 2. *)
Lemma C5_ids_collide_after_unregistration :
  option_map TrainingClient.client_id
    (dict_get (training_clients
       (apply_ops [Register "http://a"; Register "http://b";
                   Unregister "http://a"; Register "http://c"] fresh_server))
       "http://b") = Some 2 /\
  option_map TrainingClient.client_id
    (dict_get (training_clients
       (apply_ops [Register "http://a"; Register "http://b";
                   Unregister "http://a"; Register "http://c"] fresh_server))
       "http://c") = Some 2.
Proof. split; reflexivity. Qed.

(* ------------------------------------------------------------------ *)
(** ** What [stack(...).mean(0)] returns                                *)
(* ------------------------------------------------------------------ *)

Lemma forallb_map_compose A B (f : A -> B) (p : B -> bool) l :
  forallb p (map f l) = forallb (fun x => p (f x)) l.
Proof. induction l; simpl; congruence. Qed.

Lemma shape_eqb_eq a : forall b, shape_eqb a b = true <-> a = b.
Proof.
  induction a as [|x a IH]; intros [|y b]; simpl; split; try congruence; auto.
  - intros H. apply andb_true_iff in H as [Hx Hr].
    apply Nat.eqb_eq in Hx. apply IH in Hr. congruence.
  - intros H. injection H as -> ->. rewrite Nat.eqb_refl. now apply IH.
Qed.

Lemma same_shape_spec t rest :
  same_shape t rest = true <-> forall r, In r rest -> shape r = shape t.
Proof.
  unfold same_shape. rewrite forallb_forall.
  split; intros H r Hr; apply shape_eqb_eq; auto.
Qed.

(** What [stack_mean] returns is the mean of the rows in the sense of
    [is_mean_of_rows]. *)
Lemma stack_mean_correct e rows :
  rows <> [] -> same_shapes rows = true ->
  exists m, stack_mean e rows = Returned m /\ is_mean_of_rows rows m.
Proof.
  destruct rows as [|t rest]; [congruence|]. intros _ H. cbn [same_shapes] in H.
  unfold stack_mean. rewrite H. eexists. split; [reflexivity|].
  rewrite same_shape_spec in H.
  destruct rest as [|u rest]; cbn [mean0].
  - split; [|reflexivity]. intros r [<-|[]]. reflexivity.
  - split; [|reflexivity]. cbn [shape]. intros r [<-|Hr]; auto.
Qed.

Lemma tensors_of_tensors rows : tensors_of (map TensorItem rows) = Some rows.
Proof. induction rows as [|t rows IH]; simpl; [reflexivity|]. now rewrite IH. Qed.

Lemma torch_stack_mean_tensors rows :
  torch_stack_mean (map TensorItem rows) = stack_mean RuntimeError rows.
Proof. unfold torch_stack_mean. now rewrite tensors_of_tensors. Qed.

Lemma chest_arrays_all l :
  forallb is_chest_params l = true -> chest_arrays l = Some (map weights_of l).
Proof.
  induction l as [|[|w b|w] l IH]; simpl; try discriminate; auto.
  intros H. now rewrite IH.
Qed.

Lemma chest_shapes p rest :
  forallb is_chest_params (p :: rest) = true ->
  forallb (fun p' => shape_eqb (array_shape p') (array_shape p)) rest
  = same_shape (weights_of p) (map weights_of rest).
Proof.
  unfold same_shape. rewrite forallb_map_compose. simpl.
  destruct p as [|w b|w]; try discriminate. simpl.
  induction rest as [|[|w' b'|w'] rest IH]; simpl; try discriminate; auto.
  intros H. now rewrite IH.
Qed.

Lemma chest_no_pair l : forallb is_chest_params l = true -> existsb is_pair l = false.
Proof. induction l as [|[|w b|w] l IH]; simpl; try discriminate; auto. Qed.

(** On weight arrays, [np.stack(...).mean(0)] is [stack_mean]. *)
Lemma np_stack_mean_arrays l :
  forallb is_chest_params l = true ->
  np_stack_mean l = stack_mean ValueError (map weights_of l).
Proof.
  intros H. destruct l as [|p rest]; [reflexivity|].
  unfold np_stack_mean. rewrite (chest_no_pair _ H), (chest_arrays_all _ H).
  rewrite (chest_shapes _ _ H). cbn [map stack_mean].
  destruct (same_shape (weights_of p) (map weights_of rest)); reflexivity.
Qed.

(** The aggregation on well-formed contributions, for the MNIST pair. *)
Lemma update_server_model_params_mnist ty s :
  can_update_central_model_params s = true ->
  is_mnist ty = true ->
  finished_clients s <> [] ->
  contributions_well_formed ty s = true ->
  exists w b,
    update_server_model_params ty s =
      mkOut (mkServer (MnistParams w b) (chest_x_ray_model_params s)
               (reset_all (training_clients s)) ServerStatus.IDLE (round s))
            [PrintUpdatingGlobal; PrintModelWeightsUpdated ty] (Returned tt) /\
    is_mean_of_rows
      (map (fun c => weights_of (TrainingClient.model_params c)) (finished_clients s)) w /\
    is_mean_of_rows
      (map (fun c => bias_of (TrainingClient.model_params c)) (finished_clients s)) b.
Proof.
  intros Hq Hm Hf Hw. unfold contributions_well_formed in Hw. rewrite Hm in Hw.
  apply andb_true_iff in Hw as [Hw Hb]. apply andb_true_iff in Hw as [Hp Hw].
  unfold finished_clients in *. fold (finished_in (training_clients s)) in *.
  destruct (stack_mean_correct RuntimeError _
              (fun E => Hf (map_eq_nil _ _ E)) Hw) as (w & Ew & Mw).
  destruct (stack_mean_correct RuntimeError _
              (fun E => Hf (map_eq_nil _ _ E)) Hb) as (b & Eb & Mb).
  exists w, b. split; [|split; assumption].
  unfold update_server_model_params. run_m. rewrite Hq, Hm. simpl.
  rewrite (collect_mnist_loop _ _ Hp). simpl.
  rewrite <- (map_map (fun c => weights_of (TrainingClient.model_params c)) TensorItem).
  rewrite <- (map_map (fun c => bias_of (TrainingClient.model_params c)) TensorItem).
  rewrite !torch_stack_mean_tensors. rewrite Ew. simpl. rewrite Eb. simpl.
  reflexivity.
Qed.








(* ------------------------------------------------------------------ *)
(** ** A dispatch that is refused                                       *)
(* ------------------------------------------------------------------ *)

Lemma statuses_dict_update_params d url p :
  map TrainingClient.status (values (dict_update d url (TrainingClient.set_model_params p)))
  = map TrainingClient.status (values d).
Proof.
  induction d as [|[k c] d IH]; simpl; auto.
  destruct (String.eqb url k); simpl; congruence.
Qed.

Lemma can_update_statuses s s' :
  statuses s' = statuses s ->
  can_update_central_model_params s' = can_update_central_model_params s.
Proof.
  unfold statuses, can_update_central_model_params. intros H.
  rewrite <- !(forallb_map_compose _ _ TrainingClient.status
     (fun st => negb (negb (ClientTrainingStatus.eqb st ClientTrainingStatus.TRAINING_FINISHED)
                      && negb (ClientTrainingStatus.eqb st ClientTrainingStatus.TRAINING_REQUEST_ERROR)))).
  now rewrite H.
Qed.

(** A loop body that passes over clients that are not finished does not
    see what such a client stores. *)
Lemma for_each_client_stored_params A
    (body : TrainingClient.t -> A -> Outcome (TrainingClient.t * A)) url p :
  (forall c acc, is_finished c = false ->
     body c acc = Returned (c, acc) /\
     body (TrainingClient.set_model_params p c) acc
       = Returned (TrainingClient.set_model_params p c, acc)) ->
  forall d acc,
    (forall c, In (url, c) d -> is_finished c = false) ->
    for_each_client body (dict_update d url (TrainingClient.set_model_params p)) acc
    = (dict_update (fst (for_each_client body d acc)) url (TrainingClient.set_model_params p),
       snd (for_each_client body d acc)).
Proof.
  intros Hb. induction d as [|[k c] d IH]; intros acc Hn; simpl; auto.
  destruct (String.eqb_spec url k) as [->|Hne]; simpl.
  - destruct (Hb c acc (Hn c (or_introl eq_refl))) as [-> ->].
    destruct (for_each_client body d acc) as [rest r]; simpl.
    now rewrite String.eqb_refl.
  - destruct (body c acc) as [[c' acc']|e]; simpl.
    + rewrite IH by (intros c0 H0; apply Hn; now right).
      destruct (for_each_client body d acc') as [rest r]; simpl.
      destruct (String.eqb_spec url k); [contradiction|reflexivity].
    + destruct (String.eqb_spec url k); [contradiction|reflexivity].
Qed.

Lemma collect_mnist_skips p c acc :
  is_finished c = false ->
  collect_mnist c acc = Returned (c, acc) /\
  collect_mnist (TrainingClient.set_model_params p c) acc
    = Returned (TrainingClient.set_model_params p c, acc).
Proof.
  intros H. unfold collect_mnist.
  replace (is_finished (TrainingClient.set_model_params p c)) with false by now rewrite <- H.
  now rewrite H.
Qed.

Lemma collect_chest_skips p c acc :
  is_finished c = false ->
  collect_chest c acc = Returned (c, acc) /\
  collect_chest (TrainingClient.set_model_params p c) acc
    = Returned (TrainingClient.set_model_params p c, acc).
Proof.
  intros H. unfold collect_chest.
  replace (is_finished (TrainingClient.set_model_params p c)) with false by now rewrite <- H.
  now rewrite H.
Qed.

(** What is stored in the record of a client that is not finished has no
    influence on the aggregation: same outcome, same output, same central
    parameters. *)
Lemma update_server_model_params_stored_params ty url p s :
  (forall c, In (url, c) (training_clients s) -> is_finished c = false) ->
  update_server_model_params ty (with_stored_params url p s)
  = mkOut (with_stored_params url p (server_of (update_server_model_params ty s)))
          (effects_of (update_server_model_params ty s))
          (outcome_of (update_server_model_params ty s)).
Proof.
  intros Hn. unfold update_server_model_params. run_m.
  rewrite (can_update_statuses s (with_stored_params url p s))
    by (apply statuses_dict_update_params).
  destruct (can_update_central_model_params s); [|reflexivity]. simpl.
  destruct (is_mnist ty); simpl.
  - rewrite (for_each_client_stored_params _ collect_mnist url p
               (collect_mnist_skips p) _ _ Hn).
    destruct (for_each_client collect_mnist (training_clients s) ([], []))
      as [d' [r|e]]; simpl; [|reflexivity].
    destruct (torch_stack_mean (fst r)); simpl; [|reflexivity].
    destruct (torch_stack_mean (snd r)); reflexivity.
  - destruct (String.eqb ty TrainingType.CHEST_X_RAY_PNEUMONIA); simpl; [|reflexivity].
    rewrite (for_each_client_stored_params _ collect_chest url p
               (collect_chest_skips p) _ _ Hn).
    destruct (for_each_client collect_chest (training_clients s) [])
      as [d' [r|e]]; simpl; [|reflexivity].
    destruct (np_stack_mean r); reflexivity.
Qed.

Lemma dict_update_twice d url f g :
  dict_update (dict_update d url f) url g = dict_update d url (fun c => g (f c)).
Proof.
  induction d as [|[k c] d IH]; simpl; auto.
  destruct (String.eqb_spec url k) as [->|Hne]; simpl.
  - now rewrite String.eqb_refl.
  - destruct (String.eqb_spec url k); [contradiction|]. now rewrite IH.
Qed.

Lemma in_dict_update_same d url f c' :
  NoDup (keys d) -> In (url, c') (dict_update d url f) ->
  exists c, dict_get d url = Some c /\ c' = f c.
Proof.
  induction d as [|[k c] d IH]; simpl; [tauto|].
  intros Hnd. inversion Hnd as [|? ? Hk Hd]; subst.
  destruct (String.eqb_spec url k) as [->|Hne]; simpl.
  - intros [E|Hin].
    + injection E as <-. eauto.
    + exfalso. apply Hk. change k with (fst (k, c')). now apply in_map.
  - intros [E|Hin]; [congruence|]. auto.
Qed.

(** A loop body that hands back unchanged the clients that are not
    finished leaves their records as they are. *)
Lemma for_each_client_passes_over A
    (body : TrainingClient.t -> A -> Outcome (TrainingClient.t * A)) url c :
  (forall c0 acc c' acc', is_finished c0 = false ->
     body c0 acc = Returned (c', acc') -> c' = c0) ->
  is_finished c = false ->
  forall d acc,
    dict_get d url = Some c ->
    dict_get (fst (for_each_client body d acc)) url = Some c.
Proof.
  intros Hb Hf. induction d as [|[k c0] d IH]; intros acc Hg; simpl in *; auto.
  destruct (body c0 acc) as [[c' acc']|e] eqn:Eb; simpl.
  - specialize (IH acc').
    destruct (for_each_client body d acc') as [rest r]; simpl in *.
    destruct (String.eqb url k); auto.
    injection Hg as ->. now rewrite (Hb _ _ _ _ Hf Eb).
  - exact Hg.
Qed.

Lemma update_server_model_params_passes_over ty s url c :
  is_finished c = false ->
  dict_get (training_clients s) url = Some c ->
  dict_get (training_clients (server_of (update_server_model_params ty s))) url = Some c.
Proof.
  intros Hf Hg. unfold update_server_model_params. run_m.
  destruct (can_update_central_model_params s); [|exact Hg]. simpl.
  destruct (is_mnist ty); simpl.
  - assert (H := for_each_client_passes_over _ collect_mnist url c).
    specialize (H (fun c0 acc c' acc' Hn =>
      match collect_mnist_skips NoParams c0 acc Hn with
      | conj E _ => fun Er => eq_sym (f_equal fst
          (f_equal (fun o => match o with Returned x => x | Raised _ => (c0, acc) end)
             (eq_trans (eq_sym E) Er)))
      end) Hf (training_clients s) ([], []) Hg).
    destruct (for_each_client collect_mnist (training_clients s) ([], []))
      as [d' [r|e]]; simpl in *; [|exact H].
    destruct (torch_stack_mean (fst r)); simpl; [|exact H].
    destruct (torch_stack_mean (snd r)); exact H.
  - destruct (String.eqb ty TrainingType.CHEST_X_RAY_PNEUMONIA); simpl; [|exact Hg].
    rewrite collect_chest_loop. simpl.
    assert (H : dict_get (reset_all (training_clients s)) url = Some c).
    { clear - Hf Hg. induction (training_clients s) as [|[k c0] d IH]; simpl in *; auto.
      destruct (String.eqb url k); auto. injection Hg as ->.
      unfold reset_if_finished. now rewrite Hf. }
    destruct (np_stack_mean _); exact H.
Qed.

Lemma can_update_is_terminal s :
  can_update_central_model_params s = forallb is_terminal (values (training_clients s)).
Proof.
  unfold can_update_central_model_params, is_terminal.
  induction (values (training_clients s)) as [|c l IH]; simpl; auto.
  rewrite IH. now destruct (TrainingClient.status c).
Qed.

Lemma aggregations_entered_update_server_model_params ty s :
  aggregations_entered (effects_of (update_server_model_params ty s))
  = if can_update_central_model_params s then 1 else 0.
Proof.
  unfold update_server_model_params. run_m.
  destruct (can_update_central_model_params s); [|reflexivity]. simpl.
  destruct (is_mnist ty); simpl.
  - destruct (for_each_client collect_mnist (training_clients s) ([], []))
      as [d' [r|e]]; simpl; [|reflexivity].
    destruct (torch_stack_mean (fst r)); simpl; [|reflexivity].
    destruct (torch_stack_mean (snd r)); reflexivity.
  - destruct (String.eqb ty TrainingType.CHEST_X_RAY_PNEUMONIA); simpl; [|reflexivity].
    destruct (for_each_client collect_chest (training_clients s) [])
      as [d' [r|e]]; simpl; [|reflexivity].
    destruct (np_stack_mean r); reflexivity.
Qed.

Lemma resume_refused ty url code s :
  code <> 200 ->
  do_training_client_request_resume ty url (HttpResponse code) s
  = mkOut (server_of (update_server_model_params ty (with_request_error url s)))
          (PrintErrorRequesting url
             :: effects_of (update_server_model_params ty (with_request_error url s)))
          (outcome_of (update_server_model_params ty (with_request_error url s))).
Proof.
  intros Hc. unfold do_training_client_request_resume.
  destruct (Nat.eqb_spec code 200) as [E|_]; [contradiction|]. simpl.
  unfold bind at 1. simpl. unfold bind at 1. simpl.
  fold (with_request_error url s).
  destruct (update_server_model_params ty (with_request_error url s)); reflexivity.
Qed.

(** The task of a registered participant that gets to handle an answer
    with a status other than 200: the participant is marked
    TRAINING_REQUEST_ERROR and the aggregation is attempted at once on the
    state so marked; the participant is still in TRAINING_REQUEST_ERROR
    when the attempt is over; it counts toward the quorum (when all the
    other participants are FINISHED or in error, this very answer enters
    the aggregation); and what its record stores is excluded from the
    result: with any other stored parameters the outcome and both central
    parameter sets are the same. *)
Lemma refused_dispatch_counts_without_contributing
    (s : Server) (training_type url : string) (code : nat) (c : TrainingClient.t)
    (Hnd : NoDup (registered s))
    (Hreg : dict_get (training_clients s) url = Some c)
    (Hcode : code <> 200) :
  do_training_client_request_resume training_type url (HttpResponse code) s
    = mkOut (server_of (update_server_model_params training_type (with_request_error url s)))
            (PrintErrorRequesting url
               :: effects_of (update_server_model_params training_type
                                (with_request_error url s)))
            (outcome_of (update_server_model_params training_type
                           (with_request_error url s))) /\
  client_status (with_request_error url s) url
    = Some ClientTrainingStatus.TRAINING_REQUEST_ERROR /\
  client_status
    (server_of (do_training_client_request_resume training_type url (HttpResponse code) s))
    url = Some ClientTrainingStatus.TRAINING_REQUEST_ERROR /\
  ((forall k c', In (k, c') (training_clients s) -> k <> url -> is_terminal c' = true) ->
   aggregations_entered
     (effects_of (do_training_client_request_resume training_type url (HttpResponse code) s))
   = 1) /\
  (forall p,
     outcome_of (do_training_client_request_resume training_type url (HttpResponse code)
                   (with_stored_params url p s))
       = outcome_of (do_training_client_request_resume training_type url
                       (HttpResponse code) s) /\
     mnist_model_params
       (server_of (do_training_client_request_resume training_type url (HttpResponse code)
                     (with_stored_params url p s)))
       = mnist_model_params
           (server_of (do_training_client_request_resume training_type url
                         (HttpResponse code) s)) /\
     chest_x_ray_model_params
       (server_of (do_training_client_request_resume training_type url (HttpResponse code)
                     (with_stored_params url p s)))
       = chest_x_ray_model_params
           (server_of (do_training_client_request_resume training_type url
                         (HttpResponse code) s))).
Proof.
  assert (Hg1 : dict_get (training_clients (with_request_error url s)) url
                = Some (TrainingClient.set_status
                          ClientTrainingStatus.TRAINING_REQUEST_ERROR c)).
  { unfold with_request_error. simpl. now rewrite dict_get_update_same, Hreg. }
  assert (Hin : forall c', In (url, c') (training_clients (with_request_error url s)) ->
                           is_finished c' = false).
  { intros c' H. apply in_dict_update_same in H as (c0 & E0 & ->); auto. }
  split; [now apply resume_refused|].
  split; [unfold client_status; now rewrite Hg1|].
  split; [|split].
  - rewrite resume_refused by assumption. cbn [server_of]. unfold client_status.
    now rewrite (update_server_model_params_passes_over training_type _ url
                   (TrainingClient.set_status ClientTrainingStatus.TRAINING_REQUEST_ERROR c)
                   eq_refl Hg1).
  - intros Hothers. rewrite resume_refused by assumption.
    cbn [effects_of aggregations_entered].
    rewrite aggregations_entered_update_server_model_params.
    replace (can_update_central_model_params (with_request_error url s)) with true; auto.
    symmetry. rewrite can_update_is_terminal. apply forallb_forall.
    intros c' Hc'. unfold values in Hc'. apply in_map_iff in Hc' as ([k c''] & <- & Hc').
    simpl. destruct (String.eqb_spec k url) as [->|Hne].
    + apply in_dict_update_same in Hc' as (c0 & E0 & ->); auto.
    + apply (Hothers k); auto. unfold with_request_error in Hc'. simpl in Hc'.
      now apply in_dict_update_other in Hc'.
  - intros p.
    assert (E : with_request_error url (with_stored_params url p s)
                = with_stored_params url p (with_request_error url s)).
    { unfold with_request_error, with_stored_params. simpl.
      now rewrite !dict_update_twice. }
    rewrite !resume_refused by assumption. cbn [server_of outcome_of]. rewrite E.
    rewrite (update_server_model_params_stored_params training_type url p _ Hin).
    cbn [server_of outcome_of]. unfold with_stored_params. auto.
Qed.

(** C4.  A round of MNIST is requested for the only participant and the
    request to it cannot be carried out at all.  The exception of the HTTP
    client is caught nowhere: it ends the task and the call of
    [start_training]; the participant stays in TRAINING_REQUESTED, the
    server in CLIENTS_TRAINING, nothing is recorded and no aggregation is
    attempted.  With two participants, the same failure for "http://a"
    ends the call before the answer 500 to "http://b" is looked at, so
    that "http://b" stays in TRAINING_REQUESTED as well.  The claim asks
    for TRAINING_REQUEST_ERROR and an attempt of aggregation. *)
Theorem C4_transport_failure_is_not_recorded :
  statuses round_of_one = [ClientTrainingStatus.TRAINING_REQUESTED] /\
  outcome_of (do_training_client_request_resume TrainingType.MNIST "http://a"
                ConnectionFailed round_of_one)
    = Raised ClientConnectorError /\
  statuses (server_of (do_training_client_request_resume TrainingType.MNIST "http://a"
                         ConnectionFailed round_of_one))
    = [ClientTrainingStatus.TRAINING_REQUESTED] /\
  aggregations_entered
    (effects_of (do_training_client_request_resume TrainingType.MNIST "http://a"
                   ConnectionFailed round_of_one))
    = 0 /\
  outcome_of (start_training_call TrainingType.MNIST [("http://a", ConnectionFailed)]
                one_client)
    = Raised ClientConnectorError /\
  statuses (after (start_training_call TrainingType.MNIST [("http://a", ConnectionFailed)])
                  one_client)
    = [ClientTrainingStatus.TRAINING_REQUESTED] /\
  status (after (start_training_call TrainingType.MNIST [("http://a", ConnectionFailed)])
                one_client)
    = ServerStatus.CLIENTS_TRAINING /\
  aggregations_entered
    (effects_of (start_training_call TrainingType.MNIST [("http://a", ConnectionFailed)]
                   one_client))
    = 0 /\
  outcome_of (start_training_call TrainingType.MNIST
                [("http://a", ConnectionFailed); ("http://b", HttpResponse 500)]
                two_clients)
    = Raised ClientConnectorError /\
  statuses (after (start_training_call TrainingType.MNIST
                     [("http://a", ConnectionFailed); ("http://b", HttpResponse 500)])
                  two_clients)
    = [ClientTrainingStatus.TRAINING_REQUESTED; ClientTrainingStatus.TRAINING_REQUESTED].
Proof. repeat split. Qed.

(* ------------------------------------------------------------------ *)
(** ** Dispatch: every client is marked before any answer               *)
(* ------------------------------------------------------------------ *)

Lemma dict_update_app_notin pre d k f :
  ~ In k (keys pre) -> dict_update (pre ++ d) k f = pre ++ dict_update d k f.
Proof.
  induction pre as [|[k' c'] pre IH]; simpl; auto.
  intros H. destruct (String.eqb_spec k k') as [->|Hne].
  - exfalso. apply H. auto.
  - rewrite IH; auto.
Qed.

Lemma mark_all_requested l : forall pre,
  NoDup (keys l) ->
  (forall k, In k (keys pre) -> ~ In k (keys l)) ->
  fold_left (fun d kc =>
               dict_update d (fst kc)
                 (TrainingClient.set_status ClientTrainingStatus.TRAINING_REQUESTED))
            l (pre ++ l)
  = pre ++ map mark_requested l.
Proof.
  induction l as [|[k c] l IH]; intros pre Hnd Hdis; simpl; auto.
  inversion Hnd as [|? ? Hk Hl]; subst.
  rewrite dict_update_app_notin by (intros H; apply (Hdis k H); simpl; auto).
  simpl. rewrite String.eqb_refl.
  change (pre ++ (k, TrainingClient.set_status ClientTrainingStatus.TRAINING_REQUESTED c) :: l)
    with (pre ++ [mark_requested (k, c)] ++ l).
  rewrite app_assoc, IH; auto.
  - now rewrite <- app_assoc.
  - intros k'. unfold keys. rewrite map_app, in_app_iff. simpl.
    intros [H|[<-|[]]]; auto.
    intros H'. apply (Hdis k' H). simpl; auto.
Qed.

Lemma do_training_client_request_begin_eq body k c s :
  do_training_client_request_begin body (k, c) s
  = mkOut (set_training_clients
             (dict_update (training_clients s) k
                (TrainingClient.set_status ClientTrainingStatus.TRAINING_REQUESTED)) s)
          [PrintRequestingClient (String.append (TrainingClient.client_url c) "/training");
           HttpPost (String.append (TrainingClient.client_url c) "/training")
                    (RequestBody.set_client_id (TrainingClient.client_id c) body)]
          (Returned tt).
Proof. reflexivity. Qed.

Lemma for_each_begin body l : forall s,
  server_of (for_each l (do_training_client_request_begin body) s)
  = set_training_clients
      (fold_left (fun d kc =>
                    dict_update d (fst kc)
                      (TrainingClient.set_status
                         ClientTrainingStatus.TRAINING_REQUESTED))
                 l (training_clients s)) s /\
  outcome_of (for_each l (do_training_client_request_begin body) s) = Returned tt.
Proof.
  induction l as [|[k c] l IH]; intros s; cbn [for_each fold_left].
  - split; [now destruct s | reflexivity].
  - unfold bind. rewrite do_training_client_request_begin_eq.
    destruct (IH (set_training_clients
                    (dict_update (training_clients s) k
                       (TrainingClient.set_status ClientTrainingStatus.TRAINING_REQUESTED))
                    s)) as [E1 E2].
    destruct (for_each l (do_training_client_request_begin body) _) as [s2 es2 r].
    cbn [server_of outcome_of] in *. subst. split; reflexivity.
Qed.

Lemma server_of_bind A B (m : M A) (k : A -> M B) s a :
  outcome_of (m s) = Returned a ->
  server_of (bind m k s) = server_of (k a (server_of (m s))).
Proof.
  intros H. unfold bind. destruct (m s) as [s1 es1 [a'|e]]; simpl in H; [|discriminate].
  injection H as ->. cbn [server_of]. now destruct (k a s1).
Qed.

Lemma outcome_of_bind A B (m : M A) (k : A -> M B) s a :
  outcome_of (m s) = Returned a ->
  outcome_of (bind m k s) = outcome_of (k a (server_of (m s))).
Proof.
  intros H. unfold bind. destruct (m s) as [s1 es1 [a'|e]]; simpl in H; [|discriminate].
  injection H as ->. cbn [server_of]. now destruct (k a s1).
Qed.

Lemma select_config_in_table ty :
  in_table ty = true ->
  exists p c, forall s, select_config ty s = (p s, Some c).
Proof.
  unfold in_table, select_config. intros Ht.
  destruct (String.eqb ty TrainingType.MNIST); cbn [orb] in *; [eauto|].
  destruct (String.eqb ty TrainingType.DETERMINISTIC_MNIST); cbn [orb] in *; [eauto|].
  destruct (String.eqb ty TrainingType.GOSSIP_MNIST); cbn [orb] in *;
    [exists (fun _ => NoParams); eauto|].
  destruct (String.eqb ty TrainingType.CHEST_X_RAY_PNEUMONIA); [eauto|discriminate].
Qed.

(** A round that is started: the counter advances, the status becomes
    CLIENTS_TRAINING, every client is TRAINING_REQUESTED, and nothing else
    changes. *)
Lemma start_training_dispatched ty s :
  status s = ServerStatus.IDLE ->
  training_clients s <> [] ->
  in_table ty = true ->
  NoDup (registered s) ->
  server_of (start_training ty s)
    = mkServer (mnist_model_params s) (chest_x_ray_model_params s)
        (map mark_requested (training_clients s))
        ServerStatus.CLIENTS_TRAINING (round s + 1) /\
  outcome_of (start_training ty s) = Returned tt.
Proof.
  intros Hs Hc Ht Hnd. unfold start_training. rewrite bind_get, Hs.
  cbn [ServerStatus.eqb negb].
  destruct (training_clients s) as [|e d] eqn:Ed; [contradiction|].
  cbn [List.length Nat.eqb].
  destruct (select_config_in_table ty Ht) as (p & c & Hcfg).
  split.
  - rewrite server_of_bind with (a := tt) by reflexivity.
    cbn [modify server_of]. rewrite bind_get, Hcfg.
    rewrite server_of_bind with (a := c) by reflexivity. cbn [ret server_of].
    rewrite server_of_bind with (a := tt) by reflexivity. cbn [emit server_of].
    rewrite server_of_bind with (a := tt) by reflexivity. cbn [emit server_of].
    rewrite server_of_bind with (a := tt) by reflexivity. cbn [modify server_of].
    rewrite (proj1 (for_each_begin _ _ _)).
    cbn [training_clients set_status set_round set_training_clients
         mnist_model_params chest_x_ray_model_params status round].
    rewrite Ed.
    assert (Hm := mark_all_requested (e :: d) []).
    cbn [app] in Hm. rewrite Hm; auto.
    unfold registered in Hnd. now rewrite Ed in Hnd.
  - rewrite outcome_of_bind with (a := tt) by reflexivity.
    cbn [modify server_of]. rewrite bind_get, Hcfg.
    rewrite outcome_of_bind with (a := c) by reflexivity. cbn [ret server_of].
    rewrite outcome_of_bind with (a := tt) by reflexivity. cbn [emit server_of].
    rewrite outcome_of_bind with (a := tt) by reflexivity. cbn [emit server_of].
    rewrite outcome_of_bind with (a := tt) by reflexivity. cbn [modify server_of].
    apply for_each_begin.
Qed.

(* ------------------------------------------------------------------ *)
(** ** The whole call of [start_training]                               *)
(* ------------------------------------------------------------------ *)

(** Answers that are all 200 are acknowledged one after the other and
    change nothing. *)
Lemma gather_accepted ty answers : forall s,
  forallb accepted answers = true ->
  gather ty answers s
  = mkOut s (map (fun a => PrintClientStarted (fst a)) answers) (Returned tt).
Proof.
  unfold gather.
  induction answers as [|[u r] rest IH]; intros s H; [reflexivity|].
  cbn [forallb] in H. apply andb_true_iff in H as [Ha Hr].
  unfold accepted in Ha. cbn [snd] in Ha.
  destruct r as [code|]; [|discriminate].
  assert (E : do_training_client_request_resume ty u (HttpResponse code) s
              = mkOut s [PrintClientStarted u] (Returned tt)).
  { unfold do_training_client_request_resume. now rewrite Ha. }
  cbn [for_each fst snd]. unfold bind at 1. rewrite E, (IH s Hr). reflexivity.
Qed.

Lemma run_from_cancelled ts : forall s,
  forallb is_dispatch_answer ts = true -> run_from false ts s = (s, []).
Proof.
  induction ts as [|t rest IH]; intros s H; [reflexivity|].
  cbn [forallb] in H. apply andb_true_iff in H as [Ht Hr].
  cbn [run_from]. rewrite Ht. cbn [andb negb]. now apply IH.
Qed.

(** The answers handled by [gather] are the transitions of [run]: the
    tasks handle them one after the other until one of them raises. *)
Lemma gather_run ty answers : forall s,
  run (answers_of ty answers) s
  = (server_of (gather ty answers s), effects_of (gather ty answers s)).
Proof.
  unfold run, gather.
  induction answers as [|[u r] rest IH]; intros s; [reflexivity|].
  cbn [answers_of map fst snd run_from is_dispatch_answer andb negb step for_each].
  unfold bind.
  destruct (do_training_client_request_resume ty u r s) as [s1 es1 [[]|e]];
    cbn [server_of effects_of outcome_of has_raised negb andb].
  - fold (answers_of ty rest). rewrite IH.
    destruct (for_each rest _ s1) as [s2 es2 o2]. reflexivity.
  - fold (answers_of ty rest). rewrite run_from_cancelled.
    + now rewrite app_nil_r.
    + unfold answers_of. rewrite forallb_map_compose. now apply forallb_forall.
Qed.

(** The whole call is the dispatch followed by the transitions of its
    answers. *)
Lemma start_training_call_run ty answers s :
  status s = ServerStatus.IDLE ->
  training_clients s <> [] ->
  outcome_of (start_training ty s) = Returned tt ->
  server_of (start_training_call ty answers s)
    = fst (run (answers_of ty answers) (after (start_training ty) s)) /\
  effects_of (start_training_call ty answers s)
    = effects_of (start_training ty s)
      ++ snd (run (answers_of ty answers) (after (start_training ty) s)).
Proof.
  intros Hs Hc Ho. unfold start_training_call, after. rewrite bind_get, Hs.
  destruct (training_clients s) as [|kc d]; [contradiction|].
  cbn [ServerStatus.eqb List.length Nat.eqb negb andb]. unfold bind.
  destruct (start_training ty s) as [s1 es1 [[]|e]]; [|discriminate].
  cbn [server_of effects_of]. rewrite gather_run.
  destruct (gather ty answers s1) as [s2 es2 o2]. auto.
Qed.

(** When every dispatch is accepted, the whole call leaves the
    coordinator where the dispatch left it and ends as the dispatch
    did. *)
Lemma start_training_call_accepted ty answers s :
  forallb accepted answers = true ->
  server_of (start_training_call ty answers s) = server_of (start_training ty s) /\
  outcome_of (start_training_call ty answers s) = outcome_of (start_training ty s).
Proof.
  intros H. unfold start_training_call. rewrite bind_get. unfold bind.
  destruct (start_training ty s) as [s1 es1 [[]|e]]; [|auto].
  destruct (ServerStatus.eqb (status s) ServerStatus.IDLE
            && negb (Nat.eqb (List.length (training_clients s)) 0)).
  - rewrite (gather_accepted ty answers s1 H). auto.
  - auto.
Qed.

(* ------------------------------------------------------------------ *)
(** ** The decentralized round                                          *)
(* ------------------------------------------------------------------ *)

Lemma reset_loop d :
  for_each_client
    (fun c (_ : unit) =>
       Returned (TrainingClient.set_status ClientTrainingStatus.IDLE c, tt)) d tt
  = (map mark_idle d, Returned tt).
Proof.
  induction d as [|[k c] d IH]; simpl; auto. now rewrite IH.
Qed.

(** One finish callback of a registered participant: it is marked
    finished and the round is closed if the quorum is reached. *)
Lemma finish_round_registered url s c :
  dict_get (training_clients s) url = Some c ->
  outcome_of (Routes.finish_round url TrainingType.GOSSIP_MNIST s) = Returned 200 /\
  server_of (Routes.finish_round url TrainingType.GOSSIP_MNIST s)
    = if can_update_central_model_params (with_finished url s)
      then closed_round (with_finished url s)
      else with_finished url s.
Proof.
  intros H. unfold Routes.finish_round, finish_round, lookup_client. run_m.
  rewrite H. simpl. fold (with_finished url s).
  destruct (can_update_central_model_params (with_finished url s)); simpl; auto.
  rewrite reset_loop. simpl. auto.
Qed.

Lemma stored_params_dict_update_status d url st :
  map TrainingClient.model_params (values (dict_update d url (TrainingClient.set_status st)))
  = map TrainingClient.model_params (values d).
Proof.
  induction d as [|[k c] d IH]; simpl; auto.
  destruct (String.eqb url k); simpl; congruence.
Qed.

Lemma stored_params_mark (st : ClientTrainingStatus.t) d :
  map TrainingClient.model_params
    (values (map (fun kc => (fst kc, TrainingClient.set_status st (snd kc))) d))
  = map TrainingClient.model_params (values d).
Proof.
  unfold values. rewrite !map_map. reflexivity.
Qed.

Lemma in_keys_entry (d : Registry) k : In k (keys d) -> exists c, In (k, c) d.
Proof.
  unfold keys. rewrite in_map_iff. intros [[k' c] [E H]]. simpl in E. subst. eauto.
Qed.

Lemma awaiting_after_finish url pending s :
  NoDup (registered s) ->
  NoDup (url :: pending) ->
  awaiting (url :: pending) s ->
  awaiting pending (with_finished url s).
Proof.
  intros Hnd Hp Ha k c Hin. inversion Hp as [|? ? Hu Hp']; subst.
  unfold with_finished in Hin. simpl in Hin.
  destruct (String.eqb_spec k url) as [->|Hne].
  - apply in_dict_update_same in Hin as (c0 & _ & ->); auto.
    split; [intros H; contradiction | reflexivity].
  - apply in_dict_update_other in Hin; auto.
    destruct (Ha k c Hin) as [H1 H2]. split.
    + intros H. apply H1. now right.
    + intros H. apply H2. intros [E|H']; [congruence | contradiction].
Qed.

(** Finish callbacks of the participants still awaited, each once and in
    any order: the last one closes the round. *)
Lemma run_finish_closes pending : forall s,
  pending <> [] ->
  NoDup pending ->
  NoDup (registered s) ->
  (forall u, In u pending -> In u (registered s)) ->
  awaiting pending s ->
  status (fst (run_finish pending s)) = ServerStatus.IDLE /\
  (forall c, In c (values (training_clients (fst (run_finish pending s)))) ->
     TrainingClient.status c = ClientTrainingStatus.IDLE) /\
  registered (fst (run_finish pending s)) = registered s /\
  stored_params (fst (run_finish pending s)) = stored_params s /\
  Forall (fun r => r = Returned 200) (snd (run_finish pending s)).
Proof.
  induction pending as [|u rest IH]; intros s Hne Hp Hnd Hreg Ha; [congruence|].
  cbn [run_finish].
  assert (Hu : In u (registered s)) by (apply Hreg; simpl; auto).
  destruct (dict_get (training_clients s) u) as [c|] eqn:Eg;
    [|apply dict_get_None_not_in in Eg; contradiction].
  destruct (finish_round_registered u s c Eg) as [Ho Hs].
  assert (Ha' := awaiting_after_finish u rest s Hnd Hp Ha).
  assert (Hk : registered (with_finished u s) = registered s)
    by apply keys_dict_update.
  assert (Hsp : stored_params (with_finished u s) = stored_params s)
    by apply stored_params_dict_update_status.
  inversion Hp as [|? ? Hu' Hp']; subst.
  destruct rest as [|u' rest'].
  - (* the last awaited participant: quorum *)
    assert (Hq : can_update_central_model_params (with_finished u s) = true).
    { apply can_update_iff. intros c' Hc'. left.
      unfold values in Hc'. apply in_map_iff in Hc' as ([k c''] & <- & Hin).
      apply (Ha' k c'' Hin). auto. }
    rewrite Hq in Hs. cbn [run_finish fst snd]. rewrite Hs, Ho.
    repeat split; auto.
    + intros c' Hc'. unfold closed_round in Hc'. simpl in Hc'.
      unfold values in Hc'. rewrite map_map in Hc'.
      apply in_map_iff in Hc' as (kc & <- & _). reflexivity.
    + unfold closed_round, registered, keys. simpl. rewrite map_map. simpl.
      exact Hk.
    + unfold closed_round, stored_params. simpl.
      unfold mark_idle. rewrite stored_params_mark. exact Hsp.
  - (* somebody is still awaited: no quorum *)
    assert (Hq : can_update_central_model_params (with_finished u s) = false).
    { apply not_true_is_false. intros Hq.
      assert (Hin : In u' (registered (with_finished u s))).
      { rewrite Hk. apply Hreg. simpl; auto. }
      apply in_keys_entry in Hin as [c' Hin].
      destruct (Ha' u' c' Hin) as [Hr _].
      assert (Hv : In c' (values (training_clients (with_finished u s)))).
      { change c' with (snd (u', c')). now apply in_map. }
      apply (proj1 (can_update_iff _) Hq) in Hv.
      rewrite Hr in Hv by (simpl; auto). destruct Hv; discriminate. }
    rewrite Hq in Hs.
    specialize (IH (with_finished u s)).
    destruct (run_finish (u' :: rest') (server_of (Routes.finish_round u TrainingType.GOSSIP_MNIST s)))
      as [s2 rs] eqn:Er.
    rewrite Hs in Er. rewrite Er in IH. cbn [fst snd] in *.
    destruct IH as (I1 & I2 & I3 & I4 & I5); auto.
    { discriminate. }
    { now rewrite Hk. }
    { intros x Hx. rewrite Hk. apply Hreg. now right. }
    repeat split; auto; try congruence.
Qed.

Lemma keeps_run_finish X (proj : Server -> X) urls :
  (forall s d, keys d = keys (training_clients s) ->
               proj (set_training_clients d s) = proj s) ->
  (forall st s, proj (set_status st s) = proj s) ->
  forall s, proj (fst (run_finish urls s)) = proj s.
Proof.
  intros H1 H2. induction urls as [|u rest IH]; intros s; cbn [run_finish fst]; auto.
  specialize (IH (server_of (Routes.finish_round u TrainingType.GOSSIP_MNIST s))).
  destruct (run_finish rest (server_of (Routes.finish_round u TrainingType.GOSSIP_MNIST s)))
    as [s' rs].
  cbn [fst] in *. rewrite IH.
  exact (keeps_route_finish_round X proj H1 H2 u TrainingType.GOSSIP_MNIST s).
Qed.

(** C9.  A decentralized (GOSSIP_MNIST) round is started on an idle
    server with a non-empty registry, and then every registered
    participant invokes the finish callback, each once, in any order.
    Every callback is answered 200; afterwards the server is IDLE, every
    participant is IDLE, both central parameter sets are exactly as before
    the round, and so are the parameter sets stored in the client records
    (a finish callback attaches none). *)
Theorem C9_decentralized_round_closes_without_aggregation
    (s : Server) (urls : list string)
    (Hidle : status s = ServerStatus.IDLE)
    (Hclients : training_clients s <> [])
    (Hnd : NoDup (registered s))
    (Hall : Permutation urls (registered s)) :
  outcome_of (start_training TrainingType.GOSSIP_MNIST s) = Returned tt /\
  status (fst (run_finish urls (after (start_training TrainingType.GOSSIP_MNIST) s)))
    = ServerStatus.IDLE /\
  (forall c,
     In c (values (training_clients
             (fst (run_finish urls (after (start_training TrainingType.GOSSIP_MNIST) s))))) ->
     TrainingClient.status c = ClientTrainingStatus.IDLE) /\
  mnist_model_params
    (fst (run_finish urls (after (start_training TrainingType.GOSSIP_MNIST) s)))
    = mnist_model_params s /\
  chest_x_ray_model_params
    (fst (run_finish urls (after (start_training TrainingType.GOSSIP_MNIST) s)))
    = chest_x_ray_model_params s /\
  stored_params
    (fst (run_finish urls (after (start_training TrainingType.GOSSIP_MNIST) s)))
    = stored_params s /\
  registered
    (fst (run_finish urls (after (start_training TrainingType.GOSSIP_MNIST) s)))
    = registered s /\
  Forall (fun r => r = Returned 200)
    (snd (run_finish urls (after (start_training TrainingType.GOSSIP_MNIST) s))).
Proof.
  destruct (start_training_dispatched TrainingType.GOSSIP_MNIST s
              Hidle Hclients eq_refl Hnd) as [Hs Ho].
  unfold after. set (s1 := server_of (start_training TrainingType.GOSSIP_MNIST s)) in *.
  assert (Hk1 : registered s1 = registered s).
  { rewrite Hs. unfold registered, keys. simpl. rewrite map_map. reflexivity. }
  assert (Hp1 : stored_params s1 = stored_params s).
  { rewrite Hs. unfold stored_params. simpl. apply stored_params_mark. }
  assert (Hne : urls <> []).
  { intros ->. apply Permutation_nil in Hall. unfold registered, keys in Hall.
    apply map_eq_nil in Hall. contradiction. }
  assert (Hpn : NoDup urls).
  { apply Permutation_NoDup with (l := registered s); auto. now apply Permutation_sym. }
  assert (Haw : awaiting urls s1).
  { intros k c Hin. rewrite Hs in Hin. simpl in Hin.
    apply in_map_iff in Hin as ([k0 c0] & E & Hin0).
    unfold mark_requested in E. simpl in E. injection E as <- <-.
    split; [reflexivity|]. intros Hn. exfalso. apply Hn.
    apply Permutation_in with (l := registered s); [now apply Permutation_sym|].
    change k0 with (fst (k0, c0)). now apply in_map. }
  destruct (run_finish_closes urls s1 Hne Hpn) as (R1 & R2 & R3 & R4 & R5); auto.
  { now rewrite Hk1. }
  { intros u Hu. rewrite Hk1. now apply Permutation_in with (l := urls). }
  repeat split; auto; try congruence.
  - rewrite (keeps_run_finish _ mnist_model_params) by reflexivity.
    now rewrite Hs.
  - rewrite (keeps_run_finish _ chest_x_ray_model_params) by reflexivity.
    now rewrite Hs.
Qed.

Lemma C9_witness :
  status two_clients = ServerStatus.IDLE /\
  NoDup (registered two_clients) /\
  Permutation ["http://b"; "http://a"] (registered two_clients) /\
  status (fst (run_finish ["http://b"; "http://a"]
                 (after (start_training TrainingType.GOSSIP_MNIST) two_clients)))
    = ServerStatus.IDLE /\
  mnist_model_params
    (fst (run_finish ["http://b"; "http://a"]
            (after (start_training TrainingType.GOSSIP_MNIST) two_clients)))
    = mnist_model_params two_clients.
Proof.
  assert (Hc : training_clients two_clients <> []) by (simpl; discriminate).
  assert (Hnd : NoDup (registered two_clients)).
  { repeat constructor; simpl; intuition discriminate. }
  assert (Hp : Permutation ["http://b"; "http://a"] (registered two_clients)).
  { apply perm_swap. }
  split; [reflexivity|]. split; [exact Hnd|]. split; [exact Hp|].
  split;
    apply (C9_decentralized_round_closes_without_aggregation
             two_clients ["http://b"; "http://a"] eq_refl Hc Hnd Hp).
Defined.

(* ------------------------------------------------------------------ *)
(** ** How often a round aggregates                                     *)
(* ------------------------------------------------------------------ *)

Lemma updates_performed_app a b :
  updates_performed (a ++ b) = updates_performed a + updates_performed b.
Proof.
  induction a as [|e a IH]; simpl; auto. destruct e; simpl; auto.
Qed.

Lemma step_attempt t s :
  match attempt t s with
  | Some (ty, f) =>
      let s1 := set_training_clients
                  (dict_update (training_clients s) (transition_url t) f) s in
      server_of (step t s) = server_of (update_server_model_params ty s1) /\
      updates_performed (effects_of (step t s))
        = updates_performed (effects_of (update_server_model_params ty s1))
  | None =>
      server_of (step t s) = s /\ updates_performed (effects_of (step t s)) = 0
  end.
Proof.
  destruct t as [u ty p|u ty [code|]]; simpl.
  - unfold Routes.update_weights, try_except, lookup_client, update_client_model_params.
    run_m.
    destruct (dict_get (training_clients s) u) as [c|] eqn:Eg; simpl; [|auto].
    rewrite dict_update_twice.
    destruct (update_server_model_params ty _) as [s' es [[]|e]]; simpl.
    + rewrite !app_nil_r. auto.
    + destruct (is_KeyError e); simpl; split; auto.
      rewrite !updates_performed_app. simpl. lia.
  - destruct (Nat.eqb code 200); simpl; [auto|].
    run_m. destruct (update_server_model_params ty _) as [s' es o]; simpl. auto.
  - auto.
Qed.

Lemma update_server_model_params_updates ty s :
  updates_performed (effects_of (update_server_model_params ty s)) <= 1 /\
  (updates_performed (effects_of (update_server_model_params ty s)) = 1 ->
   can_update_central_model_params s = true /\
   is_centralized ty = true /\
   outcome_of (update_server_model_params ty s) = Returned tt).
Proof.
  unfold update_server_model_params, is_centralized. run_m.
  destruct (can_update_central_model_params s); simpl; [|split; [lia|discriminate]].
  destruct (is_mnist ty); simpl.
  - destruct (for_each_client collect_mnist (training_clients s) ([], []))
      as [d' [r|e]]; simpl; [|split; [lia|discriminate]].
    destruct (torch_stack_mean (fst r)); simpl; [|split; [lia|discriminate]].
    destruct (torch_stack_mean (snd r)); simpl; [|split; [lia|discriminate]].
    auto.
  - destruct (String.eqb ty TrainingType.CHEST_X_RAY_PNEUMONIA); simpl;
      [|split; [lia|discriminate]].
    destruct (for_each_client collect_chest (training_clients s) [])
      as [d' [r|e]]; simpl; [|split; [lia|discriminate]].
    destruct (np_stack_mean r); simpl; [|split; [lia|discriminate]].
    auto.
Qed.

(** An update that was performed has sent a finished participant back to
    IDLE. *)
Lemma update_leaves_an_idle_client ty s :
  updates_performed (effects_of (update_server_model_params ty s)) = 1 ->
  exists k c,
    In (k, c) (training_clients (server_of (update_server_model_params ty s))) /\
    TrainingClient.status c = ClientTrainingStatus.IDLE.
Proof.
  intros H.
  destruct (update_server_model_params_updates ty s) as [_ Hu].
  destruct (Hu H) as (Hq & Hc & Ho).
  destruct (update_server_model_params_returned ty s Hq Hc Ho) as (-> & _ & Hf).
  unfold finished_in in Hf.
  destruct (filter is_finished (values (training_clients s))) as [|c0 l] eqn:Ef;
    [congruence|].
  assert (Hin : In c0 (filter is_finished (values (training_clients s))))
    by (rewrite Ef; simpl; auto).
  apply filter_In in Hin as [Hin Hfin].
  unfold values in Hin. apply in_map_iff in Hin as ([k c1] & E & Hin). simpl in E. subst c1.
  exists k, (reset_if_finished c0). split.
  - unfold reset_all. apply in_map_iff. exists (k, c0). auto.
  - unfold reset_if_finished. now rewrite Hfin.
Qed.

Lemma not_terminal_blocks s k c :
  In (k, c) (training_clients s) -> is_terminal c = false ->
  can_update_central_model_params s = false.
Proof.
  intros Hin Ht. rewrite can_update_is_terminal.
  apply not_true_is_false. intros H. rewrite forallb_forall in H.
  rewrite (H c) in Ht; [discriminate|].
  change c with (snd (k, c)). now apply in_map.
Qed.

Lemma aggregations_entered_app a b :
  aggregations_entered (a ++ b) = aggregations_entered a + aggregations_entered b.
Proof.
  induction a as [|e a IH]; simpl; auto. destruct e; simpl; auto.
Qed.

(** A report or a refused dispatch enters the aggregation exactly when the
    quorum holds once it is recorded; nothing else enters it. *)
Lemma step_enters t s :
  aggregations_entered (effects_of (step t s))
  = match attempt t s with
    | Some (_, f) =>
        if can_update_central_model_params
             (set_training_clients
                (dict_update (training_clients s) (transition_url t) f) s)
        then 1 else 0
    | None => 0
    end.
Proof.
  destruct t as [u ty p|u ty [code|]]; simpl.
  - unfold Routes.update_weights, try_except, lookup_client, update_client_model_params.
    run_m.
    destruct (dict_get (training_clients s) u) as [c|] eqn:Eg; simpl; [|auto].
    rewrite dict_update_twice.
    rewrite <- (aggregations_entered_update_server_model_params ty).
    destruct (update_server_model_params ty _) as [s' es [[]|e]]; simpl.
    + now rewrite !app_nil_r.
    + destruct (is_KeyError e); simpl; auto.
      rewrite !aggregations_entered_app. simpl. lia.
  - destruct (Nat.eqb code 200); simpl; [auto|].
    run_m.
    rewrite <- (aggregations_entered_update_server_model_params ty).
    destruct (update_server_model_params ty _) as [s' es o]; simpl. auto.
  - auto.
Qed.

Lemma attempt_is_round t s x : attempt t s = Some x -> is_round_transition t = true.
Proof.
  destruct t as [u ty p|u ty [code|]]; simpl; try discriminate; auto.
  destruct (negb (Nat.eqb code 200)); [auto|discriminate].
Qed.

Lemma in_acting_cons t rest k : In k (acting rest) -> In k (acting (t :: rest)).
Proof. unfold acting. simpl. destruct (is_round_transition t); simpl; auto. Qed.

Lemma NoDup_acting_cons t rest : NoDup (acting (t :: rest)) -> NoDup (acting rest).
Proof.
  unfold acting. simpl. destruct (is_round_transition t); simpl; auto.
  intros H. now inversion H.
Qed.

Lemma acting_round t rest :
  is_round_transition t = true -> acting (t :: rest) = transition_url t :: acting rest.
Proof. unfold acting. simpl. now intros ->. Qed.

(** While a participant that neither reports nor is refused is neither
    finished nor in error, no update is performed. *)
Lemma blocked_no_update ts : forall g s k c,
  In (k, c) (training_clients s) ->
  is_terminal c = false ->
  ~ In k (acting ts) ->
  updates_performed (snd (run_from g ts s)) = 0.
Proof.
  induction ts as [|t rest IH]; intros g s k c Hin Ht Hk; [reflexivity|].
  assert (Hk' : ~ In k (acting rest)) by (intros H; apply Hk; now apply in_acting_cons).
  cbn [run_from].
  destruct (is_dispatch_answer t && negb g); [now apply (IH g s k c)|].
  cbv zeta.
  pose proof (step_attempt t s) as Hs.
  specialize (IH (g && negb (is_dispatch_answer t && has_raised (outcome_of (step t s))))
                 (server_of (step t s)) k c).
  destruct (run_from _ rest (server_of (step t s))) as [s' es]. cbn [snd] in *.
  rewrite updates_performed_app.
  destruct (attempt t s) as [[ty f]|] eqn:Ea.
  - assert (Hne : k <> transition_url t).
    { intros ->. apply Hk. rewrite acting_round by (eapply attempt_is_round; eauto).
      now left. }
    cbv zeta in Hs. destruct Hs as [Hs1 Hs2].
    set (s1 := set_training_clients
                 (dict_update (training_clients s) (transition_url t) f) s) in *.
    assert (Hin1 : In (k, c) (training_clients s1)).
    { unfold s1. simpl. now apply in_dict_update_other. }
    rewrite (update_server_model_params_no_quorum ty s1
               (not_terminal_blocks s1 k c Hin1 Ht)) in Hs1, Hs2.
    cbn [server_of effects_of updates_performed] in Hs1, Hs2. rewrite Hs2. simpl.
    apply IH; auto. now rewrite Hs1.
  - destruct Hs as [Hs1 Hs2]. rewrite Hs2. simpl.
    apply IH; auto. now rewrite Hs1.
Qed.

(** When each participant reports or is refused at most once in all and
    the participants still to come are TRAINING_REQUESTED, the central
    parameters are replaced at most once. *)
Lemma at_most_one_update ts : forall g s,
  NoDup (acting ts) ->
  still_requested (acting ts) s ->
  updates_performed (snd (run_from g ts s)) <= 1.
Proof.
  induction ts as [|t rest IH]; intros g s Hnd Hq; [simpl; lia|].
  pose proof (NoDup_acting_cons _ _ Hnd) as Hnd'.
  assert (Hweak : still_requested (acting rest) s).
  { intros k c Hin Hk. apply (Hq k c Hin). now apply in_acting_cons. }
  cbn [run_from].
  destruct (is_dispatch_answer t && negb g); [now apply IH|].
  cbv zeta.
  pose proof (step_attempt t s) as Hs.
  pose proof (IH (g && negb (is_dispatch_answer t && has_raised (outcome_of (step t s))))
                 (server_of (step t s)) Hnd') as IH'.
  pose proof (blocked_no_update rest
                (g && negb (is_dispatch_answer t && has_raised (outcome_of (step t s))))
                (server_of (step t s))) as Hb.
  destruct (run_from _ rest (server_of (step t s))) as [s' es]. cbn [snd] in *.
  rewrite updates_performed_app.
  destruct (attempt t s) as [[ty f]|] eqn:Ea.
  - assert (Hu : ~ In (transition_url t) (acting rest)).
    { rewrite acting_round in Hnd by (eapply attempt_is_round; eauto).
      now inversion Hnd. }
    cbv zeta in Hs. destruct Hs as [Hs1 Hs2].
    set (s1 := set_training_clients
                 (dict_update (training_clients s) (transition_url t) f) s) in *.
    assert (Hq1 : still_requested (acting rest) s1).
    { intros k c Hin Hk. unfold s1 in Hin. simpl in Hin.
      apply in_dict_update_other in Hin; [now apply (Hweak k c)|].
      intros ->. contradiction. }
    destruct (can_update_central_model_params s1) eqn:Ec.
    + (* quorum: nobody registered is still to come *)
      assert (Hnone : forall k, In k (registered s1) -> ~ In k (acting rest)).
      { intros k Hk Hr. apply in_keys_entry in Hk as [c Hin].
        pose proof (Hq1 k c Hin Hr) as Hst.
        assert (Hv : In c (values (training_clients s1)))
          by (change c with (snd (k, c)); now apply in_map).
        apply (proj1 (can_update_iff s1) Ec) in Hv.
        rewrite Hst in Hv. destruct Hv; discriminate. }
      assert (Hreg : registered (server_of (step t s)) = registered s1).
      { rewrite Hs1. apply keeps_registered_update_server_model_params. }
      destruct (update_server_model_params_updates ty s1) as [Hle _].
      rewrite Hs2.
      destruct (Nat.eq_dec (updates_performed (effects_of (update_server_model_params ty s1))) 1)
        as [E1|E1].
      * destruct (update_leaves_an_idle_client ty s1 E1) as (k & c & Hin & Hidle).
        rewrite <- Hs1 in Hin.
        rewrite (Hb k c Hin); [lia| |].
        { unfold is_terminal. now rewrite Hidle. }
        { apply Hnone. rewrite <- Hreg.
          change k with (fst (k, c)). now apply in_map. }
      * assert (Hz : updates_performed (effects_of (update_server_model_params ty s1)) = 0)
          by lia.
        rewrite Hz. simpl. apply IH'.
        intros k c Hin Hk. exfalso. apply (Hnone k); auto.
        rewrite <- Hreg. change k with (fst (k, c)). now apply in_map.
    + rewrite (update_server_model_params_no_quorum ty s1 Ec) in Hs1, Hs2.
      cbn [server_of effects_of updates_performed] in Hs1, Hs2.
      rewrite Hs2. simpl. apply IH'. now rewrite Hs1.
  - destruct Hs as [Hs1 Hs2]. rewrite Hs2. simpl. apply IH'. now rewrite Hs1.
Qed.

(** The dispatch of a round replaces no central parameters. *)
Lemma prints_no_update_bind A B (m : M A) (k : A -> M B) :
  prints_no_update m -> (forall a, prints_no_update (k a)) -> prints_no_update (bind m k).
Proof.
  intros Hm Hk s. unfold bind. specialize (Hm s).
  destruct (m s) as [s1 es1 [a|e]]; cbn [effects_of] in *; [|exact Hm].
  specialize (Hk a s1). destruct (k a s1) as [s2 es2 r]. cbn [effects_of] in *.
  rewrite updates_performed_app. lia.
Qed.

Lemma prints_no_update_emit e : is_update_line e = false -> prints_no_update (emit e).
Proof. intros H s. destruct e; try discriminate; reflexivity. Qed.

Lemma prints_no_update_for_each A (xs : list A) body :
  (forall x, prints_no_update (body x)) -> prints_no_update (for_each xs body).
Proof.
  intros H. induction xs as [|x xs IH]; cbn [for_each]; [intros s; reflexivity|].
  apply prints_no_update_bind; auto.
Qed.

Lemma prints_no_update_start_training ty : prints_no_update (start_training ty).
Proof.
  unfold start_training.
  apply prints_no_update_bind; [intros s; reflexivity|]. intros s.
  destruct (negb (ServerStatus.eqb (status s) ServerStatus.IDLE)).
  { apply prints_no_update_bind; [now apply prints_no_update_emit|]. intros _.
    apply prints_no_update_for_each. intros c. now apply prints_no_update_emit. }
  destruct (Nat.eqb (List.length (training_clients s)) 0);
    [now apply prints_no_update_emit|].
  apply prints_no_update_bind; [intros s'; reflexivity|]. intros _.
  apply prints_no_update_bind; [intros s'; reflexivity|]. intros s'.
  destruct (select_config ty s') as [p cfg].
  apply prints_no_update_bind; [destruct cfg; intros s''; reflexivity|]. intros c.
  apply prints_no_update_bind; [now apply prints_no_update_emit|]. intros _.
  apply prints_no_update_bind; [now apply prints_no_update_emit|]. intros _.
  apply prints_no_update_bind; [intros s''; reflexivity|]. intros _.
  apply prints_no_update_for_each. intros [k c0].
  unfold do_training_client_request_begin.
  apply prints_no_update_bind; [now apply prints_no_update_emit|]. intros _.
  apply prints_no_update_bind; [intros s''; reflexivity|]. intros _.
  now apply prints_no_update_emit.
Qed.

(** C2, as the code has it.  [update_server_model_params] looks at the
    quorum predicate only, never at the server status: whatever the
    status, it enters UPDATING_MODEL_PARAMS exactly when every registered
    participant is FINISHED or in TRAINING_REQUEST_ERROR, and so does every
    report of a registered participant and every refused dispatch, on the
    registry in which it is recorded; an accepted dispatch, a request that
    could not be carried out and the report of an unknown participant
    enter nothing.  After a single [start_training] of a training type of
    the table on an idle server with clients, for every sequence of
    reports and answers to the dispatches in which no participant
    accounts for more than one report or refusal in all (the accepted
    dispatches are not counted, so that a participant may be accepted and
    report), the central parameters are replaced at most once; so are
    they by the call of [start_training] as a whole, when it handles its
    answers without a report in between. *)
Theorem C2_one_update_when_each_participant_acts_once
    (s : Server) (training_type : string) (ts : list Transition)
    (Hidle : status s = ServerStatus.IDLE)
    (Hclients : training_clients s <> [])
    (Htable : in_table training_type = true)
    (Hnd : NoDup (registered s))
    (Honce : NoDup (acting ts)) :
  (forall s0 ty0 st,
     aggregations_entered
       (effects_of (update_server_model_params ty0 (set_status st s0)))
     = if can_update_central_model_params s0 then 1 else 0) /\
  (forall t s0,
     aggregations_entered (effects_of (step t s0))
     = match attempt t s0 with
       | Some (_, f) =>
           if can_update_central_model_params
                (set_training_clients
                   (dict_update (training_clients s0) (transition_url t) f) s0)
           then 1 else 0
       | None => 0
       end) /\
  updates_performed (snd (run ts (after (start_training training_type) s))) <= 1 /\
  (forall answers,
     NoDup (acting (answers_of training_type answers)) ->
     updates_performed (effects_of (start_training_call training_type answers s)) <= 1).
Proof.
  destruct (start_training_dispatched training_type s Hidle Hclients Htable Hnd)
    as [Hs Ho].
  assert (Hreq : forall urls,
            still_requested urls (after (start_training training_type) s)).
  { intros urls k c Hin _. unfold after in Hin. rewrite Hs in Hin. simpl in Hin.
    apply in_map_iff in Hin as ([k0 c0] & E & _).
    unfold mark_requested in E. injection E as <- <-. reflexivity. }
  split; [|split; [|split]].
  - intros s0 ty0 st. now rewrite aggregations_entered_update_server_model_params.
  - apply step_enters.
  - unfold run. apply at_most_one_update; auto.
  - intros answers Hanswers.
    destruct (start_training_call_run training_type answers s Hidle Hclients Ho)
      as [_ ->].
    rewrite updates_performed_app, prints_no_update_start_training.
    unfold run. apply at_most_one_update; auto.
Qed.

Lemma C2_witness :
  status three_clients = ServerStatus.IDLE /\
  in_table TrainingType.MNIST = true /\
  NoDup (registered three_clients) /\
  NoDup (acting ordinary_round) /\
  updates_performed
    (snd (run ordinary_round (after (start_training TrainingType.MNIST) three_clients)))
    <= 1.
Proof.
  assert (Hc : training_clients three_clients <> []) by (simpl; discriminate).
  assert (Hnd : NoDup (registered three_clients)).
  { repeat constructor; simpl; intuition discriminate. }
  assert (Ho : NoDup (acting ordinary_round)).
  { repeat constructor; simpl; intuition discriminate. }
  split; [reflexivity|]. split; [reflexivity|]. split; [exact Hnd|]. split; [exact Ho|].
  apply (C2_one_update_when_each_participant_acts_once
           three_clients TrainingType.MNIST ordinary_round eq_refl Hc eq_refl Hnd Ho).
Defined.

(** C2, counterexample.  One client, one [start_training], and its report
    received twice.  Both reports are round transitions; the first one
    aggregates and leaves the server IDLE; the second one finds the quorum
    again, enters the aggregation from status IDLE and replaces the
    central parameters a second time. *)
Lemma C2_repeated_report_updates_twice :
  forallb is_round_transition report_twice = true /\
  status round_of_one = ServerStatus.CLIENTS_TRAINING /\
  status (fst (run [ReportResult "http://a" TrainingType.MNIST (MnistParams (vec [q 1]) (vec [q 0]))]
                 round_of_one)) = ServerStatus.IDLE /\
  aggregations_entered (snd (run report_twice round_of_one)) = 2 /\
  updates_performed (snd (run report_twice round_of_one)) = 2.
Proof. repeat split. Qed.

(* ------------------------------------------------------------------ *)
(** ** Further properties: what a started round sends                   *)
(* ------------------------------------------------------------------ *)

Lemma effects_of_bind A B (m : M A) (k : A -> M B) s a :
  outcome_of (m s) = Returned a ->
  effects_of (bind m k s) = effects_of (m s) ++ effects_of (k a (server_of (m s))).
Proof.
  intros H. unfold bind. destruct (m s) as [s1 es1 [a'|e]]; simpl in H; [|discriminate].
  injection H as ->. cbn [server_of effects_of]. now destruct (k a s1).
Qed.

Lemma posts_app a b : posts (a ++ b) = posts a ++ posts b.
Proof.
  induction a as [|e a IH]; simpl; auto. destruct e; simpl; auto. now rewrite IH.
Qed.

Lemma posts_for_each_begin body l : forall s,
  posts (effects_of (for_each l (do_training_client_request_begin body) s))
  = map (fun c => (String.append (TrainingClient.client_url c) "/training",
                   RequestBody.set_client_id (TrainingClient.client_id c) body))
        (values l).
Proof.
  induction l as [|[k c] l IH]; intros s; cbn [for_each values map].
  - reflexivity.
  - rewrite effects_of_bind with (a := tt) by reflexivity.
    rewrite do_training_client_request_begin_eq. cbn [effects_of server_of].
    rewrite posts_app, IH. reflexivity.
Qed.

Lemma in_table_cases ty :
  in_table ty = true ->
  ty = TrainingType.MNIST \/ ty = TrainingType.DETERMINISTIC_MNIST \/
  ty = TrainingType.GOSSIP_MNIST \/ ty = TrainingType.CHEST_X_RAY_PNEUMONIA.
Proof.
  unfold in_table. rewrite !orb_true_iff, !String.eqb_eq. tauto.
Qed.

(** The requests of a started round, for the configuration [c] and the
    parameters [p] the table selects. *)
Lemma start_training_posts ty s p c :
  status s = ServerStatus.IDLE ->
  training_clients s <> [] ->
  select_config ty (set_round (round s + 1) s) = (p, Some c) ->
  exists body,
    posts (effects_of (start_training ty s))
    = map (fun cl => (String.append (TrainingClient.client_url cl) "/training",
                      RequestBody.set_client_id (TrainingClient.client_id cl) body))
          (values (training_clients s)) /\
    RequestBody.params body = p /\
    RequestBody.learning_rate body = FederatedLearningConfig.learning_rate c /\
    RequestBody.epochs body = FederatedLearningConfig.epochs c /\
    RequestBody.batch_size body = FederatedLearningConfig.batch_size c /\
    RequestBody.training_type body = ty /\
    RequestBody.round body = round s + 1 /\
    RequestBody.client_id body = None /\
    RequestBody.clients body
      = (if String.eqb ty TrainingType.GOSSIP_MNIST
         then Some (map (fun cl => (TrainingClient.client_id cl,
                                    TrainingClient.client_url cl))
                        (values (training_clients s)))
         else None) /\
    RequestBody.round_size body
      = (if String.eqb ty TrainingType.DETERMINISTIC_MNIST
            || String.eqb ty TrainingType.GOSSIP_MNIST
         then Some (List.length (training_clients s))
         else None).
Proof.
  intros Hs Hc Hcfg. unfold start_training. rewrite bind_get, Hs.
  cbn [ServerStatus.eqb negb].
  destruct (training_clients s) as [|e d] eqn:Ed; [contradiction|].
  cbn [List.length Nat.eqb].
  rewrite effects_of_bind with (a := tt) by reflexivity.
  cbn [modify server_of effects_of app]. rewrite bind_get, Hcfg.
  rewrite effects_of_bind with (a := c) by reflexivity.
  cbn [ret server_of effects_of app].
  rewrite effects_of_bind with (a := tt) by reflexivity.
  cbn [emit server_of effects_of].
  rewrite effects_of_bind with (a := tt) by reflexivity.
  cbn [emit server_of effects_of].
  rewrite effects_of_bind with (a := tt) by reflexivity.
  cbn [modify server_of effects_of].
  rewrite !posts_app. cbn [posts app].
  rewrite posts_for_each_begin.
  cbn [training_clients set_round round]. rewrite Ed.
  eexists. split; [reflexivity|].
  unfold values. rewrite length_map.
  destruct (String.eqb ty TrainingType.GOSSIP_MNIST),
           (String.eqb ty TrainingType.DETERMINISTIC_MNIST);
    repeat split; reflexivity.
Qed.

(** X1.  A round started on an idle server with clients, for a training
    type of the table, sends exactly one request per registered client, in
    registry order, to the client's url followed by "/training"; every
    request carries the client's own id, the training type, the advanced
    round number and the configuration of the table (learning rate 1/10000,
    1 epoch, batch size 2 for the chest X-ray variant; learning rate 1, 20
    epochs, batch size 256 otherwise); it carries the central MNIST
    parameters for the two MNIST variants, the central chest parameters
    for the chest variant and no parameters for the decentralized one; the
    list of
    (id, url) of all clients is present for the decentralized variant
    only, and the round size (the number of clients) for the deterministic
    and the decentralized variant only. *)
Theorem X1_start_training_requests
    (s : Server) (training_type : string)
    (Hidle : status s = ServerStatus.IDLE)
    (Hclients : training_clients s <> [])
    (Htable : in_table training_type = true) :
  exists body,
    posts (effects_of (start_training training_type s))
    = map (fun cl => (String.append (TrainingClient.client_url cl) "/training",
                      RequestBody.set_client_id (TrainingClient.client_id cl) body))
          (values (training_clients s)) /\
    RequestBody.training_type body = training_type /\
    RequestBody.round body = round s + 1 /\
    RequestBody.params body
      = (if is_mnist training_type then mnist_model_params s
         else if String.eqb training_type TrainingType.CHEST_X_RAY_PNEUMONIA
              then chest_x_ray_model_params s
              else NoParams) /\
    (RequestBody.learning_rate body, RequestBody.epochs body, RequestBody.batch_size body)
      = (if String.eqb training_type TrainingType.CHEST_X_RAY_PNEUMONIA
         then (Q2Qc (1 # 10000), 1, 2)
         else (Qc_of_nat 1, 20, 256)) /\
    RequestBody.clients body
      = (if String.eqb training_type TrainingType.GOSSIP_MNIST
         then Some (map (fun cl => (TrainingClient.client_id cl,
                                    TrainingClient.client_url cl))
                        (values (training_clients s)))
         else None) /\
    RequestBody.round_size body
      = (if String.eqb training_type TrainingType.DETERMINISTIC_MNIST
            || String.eqb training_type TrainingType.GOSSIP_MNIST
         then Some (List.length (training_clients s))
         else None).
Proof.
  destruct (in_table_cases training_type Htable) as [E|[E|[E|E]]]; subst training_type.
  - destruct (start_training_posts TrainingType.MNIST s _ _ Hidle Hclients eq_refl)
      as (body & Hp & H1 & H2 & H3 & H4 & H5 & H6 & _ & H7 & H8).
    exists body. rewrite H1, H2, H3, H4. auto 10.
  - destruct (start_training_posts TrainingType.DETERMINISTIC_MNIST s _ _
                Hidle Hclients eq_refl)
      as (body & Hp & H1 & H2 & H3 & H4 & H5 & H6 & _ & H7 & H8).
    exists body. rewrite H1, H2, H3, H4. auto 10.
  - destruct (start_training_posts TrainingType.GOSSIP_MNIST s _ _ Hidle Hclients eq_refl)
      as (body & Hp & H1 & H2 & H3 & H4 & H5 & H6 & _ & H7 & H8).
    exists body. rewrite H1, H2, H3, H4. auto 10.
  - destruct (start_training_posts TrainingType.CHEST_X_RAY_PNEUMONIA s _ _
                Hidle Hclients eq_refl)
      as (body & Hp & H1 & H2 & H3 & H4 & H5 & H6 & _ & H7 & H8).
    exists body. rewrite H1, H2, H3, H4. auto 10.
Qed.

Lemma X1_witness :
  status two_clients = ServerStatus.IDLE /\
  in_table TrainingType.GOSSIP_MNIST = true /\
  exists body,
    posts (effects_of (start_training TrainingType.GOSSIP_MNIST two_clients))
    = [("http://a/training", RequestBody.set_client_id 1 body);
       ("http://b/training", RequestBody.set_client_id 2 body)] /\
    RequestBody.round body = 1 /\
    RequestBody.clients body = Some [(1, "http://a"); (2, "http://b")] /\
    RequestBody.round_size body = Some 2.
Proof.
  assert (Hc : training_clients two_clients <> []) by (simpl; discriminate).
  split; [reflexivity|]. split; [reflexivity|].
  destruct (X1_start_training_requests two_clients TrainingType.GOSSIP_MNIST
              eq_refl Hc eq_refl) as (body & Hp & _ & Hr & _ & _ & Hcl & Hrs).
  exists body. split; [exact Hp|]. split; [exact Hr|]. split; [exact Hcl|exact Hrs].
Defined.

(* ------------------------------------------------------------------ *)
(** ** Further properties: transitions and the other participants       *)
(* ------------------------------------------------------------------ *)

Lemma step_passes_over t s k c :
  k <> transition_url t ->
  dict_get (training_clients s) k = Some c ->
  is_finished c = false ->
  dict_get (training_clients (server_of (step t s))) k = Some c.
Proof.
  intros Hne Hg Hf. pose proof (step_attempt t s) as Hs.
  destruct (attempt t s) as [[ty f]|].
  - cbn zeta in Hs. destruct Hs as [-> _].
    apply update_server_model_params_passes_over; auto.
    cbn [training_clients set_training_clients].
    now rewrite dict_get_update_other.
  - destruct Hs as [-> _]. exact Hg.
Qed.

(** X2.  A report or a dispatch answer of one participant never touches
    the record of another participant that is not TRAINING_FINISHED: its
    status, id, url and stored parameters are exactly as before.  In
    particular the refusal of one dispatch leaves the participants whose
    dispatch was accepted in TRAINING_REQUESTED. *)
Theorem X2_transition_leaves_other_participants
    (t : Transition) (s : Server) (k : string) (c : TrainingClient.t)
    (Hother : k <> transition_url t)
    (Hreg : dict_get (training_clients s) k = Some c)
    (Hstatus : TrainingClient.status c <> ClientTrainingStatus.TRAINING_FINISHED) :
  dict_get (training_clients (server_of (step t s))) k = Some c.
Proof.
  apply step_passes_over; auto.
  unfold is_finished.
  destruct (client_status_eqb_spec (TrainingClient.status c)
              ClientTrainingStatus.TRAINING_FINISHED); congruence.
Qed.

Lemma X2_witness :
  "http://a" <> transition_url
                  (DispatchResponse "http://b" TrainingType.MNIST (HttpResponse 500)) /\
  dict_get (training_clients
              (server_of (step (DispatchResponse "http://b" TrainingType.MNIST
                                  (HttpResponse 500))
                               (after (start_training TrainingType.MNIST) two_clients))))
           "http://a"
  = Some (TrainingClient.mk "http://a" 1 ClientTrainingStatus.TRAINING_REQUESTED NoParams).
Proof.
  assert (Hne : "http://a" <> transition_url
                   (DispatchResponse "http://b" TrainingType.MNIST (HttpResponse 500)))
    by discriminate.
  assert (Hst : TrainingClient.status
                  (TrainingClient.mk "http://a" 1
                     ClientTrainingStatus.TRAINING_REQUESTED NoParams)
                <> ClientTrainingStatus.TRAINING_FINISHED) by discriminate.
  split; [exact Hne|].
  apply (X2_transition_leaves_other_participants
           (DispatchResponse "http://b" TrainingType.MNIST (HttpResponse 500))
           (after (start_training TrainingType.MNIST) two_clients)
           "http://a"
           (TrainingClient.mk "http://a" 1 ClientTrainingStatus.TRAINING_REQUESTED NoParams)
           Hne eq_refl Hst).
Defined.

Lemma update_weights_registered u ty p s c :
  dict_get (training_clients s) u = Some c ->
  can_update_central_model_params (with_report u p s) = false ->
  Routes.update_weights u ty (Returned p) s
  = mkOut (with_report u p s)
          [PrintRouteRequest "PUT /model_params" u ty; PrintNewModelParams u]
          (Returned 200).
Proof.
  intros Hg Hq.
  unfold Routes.update_weights, try_except, lookup_client, update_client_model_params.
  run_m. rewrite Hg. simpl. rewrite dict_update_twice.
  match goal with
  | |- context [update_server_model_params ty ?s1] =>
      change s1 with (with_report u p s)
  end.
  rewrite (update_server_model_params_no_quorum ty _ Hq). reflexivity.
Qed.

(** X3.  A report of a registered participant that arrives while another
    participant is neither finished nor in error is answered 200; it
    stores the reported parameters in the participant's record (replacing
    what was stored), marks the participant TRAINING_FINISHED, and changes
    nothing else: no aggregation is entered, the central parameters, the
    server status, the round counter and all other records are as
    before. *)
Theorem X3_report_before_quorum
    (s : Server) (url training_type : string) (p : ModelParams)
    (c : TrainingClient.t) (k : string) (c' : TrainingClient.t)
    (Hreg : dict_get (training_clients s) url = Some c)
    (Hin : In (k, c') (training_clients s))
    (Hother : k <> url)
    (Hpending : is_terminal c' = false) :
  outcome_of (Routes.update_weights url training_type (Returned p) s) = Returned 200 /\
  server_of (Routes.update_weights url training_type (Returned p) s)
    = with_report url p s /\
  dict_get (training_clients
              (server_of (Routes.update_weights url training_type (Returned p) s))) url
    = Some (TrainingClient.mk (TrainingClient.client_url c) (TrainingClient.client_id c)
              ClientTrainingStatus.TRAINING_FINISHED p) /\
  aggregations_entered
    (effects_of (Routes.update_weights url training_type (Returned p) s)) = 0.
Proof.
  assert (Hq : can_update_central_model_params (with_report url p s) = false).
  { apply (not_terminal_blocks _ k c'); auto.
    unfold with_report. cbn [training_clients set_training_clients].
    now apply in_dict_update_other. }
  rewrite (update_weights_registered url training_type p s c Hreg Hq).
  cbn [outcome_of server_of effects_of aggregations_entered].
  repeat split.
  unfold with_report. cbn [training_clients set_training_clients].
  now rewrite dict_get_update_same, Hreg.
Qed.

Lemma X3_witness :
  dict_get (training_clients (after (start_training TrainingType.MNIST) two_clients))
           "http://a"
    = Some (TrainingClient.mk "http://a" 1 ClientTrainingStatus.TRAINING_REQUESTED NoParams) /\
  outcome_of (Routes.update_weights "http://a" TrainingType.MNIST
                (Returned (MnistParams (vec [q 1]) (vec [q 0])))
                (after (start_training TrainingType.MNIST) two_clients))
    = Returned 200.
Proof.
  assert (Hne : "http://b" <> "http://a") by discriminate.
  split; [reflexivity|].
  apply (X3_report_before_quorum
           (after (start_training TrainingType.MNIST) two_clients)
           "http://a" TrainingType.MNIST (MnistParams (vec [q 1]) (vec [q 0]))
           (TrainingClient.mk "http://a" 1 ClientTrainingStatus.TRAINING_REQUESTED NoParams)
           "http://b"
           (TrainingClient.mk "http://b" 2 ClientTrainingStatus.TRAINING_REQUESTED NoParams)
           eq_refl (or_intror (or_introl eq_refl)) Hne eq_refl).
Defined.

Lemma update_server_model_params_not_centralized ty s :
  is_centralized ty = false ->
  can_update_central_model_params s = true ->
  update_server_model_params ty s
  = mkOut (set_status ServerStatus.IDLE s) [PrintUpdatingGlobal] (Returned tt).
Proof.
  unfold is_centralized. intros Hc Hq. apply orb_false_iff in Hc as [Hm Hx].
  unfold update_server_model_params. run_m. rewrite Hq, Hm, Hx. reflexivity.
Qed.

(** X4.  For a training type whose parameters the server does not average
    (the decentralized variant, or a type outside the table), a refused
    dispatch that completes the quorum returns normally and puts the
    server back to IDLE, but resets no participant: the records are those
    in which the refusal was recorded, so the participants that had
    finished stay TRAINING_FINISHED; the central parameters and the round
    counter are unchanged. *)
Theorem X4_refused_dispatch_closes_decentralized_round
    (s : Server) (training_type url : string) (code : nat)
    (Hty : is_centralized training_type = false)
    (Hcode : code <> 200)
    (Hq : can_update_central_model_params (with_request_error url s) = true) :
  outcome_of (do_training_client_request_resume training_type url (HttpResponse code) s)
    = Returned tt /\
  status (server_of (do_training_client_request_resume training_type url
                       (HttpResponse code) s))
    = ServerStatus.IDLE /\
  training_clients
    (server_of (do_training_client_request_resume training_type url (HttpResponse code) s))
    = training_clients (with_request_error url s) /\
  mnist_model_params
    (server_of (do_training_client_request_resume training_type url (HttpResponse code) s))
    = mnist_model_params s /\
  chest_x_ray_model_params
    (server_of (do_training_client_request_resume training_type url (HttpResponse code) s))
    = chest_x_ray_model_params s /\
  round (server_of (do_training_client_request_resume training_type url
                      (HttpResponse code) s))
    = round s.
Proof.
  rewrite resume_refused by assumption.
  rewrite (update_server_model_params_not_centralized training_type _ Hty Hq).
  cbn [outcome_of server_of]. repeat split.
Qed.

Lemma X4_witness :
  is_centralized TrainingType.GOSSIP_MNIST = false /\
  500 <> 200 /\
  can_update_central_model_params (with_request_error "http://b" gossip_one_finished)
    = true /\
  status (server_of (do_training_client_request_resume TrainingType.GOSSIP_MNIST
                       "http://b" (HttpResponse 500) gossip_one_finished))
    = ServerStatus.IDLE /\
  statuses (server_of (do_training_client_request_resume TrainingType.GOSSIP_MNIST
                         "http://b" (HttpResponse 500) gossip_one_finished))
    = [ClientTrainingStatus.TRAINING_FINISHED;
       ClientTrainingStatus.TRAINING_REQUEST_ERROR].
Proof.
  assert (Hc : 500 <> 200) by discriminate.
  split; [reflexivity|]. split; [exact Hc|]. split; [reflexivity|].
  destruct (X4_refused_dispatch_closes_decentralized_round
              gossip_one_finished TrainingType.GOSSIP_MNIST "http://b" 500
              eq_refl Hc eq_refl) as (_ & Hs & Ht & _).
  split; [exact Hs|]. unfold statuses. rewrite Ht. reflexivity.
Defined.

(* ------------------------------------------------------------------ *)
(** ** Further properties: who changes the central parameters           *)
(* ------------------------------------------------------------------ *)

Lemma update_server_model_params_without_update ty s :
  updates_performed (effects_of (update_server_model_params ty s)) = 0 ->
  mnist_model_params (server_of (update_server_model_params ty s)) = mnist_model_params s /\
  chest_x_ray_model_params (server_of (update_server_model_params ty s))
    = chest_x_ray_model_params s.
Proof.
  unfold update_server_model_params. run_m.
  destruct (can_update_central_model_params s); simpl; [|auto].
  destruct (is_mnist ty); simpl.
  - destruct (for_each_client collect_mnist (training_clients s) ([], []))
      as [d' [r|e]]; simpl; [|auto].
    destruct (torch_stack_mean (fst r)); simpl; [|auto].
    destruct (torch_stack_mean (snd r)); simpl; [discriminate|auto].
  - destruct (String.eqb ty TrainingType.CHEST_X_RAY_PNEUMONIA); simpl; [|auto].
    destruct (for_each_client collect_chest (training_clients s) [])
      as [d' [r|e]]; simpl; [|auto].
    destruct (np_stack_mean r); simpl; [discriminate|auto].
Qed.

Lemma registry_op_frame op s :
  status (server_of (apply_op op s)) = status s /\
  round (server_of (apply_op op s)) = round s /\
  mnist_model_params (server_of (apply_op op s)) = mnist_model_params s /\
  chest_x_ray_model_params (server_of (apply_op op s)) = chest_x_ray_model_params s /\
  posts (effects_of (apply_op op s)) = [] /\
  outcome_of (apply_op op s) = Returned tt.
Proof.
  destruct op as [u|u]; cbn [apply_op].
  - destruct (dict_get (training_clients s) u) as [c|] eqn:E.
    + rewrite (register_client_known u s c E). repeat split.
    + rewrite (register_client_unknown u s E). repeat split.
  - unfold unregister_client, try_except, pop_client, lookup_client. run_m.
    destruct (dict_get (training_clients s) u); repeat split.
Qed.

Lemma step_without_update t s :
  updates_performed (effects_of (step t s)) = 0 ->
  mnist_model_params (server_of (step t s)) = mnist_model_params s /\
  chest_x_ray_model_params (server_of (step t s)) = chest_x_ray_model_params s.
Proof.
  pose proof (step_attempt t s) as Hs.
  destruct (attempt t s) as [[ty f]|].
  - cbn zeta in Hs. destruct Hs as [-> ->]. intros H.
    apply update_server_model_params_without_update in H. exact H.
  - destruct Hs as [-> _]. auto.
Qed.

(** The answers handled inside the call of [start_training] change the
    central parameters only by an update that is printed. *)
Lemma gather_without_update ty answers : forall s,
  updates_performed (effects_of (gather ty answers s)) = 0 ->
  mnist_model_params (server_of (gather ty answers s)) = mnist_model_params s /\
  chest_x_ray_model_params (server_of (gather ty answers s)) = chest_x_ray_model_params s.
Proof.
  unfold gather.
  induction answers as [|[u r] rest IH]; intros s; [auto|].
  cbn [for_each fst snd]. unfold bind.
  pose proof (step_without_update (DispatchResponse u ty r) s) as Hs. cbn [step] in Hs.
  destruct (do_training_client_request_resume ty u r s) as [s1 es1 [[]|e]];
    cbn [server_of effects_of] in *; [|exact Hs].
  specialize (IH s1).
  destruct (for_each rest _ s1) as [s2 es2 o2]. cbn [server_of effects_of] in *.
  rewrite updates_performed_app. intros H.
  destruct Hs as [Hs1 Hs2]; [lia|]. destruct IH as [I1 I2]; [lia|].
  split; congruence.
Qed.

Lemma start_training_call_without_update ty answers s :
  updates_performed (effects_of (start_training_call ty answers s)) = 0 ->
  mnist_model_params (server_of (start_training_call ty answers s)) = mnist_model_params s /\
  chest_x_ray_model_params (server_of (start_training_call ty answers s))
    = chest_x_ray_model_params s.
Proof.
  unfold start_training_call. rewrite bind_get. unfold bind.
  assert (Km : keeps mnist_model_params (start_training ty))
    by (apply keeps_start_training; intros; reflexivity).
  assert (Kc : keeps chest_x_ray_model_params (start_training ty))
    by (apply keeps_start_training; intros; reflexivity).
  specialize (Km s). specialize (Kc s).
  destruct (start_training ty s) as [s1 es1 [[]|e]]; cbn [server_of] in *; [|auto].
  destruct (ServerStatus.eqb (status s) ServerStatus.IDLE
            && negb (Nat.eqb (List.length (training_clients s)) 0)).
  - pose proof (gather_without_update ty answers s1) as Hg.
    destruct (gather ty answers s1) as [s2 es2 o2]. cbn [server_of effects_of] in *.
    rewrite updates_performed_app. intros H.
    destruct Hg as [G1 G2]; [lia|]. split; congruence.
  - cbn [ret server_of]. auto.
Qed.

Lemma update_weights_unreadable u ty e s :
  server_of (Routes.update_weights u ty (Raised e) s) = s.
Proof.
  unfold Routes.update_weights, try_except, lookup_client. run_m.
  destruct (dict_get (training_clients s) u); simpl; [|auto].
  destruct (is_KeyError e); simpl; auto.
Qed.

Lemma serve_finish_or_registry r s :
  is_finish_or_registry r = true ->
  mnist_model_params (server_of (serve r s)) = mnist_model_params s /\
  chest_x_ray_model_params (server_of (serve r s)) = chest_x_ray_model_params s.
Proof.
  destruct r as [ty answers|u ty parsed|u ty|u|u];
    cbn [is_finish_or_registry serve]; intros H; try discriminate.
  - split; (apply keeps_bind; [|intros _; apply keeps_ret]);
      apply keeps_route_finish_round; intros; reflexivity.
  - destruct (registry_op_frame (Register u) s) as (_ & _ & H1 & H2 & _). auto.
  - destruct (registry_op_frame (Unregister u) s) as (_ & _ & H1 & H2 & _). auto.
Qed.

(** X5.  The two central parameter sets are changed by nothing but a
    performed aggregation.  Whatever request the coordinator serves from
    beginning to end (a round request with the answers to its dispatches,
    a report, a finish callback, a registration, an unregistration), and
    whatever single report or answer it handles, the central parameters
    are as before unless the line printed after their replacement is in
    the output; a finish callback, a registration and an unregistration
    never change them. *)
Theorem X5_central_parameters_change_only_by_update :
  (forall r s,
     updates_performed (effects_of (serve r s)) = 0 ->
     mnist_model_params (server_of (serve r s)) = mnist_model_params s /\
     chest_x_ray_model_params (server_of (serve r s)) = chest_x_ray_model_params s) /\
  (forall t s,
     updates_performed (effects_of (step t s)) = 0 ->
     mnist_model_params (server_of (step t s)) = mnist_model_params s /\
     chest_x_ray_model_params (server_of (step t s)) = chest_x_ray_model_params s) /\
  (forall r s,
     is_finish_or_registry r = true ->
     mnist_model_params (server_of (serve r s)) = mnist_model_params s /\
     chest_x_ray_model_params (server_of (serve r s)) = chest_x_ray_model_params s).
Proof.
  split; [|split; [apply step_without_update | apply serve_finish_or_registry]].
  intros r s.
  destruct r as [ty answers|u ty [p|e]|u ty|u|u].
  - apply start_training_call_without_update.
  - apply (step_without_update (ReportResult u ty p) s).
  - intros _. cbn [serve].
    assert (E : server_of ((_ <- Routes.update_weights u ty (Raised e) ;; ret tt)%py s)
                = server_of (Routes.update_weights u ty (Raised e) s)).
    { unfold bind. destruct (Routes.update_weights u ty (Raised e) s) as [s1 es1 [n|x]];
        reflexivity. }
    rewrite E, update_weights_unreadable. auto.
  - intros _. now apply serve_finish_or_registry.
  - intros _. now apply serve_finish_or_registry.
  - intros _. now apply serve_finish_or_registry.
Qed.

(* ------------------------------------------------------------------ *)
(** ** Further properties: a server that is not idle                    *)
(* ------------------------------------------------------------------ *)

Lemma posts_nil_of_filter es : filter is_post es = [] -> posts es = [].
Proof.
  induction es as [|e es IH]; simpl; auto.
  destruct e; simpl; auto; discriminate.
Qed.

Lemma perform_while_busy op s :
  status s <> ServerStatus.IDLE ->
  is_start_or_registry op = true ->
  status (server_of (perform op s)) = status s /\
  round (server_of (perform op s)) = round s /\
  mnist_model_params (server_of (perform op s)) = mnist_model_params s /\
  chest_x_ray_model_params (server_of (perform op s)) = chest_x_ray_model_params s /\
  posts (effects_of (perform op s)) = [].
Proof.
  intros Hb Hop. destruct op as [ty|t|u ty|op]; try discriminate; cbn [perform].
  - destruct (start_training_refused ty s (or_introl Hb)) as (-> & _ & Hp).
    repeat split. now apply posts_nil_of_filter.
  - destruct (registry_op_frame op s) as (H1 & H2 & H3 & H4 & H5 & _). auto.
Qed.

(** X6.  While the server status is not IDLE, no sequence of round
    requests, registrations and unregistrations starts a round or brings
    the status back: the status, the round counter and the central
    parameters stay as they are and no request is sent. *)
Theorem X6_busy_server_starts_no_round
    (s : Server) (ops : list Operation)
    (Hbusy : status s <> ServerStatus.IDLE)
    (Hops : forallb is_start_or_registry ops = true) :
  status (fst (perform_trace ops s)) = status s /\
  round (fst (perform_trace ops s)) = round s /\
  mnist_model_params (fst (perform_trace ops s)) = mnist_model_params s /\
  chest_x_ray_model_params (fst (perform_trace ops s)) = chest_x_ray_model_params s /\
  posts (snd (perform_trace ops s)) = [].
Proof.
  revert s Hbusy. induction ops as [|op ops IH]; intros s Hbusy;
    cbn [perform_trace forallb] in *; [repeat split|].
  apply andb_true_iff in Hops as [Hop Hops].
  destruct (perform_while_busy op s Hbusy Hop) as (H1 & H2 & H3 & H4 & H5).
  assert (Hb' : status (server_of (perform op s)) <> ServerStatus.IDLE)
    by (rewrite H1; exact Hbusy).
  specialize (IH Hops (server_of (perform op s)) Hb').
  destruct (perform_trace ops (server_of (perform op s))) as [s' es].
  cbn [fst snd] in *. rewrite posts_app, H5.
  destruct IH as (I1 & I2 & I3 & I4 & I5).
  repeat split; cbn [app]; congruence.
Qed.

Lemma X6_witness :
  status (set_status ServerStatus.UPDATING_MODEL_PARAMS one_client) <> ServerStatus.IDLE /\
  status (fst (perform_trace
                 [StartTraining TrainingType.MNIST; Registry_ (Register "http://b");
                  StartTraining TrainingType.GOSSIP_MNIST]
                 (set_status ServerStatus.UPDATING_MODEL_PARAMS one_client)))
    = ServerStatus.UPDATING_MODEL_PARAMS /\
  posts (snd (perform_trace
                [StartTraining TrainingType.MNIST; Registry_ (Register "http://b");
                 StartTraining TrainingType.GOSSIP_MNIST]
                (set_status ServerStatus.UPDATING_MODEL_PARAMS one_client)))
    = [].
Proof.
  assert (Hb : status (set_status ServerStatus.UPDATING_MODEL_PARAMS one_client)
               <> ServerStatus.IDLE) by discriminate.
  split; [exact Hb|].
  split;
    apply (X6_busy_server_starts_no_round
             (set_status ServerStatus.UPDATING_MODEL_PARAMS one_client)
             [StartTraining TrainingType.MNIST; Registry_ (Register "http://b");
              StartTraining TrainingType.GOSSIP_MNIST]
             Hb eq_refl).
Defined.

(* ------------------------------------------------------------------ *)
(** ** Further properties: unregistration and re-registration           *)
(* ------------------------------------------------------------------ *)

Lemma dict_get_remove_same d k :
  NoDup (keys d) -> dict_get (dict_remove d k) k = None.
Proof.
  induction d as [|[k' c'] d IH]; simpl; auto.
  intros Hnd. inversion Hnd as [|? ? Hk Hd]; subst.
  destruct (String.eqb_spec k k') as [->|Hne]; simpl.
  - now apply dict_get_None_not_in.
  - destruct (String.eqb_spec k k'); [contradiction|auto].
Qed.

Lemma length_dict_remove d k c :
  dict_get d k = Some c -> S (List.length (dict_remove d k)) = List.length d.
Proof.
  induction d as [|[k' c'] d IH]; simpl; [discriminate|].
  destruct (String.eqb_spec k k'); simpl; auto.
Qed.

Lemma dict_remove_appended d k c :
  dict_get d k = None -> dict_remove (d ++ [(k, c)]) k = d.
Proof.
  induction d as [|[k' c'] d IH]; simpl.
  - now rewrite String.eqb_refl.
  - destruct (String.eqb_spec k k'); [discriminate|]. intros H. now rewrite IH.
Qed.

Lemma dict_remove_absent d k : dict_get d k = None -> dict_remove d k = d.
Proof.
  induction d as [|[k' c'] d IH]; simpl; auto.
  destruct (String.eqb_spec k k'); [discriminate|]. intros H. now rewrite IH.
Qed.

Lemma unregister_client_removes url s :
  training_clients (server_of (unregister_client url s))
    = dict_remove (training_clients s) url /\
  outcome_of (unregister_client url s) = Returned tt.
Proof.
  unfold unregister_client, try_except, pop_client, lookup_client. run_m.
  destruct (dict_get (training_clients s) url) eqn:E; simpl; auto.
  now rewrite dict_remove_absent.
Qed.

(** X7.  [unregister_client] never raises.  On a registry without
    duplicate urls the url is not registered afterwards, every other url
    resolves to the record it resolved to, the number of records drops by
    one when the url was registered and the coordinator is unchanged when
    it was not.  Unregistering a url right after its first registration
    gives back the coordinator as it was before the registration. *)
Theorem X7_unregister_client_removes_one_record
    (s : Server) (url : string)
    (Hnd : NoDup (registered s)) :
  outcome_of (unregister_client url s) = Returned tt /\
  dict_get (training_clients (server_of (unregister_client url s))) url = None /\
  (forall url', url' <> url ->
     dict_get (training_clients (server_of (unregister_client url s))) url'
       = dict_get (training_clients s) url') /\
  (forall c, dict_get (training_clients s) url = Some c ->
     S (List.length (training_clients (server_of (unregister_client url s))))
       = List.length (training_clients s)) /\
  (dict_get (training_clients s) url = None ->
     server_of (unregister_client url s) = s /\
     server_of (unregister_client url (server_of (register_client url s))) = s).
Proof.
  destruct (unregister_client_removes url s) as [Ht Ho].
  split; [exact Ho|]. rewrite Ht.
  split; [now apply dict_get_remove_same|].
  split; [intros url' Hne; now apply dict_get_remove_other|].
  split; [intros c Hc; now apply length_dict_remove with (c := c)|].
  intros Hn. split.
  - now apply unregister_client_unknown.
  - rewrite (register_client_unknown url s Hn). cbn [server_of].
    unfold unregister_client, try_except, pop_client, lookup_client. run_m.
    rewrite dict_get_app_absent, Hn, String.eqb_refl. simpl.
    rewrite dict_remove_appended by assumption. now destruct s.
Qed.

Lemma X7_witness :
  NoDup (registered two_clients) /\
  dict_get (training_clients (server_of (unregister_client "http://a" two_clients)))
           "http://a" = None /\
  List.length (training_clients (server_of (unregister_client "http://a" two_clients)))
    = 1.
Proof.
  assert (Hnd : NoDup (registered two_clients)).
  { repeat constructor; simpl; intuition discriminate. }
  split; [exact Hnd|].
  split; [|reflexivity].
  apply (X7_unregister_client_removes_one_record two_clients "http://a" Hnd).
Defined.

(** X8.  Registration is idempotent: registering a url a second time
    right after registering it leaves the coordinator exactly as the first
    registration left it (same records in the same order, same ids, the
    record idle), whether or not the url was known before. *)
Theorem X8_register_client_idempotent :
  forall url s,
    server_of (register_client url (server_of (register_client url s)))
    = server_of (register_client url s).
Proof.
  intros url s.
  destruct (dict_get (training_clients s) url) as [c|] eqn:E.
  - rewrite (register_client_known url s c E). cbn [server_of].
    rewrite (register_client_known url _
               (TrainingClient.set_status ClientTrainingStatus.IDLE c))
      by (cbn [training_clients set_training_clients];
          now rewrite dict_get_update_same, E).
    cbn [server_of training_clients set_training_clients].
    rewrite dict_update_twice. reflexivity.
  - rewrite (register_client_unknown url s E). cbn [server_of].
    rewrite (register_client_known url _
               (TrainingClient.new url (List.length (training_clients s) + 1)))
      by (cbn [training_clients set_training_clients];
          now rewrite dict_get_app_absent, E, String.eqb_refl).
    cbn [server_of training_clients set_training_clients].
    rewrite dict_update_app_notin by (now apply dict_get_None_not_in).
    cbn [dict_update]. rewrite String.eqb_refl. reflexivity.
Qed.

(* ------------------------------------------------------------------ *)
(** ** Further properties: a single contribution                        *)
(* ------------------------------------------------------------------ *)

Lemma stack_mean_single e t : stack_mean e [t] = Returned t.
Proof. reflexivity. Qed.

(** X9.  When the quorum holds and exactly one participant is
    TRAINING_FINISHED (all the others are in error), the aggregation of a
    centralized variant returns normally and the central parameters of
    that variant become exactly the parameters that participant reported:
    its (weights, bias) pair for the MNIST variants, its weight array for
    the chest X-ray variant. *)
Theorem X9_single_contribution_becomes_central
    (s : Server) (training_type : string) (c : TrainingClient.t)
    (Hq : can_update_central_model_params s = true)
    (Hone : finished_clients s = [c]) :
  (forall w b,
     is_mnist training_type = true ->
     TrainingClient.model_params c = MnistParams w b ->
     outcome_of (update_server_model_params training_type s) = Returned tt /\
     mnist_model_params (server_of (update_server_model_params training_type s))
       = MnistParams w b) /\
  (forall w,
     training_type = TrainingType.CHEST_X_RAY_PNEUMONIA ->
     TrainingClient.model_params c = ChestParams w ->
     outcome_of (update_server_model_params training_type s) = Returned tt /\
     chest_x_ray_model_params (server_of (update_server_model_params training_type s))
       = ChestParams w).
Proof.
  unfold finished_clients in Hone. fold (finished_in (training_clients s)) in Hone.
  split.
  - intros w b Hm Hp.
    assert (Hl : for_each_client collect_mnist (training_clients s) ([], [])
                 = (reset_all (training_clients s),
                    Returned ([TensorItem w], [TensorItem b]))).
    { rewrite collect_mnist_loop by (rewrite Hone; cbn [forallb]; now rewrite Hp).
      rewrite Hone. cbn [map fst snd app]. now rewrite Hp. }
    assert (Ew : torch_stack_mean [TensorItem w] = Returned w) by reflexivity.
    assert (Eb : torch_stack_mean [TensorItem b] = Returned b) by reflexivity.
    unfold update_server_model_params. run_m. rewrite Hq, Hm. simpl.
    rewrite Hl. cbn [fst snd]. rewrite Ew. cbn [fst snd]. rewrite Eb. simpl. auto.
  - intros w -> Hp.
    assert (Ew : np_stack_mean [ChestParams w] = Returned w).
    { reflexivity. }
    unfold update_server_model_params. run_m. rewrite Hq. simpl.
    rewrite collect_chest_loop. rewrite Hone. cbn [map app]. rewrite Hp.
    cbn [fst snd]. rewrite Ew. simpl. auto.
Qed.

Lemma X9_witness :
  can_update_central_model_params one_finished_one_errored = true /\
  outcome_of (update_server_model_params TrainingType.MNIST one_finished_one_errored)
    = Returned tt /\
  mnist_model_params
    (server_of (update_server_model_params TrainingType.MNIST one_finished_one_errored))
    = MnistParams (vec [q 2]) (vec [q 4]).
Proof.
  split; [reflexivity|].
  apply (X9_single_contribution_becomes_central
           one_finished_one_errored TrainingType.MNIST
           (TrainingClient.mk "http://a" 1
              ClientTrainingStatus.TRAINING_FINISHED (MnistParams (vec [q 2]) (vec [q 4])))
           eq_refl eq_refl); reflexivity.
Defined.

(* ------------------------------------------------------------------ *)
(** ** Further properties: who is registered, under which id            *)
(* ------------------------------------------------------------------ *)

Lemma identities_dict_update d u f :
  keeps_identity f ->
  map (fun kc => (fst kc, (TrainingClient.client_url (snd kc),
                           TrainingClient.client_id (snd kc))))
      (dict_update d u f)
  = map (fun kc => (fst kc, (TrainingClient.client_url (snd kc),
                             TrainingClient.client_id (snd kc)))) d.
Proof.
  intros Hf. induction d as [|[k c] d IH]; cbn [dict_update map]; auto.
  destruct (String.eqb u k); cbn [map fst snd].
  - destruct (Hf c) as [-> ->]. reflexivity.
  - now rewrite IH.
Qed.

Lemma identities_for_each_client A
    (body : TrainingClient.t -> A -> Outcome (TrainingClient.t * A)) :
  (forall c a c' a', body c a = Returned (c', a') ->
     TrainingClient.client_url c' = TrainingClient.client_url c /\
     TrainingClient.client_id c' = TrainingClient.client_id c) ->
  forall d acc,
    map (fun kc => (fst kc, (TrainingClient.client_url (snd kc),
                             TrainingClient.client_id (snd kc))))
        (fst (for_each_client body d acc))
    = map (fun kc => (fst kc, (TrainingClient.client_url (snd kc),
                               TrainingClient.client_id (snd kc)))) d.
Proof.
  intros Hb. induction d as [|[k c] d IH]; intros acc; cbn [for_each_client]; auto.
  destruct (body c acc) as [[c' acc']|e] eqn:Eb; [|reflexivity].
  specialize (IH acc'). destruct (for_each_client body d acc') as [rest r].
  cbn [fst map snd] in *. destruct (Hb _ _ _ _ Eb) as [-> ->]. now rewrite IH.
Qed.

Lemma keeps_identities_update_client u f :
  keeps_identity f -> keeps identities (update_client u f).
Proof. intros Hf s. apply identities_dict_update, Hf. Qed.

Lemma keeps_identities_loop A
    (body : TrainingClient.t -> A -> Outcome (TrainingClient.t * A)) acc :
  (forall c a c' a', body c a = Returned (c', a') ->
     TrainingClient.client_url c' = TrainingClient.client_url c /\
     TrainingClient.client_id c' = TrainingClient.client_id c) ->
  keeps identities (loop_over_clients body acc).
Proof.
  intros Hb s. unfold loop_over_clients, identities.
  pose proof (identities_for_each_client A body Hb (training_clients s) acc) as H.
  destruct (for_each_client body (training_clients s) acc) as [d r]. exact H.
Qed.

Lemma keeps_identity_set_status st : keeps_identity (TrainingClient.set_status st).
Proof. intros c. split; reflexivity. Qed.

Lemma keeps_identity_set_model_params p : keeps_identity (TrainingClient.set_model_params p).
Proof. intros c. split; reflexivity. Qed.

Lemma collect_mnist_identity c a c' a' :
  collect_mnist c a = Returned (c', a') ->
  TrainingClient.client_url c' = TrainingClient.client_url c /\
  TrainingClient.client_id c' = TrainingClient.client_id c.
Proof.
  unfold collect_mnist. destruct (is_finished c).
  - destruct (subscript (TrainingClient.model_params c) 0); [|discriminate].
    destruct (subscript (TrainingClient.model_params c) 1); [|discriminate].
    intros H. injection H as <- _. split; reflexivity.
  - intros H. injection H as <- _. split; reflexivity.
Qed.

Lemma collect_chest_identity c a c' a' :
  collect_chest c a = Returned (c', a') ->
  TrainingClient.client_url c' = TrainingClient.client_url c /\
  TrainingClient.client_id c' = TrainingClient.client_id c.
Proof.
  unfold collect_chest. destruct (is_finished c);
    intros H; injection H as <- _; split; reflexivity.
Qed.

Lemma keeps_identities_update_server_model_params ty :
  keeps identities (update_server_model_params ty).
Proof.
  unfold update_server_model_params.
  apply keeps_bind; [apply keeps_get|]; intros s.
  apply keeps_if; [|apply keeps_ret].
  apply keeps_bind; [apply keeps_emit|]; intros _.
  apply keeps_bind; [apply keeps_modify; reflexivity|]; intros _.
  apply keeps_bind; [|intros _; apply keeps_modify; reflexivity].
  repeat apply keeps_if.
  - apply keeps_bind;
      [apply keeps_identities_loop; exact collect_mnist_identity|]; intros r.
    apply keeps_bind; [apply keeps_lift|]; intros w.
    apply keeps_bind; [apply keeps_lift|]; intros b.
    apply keeps_bind; [apply keeps_modify; reflexivity|]; intros _.
    apply keeps_emit.
  - apply keeps_bind;
      [apply keeps_identities_loop; exact collect_chest_identity|]; intros r.
    apply keeps_bind; [apply keeps_lift|]; intros w.
    apply keeps_bind; [apply keeps_modify; reflexivity|]; intros _.
    apply keeps_emit.
  - apply keeps_ret.
Qed.

Lemma keeps_identities_step t : keeps identities (step t).
Proof.
  destruct t as [u ty p|u ty r]; cbn [step].
  - apply keeps_bind; [|intros _; apply keeps_ret].
    unfold Routes.update_weights.
    apply keeps_bind; [apply keeps_emit|]; intros _.
    apply keeps_try_except.
    + apply keeps_bind; [|intros _].
      { unfold lookup_client. apply keeps_bind; [apply keeps_get|]; intros s.
        destruct (dict_get _ _); [apply keeps_ret | apply keeps_raise]. }
      apply keeps_bind; [apply keeps_lift|]; intros p'.
      apply keeps_bind; [|intros _; apply keeps_ret].
      unfold update_client_model_params.
      apply keeps_bind; [apply keeps_emit|]; intros _.
      apply keeps_bind;
        [apply keeps_identities_update_client, keeps_identity_set_model_params|];
        intros _.
      apply keeps_bind;
        [apply keeps_identities_update_client, keeps_identity_set_status|]; intros _.
      apply keeps_identities_update_server_model_params.
    + apply keeps_bind; [apply keeps_emit|]; intros _. apply keeps_ret.
  - unfold do_training_client_request_resume.
    destruct r as [code|]; [|apply keeps_raise].
    apply keeps_if; [|apply keeps_emit].
    apply keeps_bind; [apply keeps_emit|]; intros _.
    apply keeps_bind;
      [apply keeps_identities_update_client, keeps_identity_set_status|]; intros _.
    apply keeps_identities_update_server_model_params.
Qed.

Lemma keeps_identities_finish_round u ty : keeps identities (Routes.finish_round u ty).
Proof.
  unfold Routes.finish_round.
  apply keeps_bind; [apply keeps_emit|]; intros _.
  apply keeps_if; [|apply keeps_ret].
  apply keeps_bind; [|intros _].
  { unfold lookup_client. apply keeps_bind; [apply keeps_get|]; intros s.
    destruct (dict_get _ _); [apply keeps_ret | apply keeps_raise]. }
  apply keeps_bind; [|intros _; apply keeps_ret].
  unfold finish_round.
  apply keeps_bind;
    [apply keeps_identities_update_client, keeps_identity_set_status|]; intros _.
  apply keeps_bind; [apply keeps_get|]; intros s.
  apply keeps_if; [|apply keeps_ret].
  apply keeps_bind; [apply keeps_modify; reflexivity|]; intros _.
  apply keeps_identities_loop.
  intros c a c' a' H. injection H as <- _. split; reflexivity.
Qed.

Lemma keeps_identities_start_training ty : keeps identities (start_training ty).
Proof.
  unfold start_training.
  apply keeps_bind; [apply keeps_get|]; intros s.
  apply keeps_if.
  { apply keeps_bind; [apply keeps_emit|]; intros _.
    apply keeps_for_each. intros c. apply keeps_emit. }
  apply keeps_if; [apply keeps_emit|].
  apply keeps_bind; [apply keeps_modify; reflexivity|]; intros _.
  apply keeps_bind; [apply keeps_get|]; intros s1.
  destruct (select_config ty s1) as [p [c|]].
  - apply keeps_bind; [apply keeps_ret|]; intros c'.
    apply keeps_bind; [apply keeps_emit|]; intros _.
    apply keeps_bind; [apply keeps_emit|]; intros _.
    apply keeps_bind; [apply keeps_modify; reflexivity|]; intros _.
    apply keeps_for_each. intros [k cl]. unfold do_training_client_request_begin.
    apply keeps_bind; [apply keeps_emit|]; intros _.
    apply keeps_bind;
      [apply keeps_identities_update_client, keeps_identity_set_status|]; intros _.
    apply keeps_emit.
  - apply keeps_bind; [apply keeps_raise|]; intros c'.
    apply keeps_bind; [apply keeps_emit|]; intros _.
    apply keeps_bind; [apply keeps_emit|]; intros _.
    apply keeps_bind; [apply keeps_modify; reflexivity|]; intros _.
    apply keeps_for_each. intros [k cl]. unfold do_training_client_request_begin.
    apply keeps_bind; [apply keeps_emit|]; intros _.
    apply keeps_bind;
      [apply keeps_identities_update_client, keeps_identity_set_status|]; intros _.
    apply keeps_emit.
Qed.

Lemma perform_keeps_identities op s :
  is_registry_op op = false ->
  identities (server_of (perform op s)) = identities s.
Proof.
  destruct op as [ty|t|u ty|op]; cbn [is_registry_op perform]; intros H;
    try discriminate.
  - apply keeps_identities_start_training.
  - apply keeps_identities_step.
  - apply keeps_bind; [apply keeps_identities_finish_round|].
    intros _. apply keeps_ret.
Qed.

Lemma registry_well_formed_identities s s' :
  identities s' = identities s -> registry_well_formed s -> registry_well_formed s'.
Proof.
  unfold registry_well_formed, registered, keys, identities. intros E [Hnd Hu].
  assert (Ek : map fst (training_clients s') = map fst (training_clients s)).
  { apply (f_equal (map fst)) in E. rewrite !map_map in E. exact E. }
  split; [now rewrite Ek|].
  intros k c Hin.
  apply (in_map (fun kc => (fst kc, (TrainingClient.client_url (snd kc),
                                     TrainingClient.client_id (snd kc))))) in Hin.
  rewrite E in Hin. apply in_map_iff in Hin as ([k0 c0] & E0 & Hin0).
  cbn [fst snd] in E0. injection E0 as -> Eu _. rewrite <- Eu. now apply Hu.
Qed.

Lemma in_keys_dict_remove d u k : In k (keys (dict_remove d u)) -> In k (keys d).
Proof.
  induction d as [|[k' c'] d IH]; cbn [dict_remove keys map fst]; auto.
  destruct (String.eqb u k'); cbn [keys map fst]; [now right|].
  intros [E|H]; [now left | right; now apply IH].
Qed.

Lemma NoDup_keys_dict_remove d u : NoDup (keys d) -> NoDup (keys (dict_remove d u)).
Proof.
  induction d as [|[k c] d IH]; cbn [dict_remove keys map fst]; auto.
  intros Hnd. inversion Hnd as [|? ? Hk Hd]; subst.
  destruct (String.eqb u k); auto.
  cbn [keys map fst]. constructor; [|now apply IH].
  intros Hin. apply Hk. now apply in_keys_dict_remove in Hin.
Qed.

Lemma in_dict_remove d u k c : In (k, c) (dict_remove d u) -> In (k, c) d.
Proof.
  induction d as [|[k' c'] d IH]; cbn [dict_remove]; auto.
  destruct (String.eqb u k'); [now right|].
  intros [E|H]; [now left | right; auto].
Qed.

Lemma registry_op_well_formed op s :
  registry_well_formed s -> registry_well_formed (server_of (apply_op op s)).
Proof.
  intros Hwf. destruct op as [u|u]; cbn [apply_op].
  - destruct (dict_get (training_clients s) u) as [c|] eqn:E.
    + rewrite (register_client_known u s c E). cbn [server_of].
      apply (registry_well_formed_identities s); auto.
      apply identities_dict_update, keeps_identity_set_status.
    + rewrite (register_client_unknown u s E). cbn [server_of].
      destruct Hwf as [Hnd Hu].
      unfold registry_well_formed, registered, keys in *.
      cbn [training_clients set_training_clients]. split.
      * rewrite map_app. cbn [map fst].
        apply NoDup_app; [exact Hnd | repeat constructor; simpl; tauto |].
        intros x Hx [<-|[]]. apply dict_get_None_not_in in E. contradiction.
      * intros k c Hin. apply in_app_iff in Hin as [Hin|[Hin|[]]]; auto.
        injection Hin as <- <-. reflexivity.
  - destruct (unregister_client_removes u s) as [Ht _].
    destruct Hwf as [Hnd Hu]. unfold registry_well_formed, registered in *.
    rewrite Ht. split; [now apply NoDup_keys_dict_remove|].
    intros k c Hin. apply Hu. now apply in_dict_remove in Hin.
Qed.

Lemma perform_well_formed op s :
  registry_well_formed s -> registry_well_formed (server_of (perform op s)).
Proof.
  intros Hwf. destruct (is_registry_op op) eqn:E.
  - destruct op; try discriminate. now apply registry_op_well_formed.
  - apply (registry_well_formed_identities s); auto.
    now apply perform_keeps_identities.
Qed.

(** X10.  Whatever is done to a coordinator created by [Server()], in any
    order (round requests, reports, dispatch answers, finish callbacks,
    registrations, unregistrations), no url is registered twice and every
    record is registered under its own url.  And only registrations and
    unregistrations change who is registered: every other operation
    leaves the urls and ids of all records, and their order, exactly as
    they were. *)
Theorem X10_registry_stays_well_formed :
  (forall ops weights bias,
     registry_well_formed (perform_all ops (init weights bias))) /\
  (forall op s,
     is_registry_op op = false ->
     identities (server_of (perform op s)) = identities s).
Proof.
  split; [|exact perform_keeps_identities].
  intros ops weights bias.
  assert (H0 : registry_well_formed (init weights bias)).
  { split; [constructor | intros k c []]. }
  revert H0. generalize (init weights bias) as s.
  induction ops as [|op ops IH]; intros s Hwf; cbn [perform_all]; auto.
  apply IH. now apply perform_well_formed.
Qed.

(* ------------------------------------------------------------------ *)
(** ** Further properties: a centralized round in which all report      *)
(* ------------------------------------------------------------------ *)

Lemma update_weights_at_quorum u ty p s c :
  dict_get (training_clients s) u = Some c ->
  outcome_of (update_server_model_params ty (with_report u p s)) = Returned tt ->
  Routes.update_weights u ty (Returned p) s
  = mkOut (server_of (update_server_model_params ty (with_report u p s)))
          (PrintRouteRequest "PUT /model_params" u ty :: PrintNewModelParams u
             :: effects_of (update_server_model_params ty (with_report u p s)))
          (Returned 200).
Proof.
  intros Hg Ho.
  unfold Routes.update_weights, try_except, lookup_client, update_client_model_params.
  run_m. rewrite Hg. simpl. rewrite dict_update_twice.
  match goal with
  | |- context [update_server_model_params ty ?s1] =>
      change s1 with (with_report u p s)
  end.
  destruct (update_server_model_params ty (with_report u p s)) as [s' es [[]|e]];
    [|discriminate].
  simpl. now rewrite !app_nil_r.
Qed.

Lemma step_report u ty p s s' es n :
  Routes.update_weights u ty (Returned p) s = mkOut s' es (Returned n) ->
  step (ReportResult u ty p) s = mkOut s' es (Returned tt).
Proof.
  intros H. cbn [step]. unfold bind. rewrite H. unfold ret. now rewrite app_nil_r.
Qed.

Lemma reported_app_notin done l u :
  ~ In u (map fst done) -> reported (done ++ l) u = reported l u.
Proof.
  induction done as [|[u' wb] done IH]; cbn [app reported map fst]; auto.
  intros H. destruct (String.eqb_spec u u') as [->|Hne].
  - exfalso. apply H. now left.
  - apply IH. intros Hin. apply H. now right.
Qed.

Lemma reported_here done u wb rest :
  NoDup (map fst (done ++ (u, wb) :: rest)) ->
  reported (done ++ (u, wb) :: rest) u = Some wb.
Proof.
  intros Hnd. rewrite reported_app_notin.
  - cbn [reported]. now rewrite String.eqb_refl.
  - rewrite map_app in Hnd. cbn [map fst] in Hnd.
    apply NoDup_remove_2 in Hnd. intros Hin. apply Hnd.
    apply in_app_iff. now left.
Qed.

Lemma reported_in all u wb : reported all u = Some wb -> In (u, wb) all.
Proof.
  induction all as [|[u' wb'] all IH]; cbn [reported]; [discriminate|].
  destruct (String.eqb_spec u u') as [->|Hne].
  - intros H. injection H as ->. now left.
  - intros H. right. auto.
Qed.

Lemma same_shapes_of_shape sh rows :
  (forall r, In r rows -> shape r = sh) -> same_shapes rows = true.
Proof.
  destruct rows as [|t rest]; [reflexivity|]. intros H. cbn [same_shapes].
  apply same_shape_spec. intros r Hr. rewrite (H t), (H r); simpl; auto.
Qed.

Lemma reported_rows_shape nw nb all urls :
  uniform_reports nw nb all ->
  (forall r, In r (reported_rows fst all urls) -> shape r = nw) /\
  (forall r, In r (reported_rows snd all urls) -> shape r = nb).
Proof.
  intros Hu. unfold reported_rows.
  split; intros r Hr; apply in_flat_map in Hr as (u & _ & Hr);
    destruct (reported all u) as [[w b]|] eqn:E; try contradiction;
    destruct Hr as [<-|[]]; apply reported_in in E; apply Hu in E; tauto.
Qed.

Lemma stored_rows all d :
  (forall k c, In (k, c) d ->
     exists w b, reported all k = Some (w, b) /\
                 TrainingClient.model_params c = MnistParams w b) ->
  map (fun c => weights_of (TrainingClient.model_params c)) (values d)
    = reported_rows fst all (keys d) /\
  map (fun c => bias_of (TrainingClient.model_params c)) (values d)
    = reported_rows snd all (keys d).
Proof.
  unfold reported_rows.
  induction d as [|[k c] d IH]; cbn [values keys map flat_map fst snd]; auto.
  intros H. destruct (H k c (or_introl eq_refl)) as (w & b & -> & ->).
  destruct IH as [IH1 IH2]; [intros k' c' Hin; apply H; now right|].
  cbn [weights_of bias_of fst snd app].
  unfold values, keys in IH1, IH2. rewrite IH1, IH2. auto.
Qed.

Lemma filter_all A (f : A -> bool) l :
  (forall x, In x l -> f x = true) -> filter f l = l.
Proof.
  induction l as [|x l IH]; cbn [filter]; auto.
  intros H. rewrite (H x) by now left. f_equal. apply IH. intros y Hy. apply H. now right.
Qed.

Lemma reporting_after_report all done u w b rest s :
  all = done ++ (u, (w, b)) :: rest ->
  NoDup (map fst all) ->
  NoDup (registered s) ->
  reporting all ((u, (w, b)) :: rest) s ->
  reporting all rest (with_report u (MnistParams w b) s).
Proof.
  intros Hall Hnd Hreg Hr k c Hin.
  assert (Hu : ~ In u (map fst rest)).
  { rewrite Hall, map_app in Hnd. apply NoDup_app_remove_l in Hnd.
    cbn [map fst] in Hnd. now inversion Hnd. }
  unfold with_report in Hin. cbn [training_clients set_training_clients] in Hin.
  destruct (String.eqb_spec k u) as [->|Hne].
  - apply in_dict_update_same in Hin as (c0 & _ & ->); auto.
    split; [intros H; contradiction|]. intros _. split; [reflexivity|].
    exists w, b. split; [|reflexivity].
    rewrite Hall. apply reported_here. now rewrite <- Hall.
  - apply in_dict_update_other in Hin; auto.
    destruct (Hr k c Hin) as [H1 H2]. split.
    + intros H. apply H1. cbn [map fst]. now right.
    + intros H. apply H2. cbn [map fst]. intros [E|H']; [congruence|contradiction].
Qed.

(** Reports of the participants still awaited, each once and in any
    order: nothing is aggregated before the last one, which averages what
    everybody reported. *)
Lemma reports_close_round ty all nw nb :
  is_mnist ty = true ->
  uniform_reports nw nb all ->
  NoDup (map fst all) ->
  forall pending done s,
    all = done ++ pending ->
    pending <> [] ->
    NoDup (registered s) ->
    (forall u, In u (map fst pending) -> In u (registered s)) ->
    reporting all pending s ->
    updates_performed (snd (run (reports_of ty pending) s)) = 1 /\
    aggregations_entered (snd (run (reports_of ty pending) s)) = 1 /\
    status (fst (run (reports_of ty pending) s)) = ServerStatus.IDLE /\
    (forall c, In c (values (training_clients (fst (run (reports_of ty pending) s)))) ->
       TrainingClient.status c = ClientTrainingStatus.IDLE) /\
    registered (fst (run (reports_of ty pending) s)) = registered s /\
    chest_x_ray_model_params (fst (run (reports_of ty pending) s))
      = chest_x_ray_model_params s /\
    round (fst (run (reports_of ty pending) s)) = round s /\
    exists w b,
      mnist_model_params (fst (run (reports_of ty pending) s)) = MnistParams w b /\
      is_mean_of_rows (reported_rows fst all (registered s)) w /\
      is_mean_of_rows (reported_rows snd all (registered s)) b.
Proof.
  intros Hm Hu Hnd. unfold run.
  induction pending as [|[u [w b]] rest IH]; intros done s Hall Hne Hreg Hin Hr;
    [congruence|].
  assert (Hur : In u (registered s)) by (apply Hin; cbn [map fst]; now left).
  destruct (dict_get (training_clients s) u) as [c|] eqn:Eg;
    [|apply dict_get_None_not_in in Eg; contradiction].
  set (s1 := with_report u (MnistParams w b) s).
  assert (Hk1 : registered s1 = registered s) by apply keys_dict_update.
  assert (Hr1 : reporting all rest s1)
    by (apply (reporting_after_report all done u w b rest s); auto).
  cbn [reports_of map fst snd run_from is_dispatch_answer andb negb].
  destruct rest as [|[u' [w' b']] rest'].
  - (* the last report: everybody has reported *)
    assert (Hfin : forall c', In c' (values (training_clients s1)) -> is_finished c' = true).
    { intros c' Hc'. unfold values in Hc'.
      apply in_map_iff in Hc' as ([k c''] & <- & Hc').
      destruct (Hr1 k c'' Hc') as [_ H2]. cbn [snd]. unfold is_finished.
      destruct H2 as [-> _]; auto. }
    assert (Hq : can_update_central_model_params s1 = true).
    { apply can_update_iff. intros c' Hc'. left.
      apply Hfin in Hc'. unfold is_finished in Hc'.
      now destruct (client_status_eqb_spec (TrainingClient.status c')
                      ClientTrainingStatus.TRAINING_FINISHED). }
    assert (Hfc : finished_clients s1 = values (training_clients s1))
      by (apply filter_all; exact Hfin).
    assert (Hst : forall k c', In (k, c') (training_clients s1) ->
              exists w0 b0, reported all k = Some (w0, b0) /\
                            TrainingClient.model_params c' = MnistParams w0 b0).
    { intros k c' Hc'. destruct (Hr1 k c' Hc') as [_ H2].
      destruct H2 as [_ H2]; auto. }
    destruct (stored_rows all _ Hst) as [Rw Rb].
    destruct (reported_rows_shape nw nb all (keys (training_clients s1)) Hu) as [Lw Lb].
    assert (Hne1 : finished_clients s1 <> []).
    { rewrite Hfc. intros E. apply in_keys_entry in Hur as [c0 Hc0].
      assert (Hc1 : In u (registered s1)) by (rewrite Hk1; change u with (fst (u, c0));
                                             now apply in_map).
      unfold registered, keys, values in *.
      apply map_eq_nil in E. rewrite E in Hc1. contradiction. }
    assert (Hwf : contributions_well_formed ty s1 = true).
    { unfold contributions_well_formed. rewrite Hm, Hfc, Rw, Rb.
      rewrite (same_shapes_of_shape nw _ Lw), (same_shapes_of_shape nb _ Lb).
      rewrite !andb_true_r. apply forallb_forall. intros c' Hc'.
      unfold values in Hc'. apply in_map_iff in Hc' as ([k c''] & <- & Hc').
      cbn [snd]. destruct (Hst k c'' Hc') as (w0 & b0 & _ & ->). reflexivity. }
    destruct (update_server_model_params_mnist ty s1 Hq Hm Hne1 Hwf)
      as (wm & bm & Eu & Mw & Mb).
    assert (Ew := update_weights_at_quorum u ty (MnistParams w b) s c Eg).
    fold s1 in Ew. rewrite Eu in Ew. cbn [outcome_of server_of effects_of] in Ew.
    specialize (Ew eq_refl).
    rewrite (step_report _ _ _ _ _ _ _ Ew).
    cbn [server_of effects_of outcome_of has_raised fst snd run_from map app].
    cbn [updates_performed aggregations_entered status training_clients
         chest_x_ray_model_params mnist_model_params round].
    split; [reflexivity|]. split; [reflexivity|]. split; [reflexivity|].
    split.
    { intros c' Hc'. rewrite values_reset_all in Hc'.
      apply in_map_iff in Hc' as (c0 & <- & Hc0).
      unfold reset_if_finished. now rewrite (Hfin c0 Hc0). }
    split.
    { unfold registered. cbn [training_clients]. rewrite keys_reset_all. exact Hk1. }
    split; [reflexivity|]. split; [reflexivity|].
    exists wm, bm. split; [reflexivity|].
    rewrite Hfc, Rw in Mw. rewrite Hfc, Rb in Mb.
    unfold registered in Hk1. rewrite Hk1 in Mw, Mb. auto.
  - (* somebody has not reported yet *)
    assert (Hu' : In u' (registered s)).
    { apply Hin. cbn [map fst]. right. now left. }
    assert (Hq : can_update_central_model_params s1 = false).
    { rewrite <- Hk1 in Hu'. apply in_keys_entry in Hu' as [c' Hc'].
      apply (not_terminal_blocks s1 u' c' Hc').
      destruct (Hr1 u' c' Hc') as [H1 _]. unfold is_terminal.
      rewrite H1; [reflexivity|]. cbn [map fst]. now left. }
    rewrite (step_report _ _ _ _ _ _ _
               (update_weights_registered u ty (MnistParams w b) s c Eg Hq)).
    cbn [server_of effects_of outcome_of]. fold s1.
    specialize (IH (done ++ [(u, (w, b))]) s1).
    change (map (fun r => ReportResult (fst r) ty (MnistParams (fst (snd r)) (snd (snd r))))
                ((u', (w', b')) :: rest'))
      with (reports_of ty ((u', (w', b')) :: rest')).
    destruct (run_from true (reports_of ty ((u', (w', b')) :: rest')) s1) as [s2 es2].
    cbn [fst snd] in *.
    destruct IH as (I1 & I2 & I3 & I4 & I5 & I6 & I7 & wm & bm & I8 & I9 & I10).
    { now rewrite <- app_assoc. }
    { discriminate. }
    { now rewrite Hk1. }
    { intros x Hx. rewrite Hk1. apply Hin. cbn [map fst]. now right. }
    { exact Hr1. }
    repeat split; auto; try congruence.
    exists wm, bm. rewrite <- Hk1. auto.
Qed.

(** X11.  A round of an MNIST variant is requested on an idle server
    with clients, every dispatch is accepted, and then every registered
    participant reports a (weights, bias) pair, each once, in any order,
    all pairs of one shape.  Then the aggregation is entered exactly once
    and the central parameters are replaced exactly once, by the last
    report; afterwards the server is IDLE, every participant is IDLE, and
    the central MNIST parameters are the means of the reported weights
    and of the reported biases, taken in registry order as
    [torch.stack(...).mean(0)] computes them; the chest parameters are
    untouched and the round counter is one more than before the round. *)
Theorem X11_centralized_round_averages_all_reports
    (s : Server) (training_type : string)
    (answers : list (string * PostResult))
    (reports : list (string * (Tensor * Tensor))) (sw sb : list nat)
    (Hidle : status s = ServerStatus.IDLE)
    (Hclients : training_clients s <> [])
    (Hnd : NoDup (registered s))
    (Hty : is_mnist training_type = true)
    (Hall : Permutation (map fst reports) (registered s))
    (Haccepted : forallb accepted answers = true)
    (Hshape : uniform_reports sw sb reports) :
  updates_performed
    (snd (run (reports_of training_type reports)
              (after (start_training_call training_type answers) s))) = 1 /\
  aggregations_entered
    (snd (run (reports_of training_type reports)
              (after (start_training_call training_type answers) s))) = 1 /\
  status (fst (run (reports_of training_type reports)
                   (after (start_training_call training_type answers) s))) = ServerStatus.IDLE /\
  (forall c,
     In c (values (training_clients
                     (fst (run (reports_of training_type reports)
                               (after (start_training_call training_type answers) s))))) ->
     TrainingClient.status c = ClientTrainingStatus.IDLE) /\
  chest_x_ray_model_params
    (fst (run (reports_of training_type reports)
              (after (start_training_call training_type answers) s)))
    = chest_x_ray_model_params s /\
  round (fst (run (reports_of training_type reports)
                  (after (start_training_call training_type answers) s))) = round s + 1 /\
  exists w b,
    mnist_model_params
      (fst (run (reports_of training_type reports)
                (after (start_training_call training_type answers) s))) = MnistParams w b /\
    is_mean_of_rows (reported_rows fst reports (registered s)) w /\
    is_mean_of_rows (reported_rows snd reports (registered s)) b.
Proof.
  assert (Ht : in_table training_type = true).
  { unfold in_table. unfold is_mnist in Hty. now rewrite Hty. }
  destruct (start_training_dispatched training_type s Hidle Hclients Ht Hnd) as [Hs _].
  unfold after.
  rewrite (proj1 (start_training_call_accepted training_type answers s Haccepted)).
  set (s0 := server_of (start_training training_type s)) in *.
  assert (Hk0 : registered s0 = registered s).
  { rewrite Hs. unfold registered, keys. cbn [training_clients].
    rewrite map_map. reflexivity. }
  assert (Hne : reports <> []).
  { intros ->. apply Permutation_nil in Hall. unfold registered, keys in Hall.
    apply map_eq_nil in Hall. contradiction. }
  assert (Hpn : NoDup (map fst reports)).
  { apply Permutation_NoDup with (l := registered s); auto. now apply Permutation_sym. }
  assert (Hr0 : reporting reports reports s0).
  { intros k c Hin. rewrite Hs in Hin. cbn [training_clients] in Hin.
    apply in_map_iff in Hin as ([k0 c0] & E & Hin0).
    unfold mark_requested in E. cbn [fst snd] in E. injection E as <- <-.
    split; [reflexivity|]. intros Hn. exfalso. apply Hn.
    apply Permutation_in with (l := registered s); [now apply Permutation_sym|].
    change k0 with (fst (k0, c0)). now apply in_map. }
  destruct (reports_close_round training_type reports sw sb Hty Hshape Hpn
              reports [] s0 eq_refl Hne)
    as (R1 & R2 & R3 & R4 & R5 & R6 & R7 & w & b & R8 & R9 & R10); auto.
  { now rewrite Hk0. }
  { intros u Hu. rewrite Hk0. now apply Permutation_in with (l := map fst reports). }
  split; [exact R1|]. split; [exact R2|]. split; [exact R3|]. split; [exact R4|].
  split; [rewrite R6, Hs; reflexivity|].
  split; [rewrite R7, Hs; reflexivity|].
  exists w, b. rewrite <- Hk0. auto.
Qed.

Lemma X11_witness :
  status three_clients = ServerStatus.IDLE /\
  NoDup (registered three_clients) /\
  Permutation (map fst three_reported) (registered three_clients) /\
  updates_performed
    (snd (run (reports_of TrainingType.MNIST three_reported)
              (after (start_training_call TrainingType.MNIST three_accepted)
                     three_clients))) = 1 /\
  status (fst (run (reports_of TrainingType.MNIST three_reported)
                   (after (start_training_call TrainingType.MNIST three_accepted)
                          three_clients)))
    = ServerStatus.IDLE.
Proof.
  assert (Hc : training_clients three_clients <> []) by (simpl; discriminate).
  assert (Hnd : NoDup (registered three_clients)).
  { repeat constructor; simpl; intuition discriminate. }
  assert (Hp : Permutation (map fst three_reported) (registered three_clients)).
  { apply perm_swap. }
  assert (Hu : uniform_reports [1] [1] three_reported).
  { intros u w b Hin. simpl in Hin.
    destruct Hin as [E|[E|[E|[]]]]; injection E as <- <- <-; split; reflexivity. }
  split; [reflexivity|]. split; [exact Hnd|]. split; [exact Hp|].
  destruct (X11_centralized_round_averages_all_reports
              three_clients TrainingType.MNIST three_accepted three_reported [1] [1]
              eq_refl Hc Hnd eq_refl Hp eq_refl Hu) as (H1 & _ & H3 & _).
  split; [exact H1 | exact H3].
Defined.

(* ------------------------------------------------------------------ *)
(** ** Further properties: failures inside a report                     *)
(* ------------------------------------------------------------------ *)

(** X12.  A report whose parameters cannot be read from the request
    changes nothing in the coordinator.  The [try] of the route covers the
    reading of the parameters, so a [KeyError] raised there is answered
    401 exactly like an unknown client, even for a registered one; any
    other exception raised there escapes the route.  For an unknown client
    the answer is 401 before the parameters are read at all. *)
Theorem X12_unreadable_report_changes_nothing :
  forall s url training_type e,
    server_of (Routes.update_weights url training_type (Raised e) s) = s /\
    outcome_of (Routes.update_weights url training_type (Raised e) s)
    = match dict_get (training_clients s) url with
      | None => Returned 401
      | Some _ => if is_KeyError e then Returned 401 else Raised e
      end.
Proof.
  intros s url ty e.
  unfold Routes.update_weights, try_except, lookup_client. run_m.
  destruct (dict_get (training_clients s) url); simpl; [|auto].
  destruct (is_KeyError e); simpl; auto.
Qed.

Lemma stack_mean_raises e rows x :
  stack_mean e rows = Raised x -> x = e /\ (rows = [] \/ same_shapes rows = false).
Proof.
  unfold stack_mean. destruct rows as [|t rest]; [intros H; split; [congruence|auto]|].
  cbn [same_shapes].
  destruct (same_shape t rest); [discriminate|]. intros H. split; [congruence|auto].
Qed.

(** X13.  An aggregation over contributions of the aggregated variant
    raises only in [stack], because nobody is FINISHED or because the
    contributions are not of one shape; the exception is the
    [RuntimeError] of torch for the MNIST variants and the [ValueError] of
    numpy for the chest X-ray variant.  Then nothing is replaced: both
    central parameter sets and the round counter are exactly as before;
    but the participants that were FINISHED have been reset to IDLE
    already, and the server is left in UPDATING_MODEL_PARAMS. *)
Theorem X13_failed_aggregation_replaces_nothing
    (s : Server) (training_type : string) (e : Exn)
    (Hvariant : contributions_of_variant training_type s = true)
    (Hraised : outcome_of (update_server_model_params training_type s) = Raised e) :
  mnist_model_params (server_of (update_server_model_params training_type s))
    = mnist_model_params s /\
  chest_x_ray_model_params (server_of (update_server_model_params training_type s))
    = chest_x_ray_model_params s /\
  round (server_of (update_server_model_params training_type s)) = round s /\
  status (server_of (update_server_model_params training_type s))
    = ServerStatus.UPDATING_MODEL_PARAMS /\
  training_clients (server_of (update_server_model_params training_type s))
    = reset_all (training_clients s) /\
  can_update_central_model_params s = true /\
  is_centralized training_type = true /\
  e = (if is_mnist training_type then RuntimeError else ValueError) /\
  (finished_clients s = [] \/ contributions_well_formed training_type s = false).
Proof.
  revert Hraised Hvariant.
  unfold update_server_model_params, contributions_of_variant,
    contributions_well_formed, is_centralized, finished_clients.
  fold (finished_in (training_clients s)). run_m.
  destruct (can_update_central_model_params s); simpl; [|discriminate].
  destruct (is_mnist training_type); simpl.
  - intros H Hp. revert H. rewrite (collect_mnist_loop _ _ Hp). simpl.
    rewrite <- (map_map (fun c => weights_of (TrainingClient.model_params c)) TensorItem).
    rewrite <- (map_map (fun c => bias_of (TrainingClient.model_params c)) TensorItem).
    rewrite !torch_stack_mean_tensors. rewrite Hp. simpl.
    destruct (stack_mean RuntimeError (map _ (finished_in (training_clients s))))
      as [w|x] eqn:Ew; simpl.
    + destruct (stack_mean RuntimeError
                  (map (fun c => bias_of (TrainingClient.model_params c))
                       (finished_in (training_clients s))))
        as [b|x] eqn:Eb; simpl; [discriminate|].
      intros H. injection H as <-. apply stack_mean_raises in Eb as [-> [Eb|Eb]].
      * apply map_eq_nil in Eb. repeat split; auto.
      * rewrite Eb, andb_false_r. repeat split; auto.
    + intros H. injection H as <-. apply stack_mean_raises in Ew as [-> [Ew|Ew]].
      * apply map_eq_nil in Ew. repeat split; auto.
      * rewrite Ew. repeat split; auto.
  - destruct (String.eqb training_type TrainingType.CHEST_X_RAY_PNEUMONIA); simpl;
      [|discriminate].
    intros H Hp. revert H. rewrite collect_chest_loop. simpl.
    rewrite np_stack_mean_arrays by now rewrite forallb_map_compose.
    rewrite map_map. rewrite Hp. simpl.
    destruct (stack_mean ValueError _) as [w|x] eqn:Ew; simpl; [discriminate|].
    intros H. injection H as <-. apply stack_mean_raises in Ew as [-> [Ew|Ew]].
    + apply map_eq_nil in Ew. repeat split; auto.
    + rewrite Ew. repeat split; auto.
Qed.

Lemma X13_witness :
  contributions_of_variant TrainingType.MNIST two_finished_mismatched = true /\
  outcome_of (update_server_model_params TrainingType.MNIST two_finished_mismatched)
    = Raised RuntimeError /\
  status (server_of (update_server_model_params TrainingType.MNIST two_finished_mismatched))
    = ServerStatus.UPDATING_MODEL_PARAMS /\
  statuses (server_of (update_server_model_params TrainingType.MNIST two_finished_mismatched))
    = [ClientTrainingStatus.IDLE; ClientTrainingStatus.IDLE].
Proof.
  split; [reflexivity|]. split; [reflexivity|].
  destruct (X13_failed_aggregation_replaces_nothing
              two_finished_mismatched TrainingType.MNIST RuntimeError eq_refl eq_refl)
    as (_ & _ & _ & H4 & H5 & _).
  split; [exact H4|]. unfold statuses. rewrite H5. reflexivity.
Defined.

(* ------------------------------------------------------------------ *)
(** ** Further properties: what starting a round does to the state      *)
(* ------------------------------------------------------------------ *)

(** X14.  A round request for a training type of the table on an idle
    server with clients is accepted whatever the statuses of the clients
    are.  When every dispatch is accepted by its client, the call returns
    normally, has advanced the round counter by one, set the server status
    to CLIENTS_TRAINING and marked every registered client
    TRAINING_REQUESTED; urls, ids, stored parameters and both central
    parameter sets are unchanged.  Right after it neither the readiness
    predicate nor the quorum predicate holds. *)
Theorem X14_accepted_round_marks_every_client
    (s : Server) (training_type : string) (answers : list (string * PostResult))
    (Hidle : status s = ServerStatus.IDLE)
    (Hclients : training_clients s <> [])
    (Htable : in_table training_type = true)
    (Hnd : NoDup (registered s))
    (Haccepted : forallb accepted answers = true) :
  outcome_of (start_training_call training_type answers s) = Returned tt /\
  status (server_of (start_training_call training_type answers s))
    = ServerStatus.CLIENTS_TRAINING /\
  round (server_of (start_training_call training_type answers s)) = round s + 1 /\
  (forall c,
     In c (values (training_clients
                     (server_of (start_training_call training_type answers s)))) ->
     TrainingClient.status c = ClientTrainingStatus.TRAINING_REQUESTED) /\
  identities (server_of (start_training_call training_type answers s)) = identities s /\
  stored_params (server_of (start_training_call training_type answers s))
    = stored_params s /\
  mnist_model_params (server_of (start_training_call training_type answers s))
    = mnist_model_params s /\
  chest_x_ray_model_params (server_of (start_training_call training_type answers s))
    = chest_x_ray_model_params s /\
  can_do_training (server_of (start_training_call training_type answers s)) = false /\
  can_update_central_model_params
    (server_of (start_training_call training_type answers s)) = false.
Proof.
  destruct (start_training_call_accepted training_type answers s Haccepted) as [-> ->].
  destruct (start_training_dispatched training_type s Hidle Hclients Htable Hnd)
    as [Hs Ho].
  assert (Hreq : forall c,
            In c (values (training_clients (server_of (start_training training_type s)))) ->
            TrainingClient.status c = ClientTrainingStatus.TRAINING_REQUESTED).
  { intros c Hc. rewrite Hs in Hc. cbn [training_clients] in Hc.
    unfold values in Hc. rewrite map_map in Hc.
    apply in_map_iff in Hc as (kc & <- & _). reflexivity. }
  assert (Hex : exists c,
            In c (values (training_clients (server_of (start_training training_type s))))).
  { rewrite Hs. cbn [training_clients].
    destruct (training_clients s) as [|[k c] d]; [contradiction|].
    eexists. left. reflexivity. }
  destruct Hex as [c0 Hc0].
  split; [exact Ho|].
  split; [rewrite Hs; reflexivity|].
  split; [rewrite Hs; reflexivity|].
  split; [exact Hreq|].
  split; [apply keeps_identities_start_training|].
  split; [rewrite Hs; unfold stored_params; cbn [training_clients];
          apply stored_params_mark|].
  split; [rewrite Hs; reflexivity|].
  split; [rewrite Hs; reflexivity|].
  split.
  - apply not_true_is_false. intros H.
    apply (proj1 (can_do_training_iff _) H) in Hc0 as Hc1.
    rewrite (Hreq c0 Hc0) in Hc1. destruct Hc1; discriminate.
  - apply not_true_is_false. intros H.
    apply (proj1 (can_update_iff _) H) in Hc0 as Hc1.
    rewrite (Hreq c0 Hc0) in Hc1. destruct Hc1; discriminate.
Qed.

Lemma X14_witness :
  status one_finished_one_errored = ServerStatus.CLIENTS_TRAINING /\
  status (set_status ServerStatus.IDLE one_finished_one_errored) = ServerStatus.IDLE /\
  in_table TrainingType.CHEST_X_RAY_PNEUMONIA = true /\
  NoDup (registered (set_status ServerStatus.IDLE one_finished_one_errored)) /\
  forallb accepted [("http://b", HttpResponse 200); ("http://a", HttpResponse 200)] = true /\
  statuses (server_of (start_training_call TrainingType.CHEST_X_RAY_PNEUMONIA
                         [("http://b", HttpResponse 200); ("http://a", HttpResponse 200)]
                         (set_status ServerStatus.IDLE one_finished_one_errored)))
    = [ClientTrainingStatus.TRAINING_REQUESTED; ClientTrainingStatus.TRAINING_REQUESTED] /\
  round (server_of (start_training_call TrainingType.CHEST_X_RAY_PNEUMONIA
                      [("http://b", HttpResponse 200); ("http://a", HttpResponse 200)]
                      (set_status ServerStatus.IDLE one_finished_one_errored)))
    = 2.
Proof.
  assert (Hc : training_clients (set_status ServerStatus.IDLE one_finished_one_errored)
               <> []) by (simpl; discriminate).
  assert (Hnd : NoDup (registered (set_status ServerStatus.IDLE one_finished_one_errored))).
  { repeat constructor; simpl; intuition discriminate. }
  split; [reflexivity|]. split; [reflexivity|]. split; [reflexivity|].
  split; [exact Hnd|]. split; [reflexivity|]. split; [reflexivity|].
  apply (X14_accepted_round_marks_every_client
           (set_status ServerStatus.IDLE one_finished_one_errored)
           TrainingType.CHEST_X_RAY_PNEUMONIA
           [("http://b", HttpResponse 200); ("http://a", HttpResponse 200)]
           eq_refl Hc eq_refl Hnd eq_refl).
Defined.
